(** * rejected.consumer: the per-message execution engine

    A shallow embedding of [rejected/consumer.py] (classes [Consumer] and
    [SmartConsumer]) together with the properties its specification
    states about it.

    Conventions of the embedding.
    - The consumer object is a record; every method is a function in a
      state-and-exception monad over that record.  A raised exception does
      not roll the state back, as in Python.
    - Python 3 semantics are modelled ([_PYTHON3 = True]).
    - Logging and the Sentry context are left out: they have no effect on
      the consumer, on the message or on what is published.
    - Observable effects (calls of the user hooks, codec invocations,
      [basic_publish] calls) are appended to a trace kept in the state.
    - The user's [prepare] and [process] are scripts of calls of the
      consumer's public methods; a coroutine is a script with a suspension
      point. *)

From Stdlib Require Import PrimFloat.
From Stdlib Require FloatOps.
From Stdlib Require Import ZArith Ascii String.
From stdpp Require Import base option list gmap strings pretty.

Set Warnings "-register-all".
Local Open Scope string_scope.
Local Open Scope Z_scope.

(** ** Python values *)

(** The values that can sit in AMQP headers, in a properties dictionary or
    in a (decoded) message body.  A float is a binary64 number, with the
    operations of IEEE 754 as Python has them. *)
Inductive Value : Type :=
  | VNone
  | VBool (b : bool)
  | VInt (z : Z)
  | VFloat (f : float)
  | VStr (s : string)
  | VBytes (s : string)
  | VList (l : list Value)
  | VDict (d : list (string * Value)).

(** Python's truth test ([if x:], [x or y], [not x]). *)
Definition truthy (v : Value) : bool :=
  match v with
  | VNone => false
  | VBool b => b
  | VInt z => negb (z =? 0)
  | VFloat f => negb (PrimFloat.eqb f 0%float)
  | VStr s | VBytes s => negb (String.eqb s "")
  | VList l => match l with [] => false | _ => true end
  | VDict d => match d with [] => false | _ => true end
  end.

(** [isinstance(v, int)]: [bool] is a subclass of [int]. *)
Definition is_int (v : Value) : bool :=
  match v with
  | VInt _ | VBool _ => true
  | _ => false
  end.

(** The values [v + 1] is defined on. *)
Definition is_number (v : Value) : bool :=
  match v with
  | VInt _ | VBool _ | VFloat _ => true
  | _ => false
  end.

(** [isinstance(body, str) or isinstance(body, bytes)]. *)
Definition is_string (v : Value) : bool :=
  match v with
  | VStr _ | VBytes _ => true
  | _ => false
  end.

(** Truth of an optional string attribute ([None] and the empty string are
    false). *)
Definition truthy_str (o : option string) : bool :=
  match o with
  | Some s => negb (String.eqb s "")
  | None => false
  end.

(** ** Exceptions *)

(** The exception classes the engine distinguishes.  The classes of
    [rejected.errors] and of [rejected.consumer] carry the name of the
    concrete class (a subclass may be raised) and the [metric] attribute;
    [OtherException] is any other subclass of [Exception]. *)
Inductive Exn : Type :=
  | RabbitMQException (cls : string)
  | ConfigurationException (cls : string) (metric : option string)
  | ConsumerException (cls : string) (metric : option string)
  | MessageException (cls : string) (metric : option string)
  | ProcessingException (cls : string) (metric : option string)
  | NotImplementedError
  | ValueError (msg : string)
  | TypeError
  | KeyError
  | AttributeError
  | OtherException (cls : string).

Inductive Result (A : Type) : Type :=
  | Ok (a : A)
  | Raise (e : Exn).
Arguments Ok {A} a.
Arguments Raise {A} e.

Definition is_ok {A} (r : Result A) : bool :=
  match r with Ok _ => true | Raise _ => false end.

(** ** Arithmetic and comparison on header values *)

(** [v + 1] as [properties['headers'][key] += 1] evaluates it: defined on
    the numeric types, a [TypeError] on everything else.  On a float the
    sum is the float addition of [v] and [1.0], rounded to the nearest
    float. *)
Definition py_add_one (v : Value) : Result Value :=
  match v with
  | VInt z => Ok (VInt (z + 1))
  | VBool b => Ok (VInt (Z.b2z b + 1))
  | VFloat f => Ok (VFloat (PrimFloat.add f 1%float))
  | _ => Raise TypeError
  end.

(** [f >= n] for a float and an integer: Python compares the two numbers
    exactly; a NaN is not greater than or equal to anything. *)
Definition float_ge_int (f : float) (n : Z) : bool :=
  match FloatOps.Prim2SF f with
  | SpecFloat.S754_zero _ => n <=? 0
  | SpecFloat.S754_infinity negative => negb negative
  | SpecFloat.S754_nan => false
  | SpecFloat.S754_finite negative m e =>
      let v := if negative then Z.neg m else Z.pos m in
      if 0 <=? e then n <=? v * 2 ^ e else n * 2 ^ (- e) <=? v
  end.

(** [v >= n] for an integer [n]: a [TypeError] when [v] is not a number. *)
Definition py_ge_int (v : Value) (n : Z) : Result bool :=
  match v with
  | VInt z => Ok (n <=? z)
  | VBool b => Ok (n <=? Z.b2z b)
  | VFloat f => Ok (float_ge_int f n)
  | _ => Raise TypeError
  end.

(** [str.lower] on ASCII letters. *)
Definition lower_ascii (a : ascii) : ascii :=
  let n := nat_of_ascii a in
  if (Nat.leb 65 n && Nat.leb n 90)%bool then ascii_of_nat (n + 32) else a.

Fixpoint lower (s : string) : string :=
  match s with
  | EmptyString => EmptyString
  | String a s' => String (lower_ascii a) (lower s')
  end.

(** ** The message envelope *)

(** Modelled from the spec: [rejected.data.Properties] is not under src/.
    The recognized AMQP properties of section 3, each unset ([None]) or
    set; the headers are a dictionary from strings to any value. *)
Record Properties : Type := {
  prop_app_id : option string;
  prop_content_encoding : option string;
  prop_content_type : option string;
  prop_correlation_id : option string;
  prop_expiration : option string;
  prop_headers : option (gmap string Value);
  prop_message_id : option string;
  prop_priority : option Z;
  prop_reply_to : option string;
  prop_timestamp : option Z;
  prop_type : option string;
  prop_user_id : option string
}.

Definition with_headers (h : gmap string Value) (p : Properties) : Properties :=
  {| prop_app_id := prop_app_id p;
     prop_content_encoding := prop_content_encoding p;
     prop_content_type := prop_content_type p;
     prop_correlation_id := prop_correlation_id p;
     prop_expiration := prop_expiration p;
     prop_headers := Some h;
     prop_message_id := prop_message_id p;
     prop_priority := prop_priority p;
     prop_reply_to := prop_reply_to p;
     prop_timestamp := prop_timestamp p;
     prop_type := prop_type p;
     prop_user_id := prop_user_id p |}.

(** Modelled from the spec: [rejected.data.Message] is not under src/.
    The inbound delivery of section 3; the body is the raw bytes.
    [msg_basic_publish] is what a call of
    [self._message.channel.basic_publish] does, the channel being the one
    the delivery came on: it returns, or it raises (as pika does on a
    channel that is closed). *)
Record Message : Type := {
  msg_connection : string;
  msg_delivery_tag : Z;
  msg_exchange : string;
  msg_routing_key : string;
  msg_redelivered : bool;
  msg_body : string;
  msg_properties : Properties;
  msg_basic_publish : Result unit
}.

(** The message once the dictionary under its [headers] holds [h]. *)
Definition with_message_headers (h : gmap string Value) (m : Message)
    : Message :=
  {| msg_connection := msg_connection m;
     msg_delivery_tag := msg_delivery_tag m;
     msg_exchange := msg_exchange m;
     msg_routing_key := msg_routing_key m;
     msg_redelivered := msg_redelivered m;
     msg_body := msg_body m;
     msg_properties := with_headers h (msg_properties m);
     msg_basic_publish := msg_basic_publish m |}.

(** Modelled from the spec: [rejected.data.Measurement] is not under src/.
    The per-message accumulator of section 3, with the two parts the
    consumer writes: tags and durations (in whole seconds). *)
Record Measurement : Type := {
  tags : gmap string string;
  durations : list (string * Z)
}.

Definition set_tag (k v : string) (m : Measurement) : Measurement :=
  {| tags := <[k := v]> (tags m); durations := durations m |}.

Definition add_duration (k : string) (d : Z) (m : Measurement) : Measurement :=
  {| tags := tags m; durations := durations m ++ [(k, d)] |}.

(** Modelled from the spec: the constants of [rejected.data] are not under
    src/.  The closed set of outcomes of section 3, under the names the
    source uses for them. *)
Inductive Outcome : Type :=
  | MESSAGE_ACK
  | MESSAGE_DROP
  | MESSAGE_EXCEPTION
  | CONSUMER_EXCEPTION
  | CONFIGURATION_EXCEPTION
  | PROCESSING_EXCEPTION
  | UNHANDLED_EXCEPTION
  | RABBITMQ_EXCEPTION.

(** A publish waiting for its confirmation. *)
Record PendingConfirmation : Type := {
  pc_exchange : option string;
  pc_routing_key : option string;
  pc_properties : gmap string Value
}.

(** Modelled from the spec: [rejected.process.Connection] is not under
    src/.  The named handle of section 6 with the attributes the consumer
    reads and the confirmations registered on it. *)
Record Connection : Type := {
  conn_is_connected : bool;
  conn_channel_is_closed : bool;
  conn_publisher_confirmations : bool;
  conn_correlation_id : option string;
  conn_pending : list PendingConfirmation
}.

Definition with_correlation_id (cid : option string) (k : Connection) : Connection :=
  {| conn_is_connected := conn_is_connected k;
     conn_channel_is_closed := conn_channel_is_closed k;
     conn_publisher_confirmations := conn_publisher_confirmations k;
     conn_correlation_id := cid;
     conn_pending := conn_pending k |}.

Definition with_pending (l : list PendingConfirmation) (k : Connection) : Connection :=
  {| conn_is_connected := conn_is_connected k;
     conn_channel_is_closed := conn_channel_is_closed k;
     conn_publisher_confirmations := conn_publisher_confirmations k;
     conn_correlation_id := conn_correlation_id k;
     conn_pending := l |}.

(** [add_confirmation_future] and [clear_confirmation_futures]. *)
Definition add_confirmation_future (p : PendingConfirmation) (k : Connection) : Connection :=
  with_pending (conn_pending k ++ [p]) k.

Definition clear_confirmation_futures (k : Connection) : Connection :=
  with_pending [] k.

(** ** Observable effects *)

Inductive Event : Type :=
  | EvPrepare                       (* self.prepare() is called *)
  | EvProcess                       (* self.process() is called *)
  | EvSuspend                       (* execute yields a future *)
  | EvOnFinish                      (* self.on_finish() runs *)
  | EvDecompress (module : string)  (* module.decompress(...) *)
  | EvCompress (module : string)    (* module.compress(...) *)
  | EvLoad (key : string)           (* the load method of a content type *)
  | EvDump (key : string)           (* the dump method of a content type *)
  | EvRepublish (exchange : option string) (routing_key : string)
                (body : string) (properties : Properties)
  | EvPublish (connection : string) (exchange routing_key : option string)
              (properties : gmap string Value) (body : Value)
              (mandatory : bool).

(** ** The serialization registry *)

Record Descriptor : Type := {
  d_module : string;
  d_load : string;
  d_dump : string;
  d_binary : bool;     (* .get('binary') *)
  d_enabled : bool;    (* .get('enabled', True) *)
  d_common : bool      (* .get('common', True) *)
}.

Definition with_enabled (b : bool) (d : Descriptor) : Descriptor :=
  {| d_module := d_module d; d_load := d_load d; d_dump := d_dump d;
     d_binary := d_binary d; d_enabled := b; d_common := d_common d |}.

Definition descriptor (m l d : string) (binary enabled common : bool) : Descriptor :=
  {| d_module := m; d_load := l; d_dump := d;
     d_binary := binary; d_enabled := enabled; d_common := common |}.

Definition _IGNORE_TYPES : list string :=
  ["application/octet-stream"; "text/plain"].

Definition _CODEC_MAP : gmap string string :=
  list_to_map [("bzip2", "bz2"); ("gzip", "zlib"); ("zlib", "zlib")].

(** The class attribute as written, before [__init__] probes the optional
    packages. *)
Definition _SERIALIZATION_MAP : gmap string Descriptor :=
  list_to_map
    [("application/json", descriptor "json" "loads" "dumps" false true true);
     ("application/msgpack", descriptor "umsgpack" "unpackb" "packb" true false true);
     ("application/pickle", descriptor "pickle" "loads" "dumps" true true true);
     ("application/x-pickle", descriptor "pickle" "loads" "dumps" true true true);
     ("application/x-plist", descriptor "plistlib" "loads" "dumps" true true true);
     ("application/vnd.python.pickle", descriptor "pickle" "loads" "dumps" true true true);
     ("application/x-vnd.python.pickle", descriptor "pickle" "loads" "dumps" true true true);
     ("text/csv", descriptor "csv" "_load_csv" "_dump_csv" false true false);
     ("text/html", descriptor "bs4" "_load_html" "_dump_bs4" false false false);
     ("text/xml", descriptor "bs4" "_load_xml" "_dump_bs4" false false false);
     ("text/yaml", descriptor "yaml" "load" "dump" false true true)].

(** ** What the consumer takes from outside the repository *)

(** The standard library, the clock and the third-party packages, as far
    as the consumer calls them.  A call that can fail returns a [Result]. *)
Record Library : Type := {
  (* str(uuid.uuid4()) *)
  uuid4 : string;
  (* time.time(), in whole seconds *)
  time_time : Z;
  (* datetime.datetime.utcnow().isoformat() *)
  utcnow_isoformat : string;
  (* the time a publish takes, as track_duration measures it *)
  publish_elapsed : Z;
  (* '{}'.format(v) *)
  format_value : Value -> string;
  (* pkg_resources.AvailableDistributions() *)
  installed : string -> bool;
  (* ietfparse.headers.parse_content_type: type, subtype, parameters *)
  parse_content_type : string -> Result (string * string * gmap string string);
  (* module.decompress(bytes) and module.compress(bytes) *)
  decompress : string -> string -> Result string;
  compress : string -> string -> Result string;
  (* bytes.decode(charset) and str.encode('utf-8') *)
  decode : string -> string -> Result string;
  encode_utf8 : string -> string;
  (* the load and dump method registered for a content type *)
  load : string -> Value -> Result Value;
  dump : string -> Value -> Result Value;
  (* the metric attribute of an exception built as SomeException(text, metric):
     the constructor is inherited from rejected.errors, which is not under
     src/ *)
  positional_metric : string -> option string
}.

(** ** The consumer object *)

(** [MESSAGE_TYPE]: unset, one type, or a tuple, list or set of types. *)
Inductive MessageType : Type :=
  | MTNone
  | MTOne (t : string)
  | MTMany (ts : list string).

Record Consumer : Type := {
  (* self.__class__.__name__ *)
  name : string;
  (* whether the object is a SmartConsumer *)
  smart : bool;
  _drop_exchange : option string;
  _drop_invalid : bool;
  _error_exchange : string;
  _error_max_retry : option Z;
  _message_type : MessageType;
  _finished : bool;
  _message : option Message;
  _measurement : option Measurement;
  _message_body : Value;
  _correlation_id : option string;
  _connections : gmap string Connection;
  (* the registry, after __init__ has set the enabled flags *)
  registry : gmap string Descriptor;
  (* the dictionaries user code holds references to *)
  heap : gmap positive (gmap string Value);
  (* what has been observed so far *)
  trace : list Event
}.

Definition set_finished (b : bool) (c : Consumer) : Consumer :=
  {| name := name c; smart := smart c; _drop_exchange := _drop_exchange c;
     _drop_invalid := _drop_invalid c; _error_exchange := _error_exchange c;
     _error_max_retry := _error_max_retry c; _message_type := _message_type c;
     _finished := b; _message := _message c; _measurement := _measurement c;
     _message_body := _message_body c; _correlation_id := _correlation_id c;
     _connections := _connections c; registry := registry c;
     heap := heap c; trace := trace c |}.

Definition set_message (m : option Message) (c : Consumer) : Consumer :=
  {| name := name c; smart := smart c; _drop_exchange := _drop_exchange c;
     _drop_invalid := _drop_invalid c; _error_exchange := _error_exchange c;
     _error_max_retry := _error_max_retry c; _message_type := _message_type c;
     _finished := _finished c; _message := m; _measurement := _measurement c;
     _message_body := _message_body c; _correlation_id := _correlation_id c;
     _connections := _connections c; registry := registry c;
     heap := heap c; trace := trace c |}.

Definition set_measurement (m : option Measurement) (c : Consumer) : Consumer :=
  {| name := name c; smart := smart c; _drop_exchange := _drop_exchange c;
     _drop_invalid := _drop_invalid c; _error_exchange := _error_exchange c;
     _error_max_retry := _error_max_retry c; _message_type := _message_type c;
     _finished := _finished c; _message := _message c; _measurement := m;
     _message_body := _message_body c; _correlation_id := _correlation_id c;
     _connections := _connections c; registry := registry c;
     heap := heap c; trace := trace c |}.

Definition set_message_body (v : Value) (c : Consumer) : Consumer :=
  {| name := name c; smart := smart c; _drop_exchange := _drop_exchange c;
     _drop_invalid := _drop_invalid c; _error_exchange := _error_exchange c;
     _error_max_retry := _error_max_retry c; _message_type := _message_type c;
     _finished := _finished c; _message := _message c;
     _measurement := _measurement c;
     _message_body := v; _correlation_id := _correlation_id c;
     _connections := _connections c; registry := registry c;
     heap := heap c; trace := trace c |}.

Definition set_correlation_id (o : option string) (c : Consumer) : Consumer :=
  {| name := name c; smart := smart c; _drop_exchange := _drop_exchange c;
     _drop_invalid := _drop_invalid c; _error_exchange := _error_exchange c;
     _error_max_retry := _error_max_retry c; _message_type := _message_type c;
     _finished := _finished c; _message := _message c;
     _measurement := _measurement c;
     _message_body := _message_body c; _correlation_id := o;
     _connections := _connections c; registry := registry c;
     heap := heap c; trace := trace c |}.

Definition set_connections (k : gmap string Connection) (c : Consumer) : Consumer :=
  {| name := name c; smart := smart c; _drop_exchange := _drop_exchange c;
     _drop_invalid := _drop_invalid c; _error_exchange := _error_exchange c;
     _error_max_retry := _error_max_retry c; _message_type := _message_type c;
     _finished := _finished c; _message := _message c;
     _measurement := _measurement c;
     _message_body := _message_body c; _correlation_id := _correlation_id c;
     _connections := k; registry := registry c;
     heap := heap c; trace := trace c |}.

Definition set_heap (h : gmap positive (gmap string Value)) (c : Consumer) : Consumer :=
  {| name := name c; smart := smart c; _drop_exchange := _drop_exchange c;
     _drop_invalid := _drop_invalid c; _error_exchange := _error_exchange c;
     _error_max_retry := _error_max_retry c; _message_type := _message_type c;
     _finished := _finished c; _message := _message c;
     _measurement := _measurement c;
     _message_body := _message_body c; _correlation_id := _correlation_id c;
     _connections := _connections c; registry := registry c;
     heap := h; trace := trace c |}.

Definition set_trace (t : list Event) (c : Consumer) : Consumer :=
  {| name := name c; smart := smart c; _drop_exchange := _drop_exchange c;
     _drop_invalid := _drop_invalid c; _error_exchange := _error_exchange c;
     _error_max_retry := _error_max_retry c; _message_type := _message_type c;
     _finished := _finished c; _message := _message c;
     _measurement := _measurement c;
     _message_body := _message_body c; _correlation_id := _correlation_id c;
     _connections := _connections c; registry := registry c;
     heap := heap c; trace := t |}.

(** ** The monad of methods *)

Definition M (A : Type) : Type := Consumer -> Result A * Consumer.

Definition ret {A} (a : A) : M A := fun c => (Ok a, c).

Definition raise {A} (e : Exn) : M A := fun c => (Raise e, c).

Definition bind {A B} (m : M A) (k : A -> M B) : M B :=
  fun c =>
    match m c with
    | (Ok a, c') => k a c'
    | (Raise e, c') => (Raise e, c')
    end.

Notation "'let*' x ':=' m 'in' k" := (bind m (fun x => k))
  (at level 10, x pattern, m at level 99, k at level 200).
Notation "m ;; k" := (bind m (fun _ => k))
  (at level 100, k at level 200, right associativity).

(** Read the object, update it, record an effect, lift a library call. *)
Definition gets {A} (f : Consumer -> A) : M A := fun c => (Ok (f c), c).

Definition modify (f : Consumer -> Consumer) : M unit := fun c => (Ok tt, f c).

Definition emit (ev : Event) : M unit :=
  modify (fun c => set_trace (trace c ++ [ev]) c).

Definition lift {A} (r : Result A) : M A := fun c => (r, c).

(** An attribute read on an object that may be [None]:
    [AttributeError] when it is. *)
Definition attr {A} (o : option A) : M A :=
  match o with
  | Some a => ret a
  | None => raise AttributeError
  end.

(** [try: body  except E as e: handler(e)  finally: final], as a function
    body uses it: the handlers' result is the value returned; an exception
    a handler or [final] raises goes to the caller. *)
Definition try_except_finally {A B} (body : M A) (handler : Exn -> M B)
    (final : M unit) (rest : A -> M B) : M B :=
  fun c =>
    match body c with
    | (Ok a, c1) => (final ;; rest a) c1
    | (Raise e, c1) =>
        match handler e c1 with
        | (r, c2) =>
            match final c2 with
            | (Ok _, c3) => (r, c3)
            | (Raise e', c3) => (Raise e', c3)
            end
        end
    end.

(** ** Methods of [Consumer] *)

Section Methods.

Variable lib : Library.

Definition _DEFAULT_CHANNEL : string := "default".
Definition _DROPPED_MESSAGE : string := "X-Rejected-Dropped".
Definition _PROCESSING_EXCEPTIONS : string := "X-Processing-Exceptions".
Definition _EXCEPTION_FROM : string := "X-Exception-From".
Definition MESSAGE_AGE_KEY : string := "message_age".

(** [a or b] on optional strings. *)
Definition or_str (a b : option string) : option string :=
  if truthy_str a then a else b.

(** ['{}'.format(o)] for an optional string. *)
Definition format_opt (o : option string) : string := default "None" o.

(** Modelled from the spec: the descriptor [utils.MessageProperty] is not
    under src/.  A quick-access property reads the message being
    processed, and is [None] when there is none. *)
Definition message_property {A} (fget : Message -> option A) (c : Consumer)
    : option A :=
  match _message c with
  | Some m => fget m
  | None => None
  end.

Definition lower_or_none (o : option string) : option string :=
  let s := lower (default "" o) in
  if String.eqb s "" then None else Some s.

Definition content_encoding : Consumer -> option string :=
  message_property (fun m => lower_or_none (prop_content_encoding (msg_properties m))).

Definition content_type : Consumer -> option string :=
  message_property (fun m => lower_or_none (prop_content_type (msg_properties m))).

Definition exchange : Consumer -> option string :=
  message_property (fun m => Some (msg_exchange m)).

(** [self._message.properties.headers or dict()]. *)
Definition headers : Consumer -> option (gmap string Value) :=
  message_property (fun m => Some (default ∅ (prop_headers (msg_properties m)))).

Definition message_id : Consumer -> option string :=
  message_property (fun m => prop_message_id (msg_properties m)).

Definition reply_to : Consumer -> option string :=
  message_property (fun m => prop_reply_to (msg_properties m)).

Definition routing_key : Consumer -> option string :=
  message_property (fun m => Some (msg_routing_key m)).

Definition message_type : Consumer -> option string :=
  message_property (fun m => prop_type (msg_properties m)).

(** The base class's body: the opaque bytes. *)
Definition Consumer_body : Consumer -> option Value :=
  message_property (fun m => Some (VBytes (msg_body m))).

(** [on_finish] of the base class does nothing; its call is observed. *)
Definition on_finish : M unit := emit EvOnFinish.

Definition finish : M unit :=
  let* finished := gets _finished in
  if (finished : bool) then ret tt
  else modify (set_finished true) ;; on_finish.

Definition _clear : M unit :=
  modify (set_finished false) ;;
  modify (set_message None) ;;
  modify (set_message_body VNone).

(** [self._measurement.set_tag(k, v)]. *)
Definition measurement_set_tag (k v : string) : M unit :=
  let* m := gets _measurement in
  let* m := attr m in
  modify (set_measurement (Some (set_tag k v m))).

Definition measurement_add_duration (k : string) (d : Z) : M unit :=
  let* m := gets _measurement in
  let* m := attr m in
  modify (set_measurement (Some (add_duration k d m))).

Definition is_not_none (v : Value) : bool :=
  match v with VNone => false | _ => true end.

Definition _get_pika_properties (properties_in : gmap string Value)
    : gmap string Value :=
  filter (fun kv : string * Value => Is_true (is_not_none kv.2)) properties_in.

Definition _publisher_confirmation_future (nm : string)
    (exch rk : option string) (properties : gmap string Value)
    : M (option nat) :=
  let* conns := gets _connections in
  match conns !! nm with
  | None => raise KeyError
  | Some k =>
      if conn_publisher_confirmations k then
        modify (set_connections
                  (<[nm := add_confirmation_future
                             {| pc_exchange := exch; pc_routing_key := rk;
                                pc_properties := properties |} k]> conns)) ;;
        ret (Some (length (conn_pending k)))
      else ret None
  end.

Definition _publish_connection (nm : option string) : M (string * Connection) :=
  let* key :=
    (if truthy_str nm then ret (default "" nm)
     else let* m := gets _message in
          let* m := attr m in
          ret (msg_connection m)) in
  let* conns := gets _connections in
  match conns !! key with
  | None => raise (ValueError ("Channel " ++ format_opt nm ++ " not found"))
  | Some k =>
      if negb (conn_is_connected k) || conn_channel_is_closed k
      then raise (RabbitMQException "RabbitMQException")
      else ret (key, k)
  end.

(** [Consumer.publish_message]. *)
Definition Consumer_publish_message (exch rk : option string)
    (properties : gmap string Value) (body : Value)
    (channel connection : option string) : M (option nat) :=
  let* (nm, conn) := _publish_connection (or_str channel connection) in
  let basic_properties := _get_pika_properties properties in
  let* m := gets _measurement in
  let* _ := attr m in
  emit (EvPublish nm exch rk basic_properties body
                  (conn_publisher_confirmations conn)) ;;
  let* future := _publisher_confirmation_future nm exch rk basic_properties in
  measurement_add_duration
    ("publish." ++ format_opt exch ++ "." ++ format_opt rk)
    (publish_elapsed lib) ;;
  ret future.

(** ** Methods of [SmartConsumer] *)

(** [SmartConsumer.__init__]: the optional packages are probed once and the
    three entries that need them are enabled accordingly. *)
Definition SmartConsumer_init_registry : gmap string Descriptor :=
  let bs4 := installed lib "beautifulsoup4" && installed lib "lxml" in
  alter (with_enabled (installed lib "u-msgpack-python")) "application/msgpack"
    (alter (with_enabled bs4) "text/html"
       (alter (with_enabled bs4) "text/xml" _SERIALIZATION_MAP)).

Definition content_key (ct : string * string * gmap string string) : string :=
  ct.1.1 ++ "/" ++ ct.1.2.

Definition charset (ct : string * string * gmap string string) : string :=
  default "utf-8" (ct.2 !! "charset").

Definition _maybe_decode (value : Value) (encoding : string) : M Value :=
  match value with
  | VBytes b =>
      match decode lib encoding b with
      | Ok s => ret (VStr s)
      | Raise _ =>
          raise (MessageException "MessageException"
                   (positional_metric lib ("decoding-" ++ encoding)))
      end
  | _ => ret value
  end.

(** [_maybe_invoke_serialization] for ['load'] and for ['dump']: the
    method is looked up, its call is observed, and whatever it raises
    becomes a [MessageException]. *)
Definition _maybe_invoke_serialization_load (value : Value) (key : string)
    : M Value :=
  emit (EvLoad key) ;;
  match load lib key value with
  | Ok v => ret v
  | Raise _ =>
      raise (MessageException "MessageException"
               (positional_metric lib "serialization-load"))
  end.

Definition _maybe_invoke_serialization_dump (value : Value) (key : string)
    : M Value :=
  emit (EvDump key) ;;
  match dump lib key value with
  | Ok v => ret v
  | Raise _ =>
      raise (MessageException "MessageException"
               (positional_metric lib "serialization-dump"))
  end.

Definition _maybe_decompress_body : M Value :=
  let* enc := gets content_encoding in
  let* m := gets _message in
  match enc with
  | Some e =>
      match _CODEC_MAP !! e with
      | Some module_name =>
          let* m := attr m in
          emit (EvDecompress module_name) ;;
          let* b := lift (decompress lib module_name (msg_body m)) in
          ret (VBytes b)
      | None => let* m := attr m in ret (VBytes (msg_body m))
      end
  | None => let* m := attr m in ret (VBytes (msg_body m))
  end.

Definition _maybe_deserialize_body : M Value :=
  let* ctype := gets content_type in
  let* cached := gets _message_body in
  match ctype with
  | None => ret cached
  | Some t =>
      let* ct := lift (parse_content_type lib t) in
      let key := content_key ct in
      let* reg := gets registry in
      match reg !! key with
      | None => ret cached
      | Some d =>
          if negb (d_enabled d) then ret cached
          else
            let* value :=
              (if negb (d_binary d) then _maybe_decode cached (charset ct)
               else ret cached) in
            _maybe_invoke_serialization_load value key
      end
  end.

(** The [body] property of [SmartConsumer]. *)
Definition SmartConsumer_body : M Value :=
  let* cached := gets _message_body in
  if truthy cached then ret cached
  else
    let* v := _maybe_decompress_body in
    modify (set_message_body v) ;;
    let* v' := _maybe_deserialize_body in
    modify (set_message_body v') ;;
    gets _message_body.

Definition _compress (value : Value) (module_name : string) : M Value :=
  let* bytes :=
    match value with
    | VBytes b => ret b
    | VStr s => ret (encode_utf8 lib s)
    | _ => raise AttributeError
    end in
  emit (EvCompress module_name) ;;
  let* r := lift (compress lib module_name bytes) in
  ret (VBytes r).

Definition _serialize (value : Value)
    (ct : string * string * gmap string string) : M Value :=
  let key := content_key ct in
  let* reg := gets registry in
  match reg !! key with
  | None => raise (ValueError ("Unsupported content-type: " ++ key))
  | Some d =>
      if negb (d_enabled d)
      then raise (ValueError ("Disabled content-type: " ++ key))
      else
        let* v := _maybe_decode value (charset ct) in
        _maybe_invoke_serialization_dump v key
  end.

(** [properties.get(k)]. *)
Definition dict_get (d : gmap string Value) (k : string) : Value :=
  default VNone (d !! k).

(** [properties.get('content_encoding') in self._CODEC_MAP.keys()]: the
    module to compress with when the encoding is a key of the map;
    an unhashable value cannot be looked up. *)
Definition codec_for (v : Value) : Result (option string) :=
  match v with
  | VStr s => Ok (_CODEC_MAP !! s)
  | VList _ | VDict _ => Raise TypeError
  | _ => Ok None
  end.

(** [SmartConsumer.publish_message]. *)
Definition SmartConsumer_publish_message (exch rk : option string)
    (properties : gmap string Value) (body : Value)
    (no_serialization no_encoding : bool)
    (channel connection : option string) : M (option nat) :=
  let* body1 :=
    (if negb no_serialization && negb (is_string body)
        && truthy (dict_get properties "content_type")
     then
       match dict_get properties "content_type" with
       | VStr t =>
           let* ct := lift (parse_content_type lib t) in
           _serialize body ct
       | _ => raise AttributeError
       end
     else ret body) in
  let* body2 :=
    (if no_encoding then ret body1
     else
       let* codec := lift (codec_for (dict_get properties "content_encoding")) in
       match codec with
       | Some module_name => _compress body1 module_name
       | None => ret body1
       end) in
  Consumer_publish_message exch rk properties body2
    (or_str channel connection) None.

(** [self.publish_message(exchange, routing_key, properties, body,
    connection)] as [rpc_reply] calls it, with five positional arguments:
    the method of the object's class is the one that runs; the fifth
    parameter is [channel] in [Consumer] and [no_serialization] in
    [SmartConsumer]. *)
Definition publish_message_positional (exch rk : option string)
    (properties : gmap string Value) (body : Value)
    (fifth : option string) : M (option nat) :=
  let* is_smart := gets smart in
  if (is_smart : bool) then
    SmartConsumer_publish_message exch rk properties body
      (truthy_str fifth) false None None
  else
    Consumer_publish_message exch rk properties body fifth None.

(** ** Replies *)

(** The dictionary a reference points to. *)
Definition deref (l : positive) (c : Consumer) : gmap string Value :=
  default ∅ (heap c !! l).

(** [properties[k] = v] on the dictionary at [l]. *)
Definition dict_setitem (l : positive) (k : string) (v : Value) : M unit :=
  modify (fun c => set_heap (<[l := <[k := v]> (deref l c)]> (heap c)) c).

(** [properties or {}]: the caller's dictionary when there is one and it is
    not empty, a new empty dictionary otherwise. *)
Definition properties_or_new (properties : option positive) : M positive :=
  let* h := gets heap in
  let fresh_dict :=
    let l := fresh (dom h) in
    modify (set_heap (<[l := ∅]> h)) ;; ret l in
  match properties with
  | None => fresh_dict
  | Some l =>
      if decide (default ∅ (h !! l) = ∅) then fresh_dict else ret l
  end.

(** [not properties.get(k)] on the dictionary at [l]. *)
Definition dict_unset (l : positive) (k : string) : M bool :=
  let* d := gets (deref l) in
  ret (negb (truthy (dict_get d k))).

(** [if not properties.get(k) and extra: properties[k] = v]. *)
Definition set_if_unset (l : positive) (k : string) (extra : bool)
    (v : Value) : M unit :=
  let* unset := dict_unset l k in
  if unset && extra then dict_setitem l k v else ret tt.

(** The four assignments of [rpc_reply], on the dictionary at [p]. *)
Definition reply_defaults (p : positive) : M unit :=
  let* nm := gets name in
  set_if_unset p "app_id" true (VStr nm) ;;
  let* mid := gets message_id in
  set_if_unset p "correlation_id" (truthy_str mid) (VStr (default "" mid)) ;;
  set_if_unset p "message_id" true (VStr (uuid4 lib)) ;;
  set_if_unset p "timestamp" true (VInt (time_time lib)).

Definition rpc_reply (body : Value) (properties : option positive)
    (exch reply_to_arg connection : option string) : M (option nat) :=
  let* self_reply_to := gets reply_to in
  if bool_decide (reply_to_arg = None) && bool_decide (self_reply_to = None)
  then raise (ValueError "Missing reply_to routing key")
  else
    let* p := properties_or_new properties in
    reply_defaults p ;;
    let* d := gets (deref p) in
    let* self_exchange := gets exchange in
    publish_message_positional (or_str exch self_exchange)
      (or_str reply_to_arg self_reply_to) d body connection.

(** ** Republishing *)

(** The headers the republished copy starts from: the message's own, or an
    empty dictionary when it has none. *)
Definition republish_headers (m : Message) : gmap string Value :=
  default ∅ (prop_headers (msg_properties m)).

(** [properties = dict(self._message.properties) or {}] copies the
    properties, not the dictionary under [headers]: when the message has
    headers (a dictionary that is not empty), [properties['headers']] is
    the message's own dictionary; otherwise the method puts a new one
    there. *)
Definition headers_are_shared (m : Message) : bool :=
  match prop_headers (msg_properties m) with
  | Some h => negb (Nat.eqb (size h) 0)
  | None => false
  end.

(** The assignments to [properties['headers'][...]], [h] being what the
    dictionary holds after them: they are seen in the message when the
    dictionary is the message's own. *)
Definition write_headers (h : gmap string Value) (m : Message) : M unit :=
  if headers_are_shared m
  then modify (set_message (Some (with_message_headers h m)))
  else ret tt.

(** [self._message.channel.basic_publish(exchange,
    self._message.routing_key, self._message.body,
    pika.BasicProperties(...))], the properties being passed as
    keyword arguments. *)
Definition channel_basic_publish (m : Message) (exchange : option string)
    (properties : Properties) : M unit :=
  match msg_basic_publish m with
  | Ok _ =>
      emit (EvRepublish exchange (msg_routing_key m) (msg_body m) properties)
  | Raise e => raise e
  end.

Definition _republish_dropped_message (reason : string) : M unit :=
  let* m := gets _message in
  let* m := attr m in
  let* nm := gets name in
  let* drop_exchange := gets _drop_exchange in
  let h :=
    <["X-Original-Exchange" := VStr (msg_exchange m)]>
      (<["X-Dropped-Timestamp" := VStr (utcnow_isoformat lib)]>
         (<["X-Dropped-Reason" := VStr reason]>
            (<["X-Dropped-By" := VStr nm]> (republish_headers m)))) in
  write_headers h m ;;
  channel_basic_publish m drop_exchange (with_headers h (msg_properties m)).

(** The retry counter after one more processing error. *)
Definition bump_processing_exceptions (h : gmap string Value)
    : Result (gmap string Value) :=
  match h !! _PROCESSING_EXCEPTIONS with
  | None => Ok (<[_PROCESSING_EXCEPTIONS := VInt 1]> h)
  | Some v =>
      match py_add_one v with
      | Ok v' => Ok (<[_PROCESSING_EXCEPTIONS := v']> h)
      | Raise TypeError => Ok (<[_PROCESSING_EXCEPTIONS := VInt 1]> h)
      | Raise e => Raise e
      end
  end.

Definition _republish_processing_error (error : string) : M unit :=
  let* m := gets _message in
  let* m := attr m in
  let h0 := republish_headers m in
  let h1 :=
    if negb (String.eqb error "")
    then <["X-Processing-Exception" := VStr error]> h0 else h0 in
  let* h2 := lift (bump_processing_exceptions h1) in
  write_headers h2 m ;;
  let* error_exchange := gets _error_exchange in
  channel_basic_publish m (Some error_exchange)
    (with_headers h2 (msg_properties m)).

(** ** User code *)

(** What [prepare] and [process] can do with the consumer. *)
Inductive Action : Type :=
  | CallFinish
  | ReadBody
  | NewDict (l : positive) (d : gmap string Value)
  | CallPublishMessage (exch rk : option string) (properties : positive)
      (body : Value) (connection : option string)
  | CallRpcReply (body : Value) (properties : option positive)
      (exch reply_to_arg connection : option string)
  | RaiseExn (e : Exn).

Definition run_action (a : Action) : M unit :=
  match a with
  | CallFinish => finish
  | ReadBody =>
      let* is_smart := gets smart in
      if (is_smart : bool) then SmartConsumer_body ;; ret tt
      else gets Consumer_body ;; ret tt
  | NewDict l d => modify (fun c => set_heap (<[l := d]> (heap c)) c)
  | CallPublishMessage exch rk properties body connection =>
      let* d := gets (deref properties) in
      let* is_smart := gets smart in
      (if (is_smart : bool)
       then SmartConsumer_publish_message exch rk d body false false
              None connection
       else Consumer_publish_message exch rk d body None connection) ;;
      ret tt
  | CallRpcReply body properties exch reply_to_arg connection =>
      rpc_reply body properties exch reply_to_arg connection ;; ret tt
  | RaiseExn e => raise e
  end.

Fixpoint run_script (s : list Action) : M unit :=
  match s with
  | [] => ret tt
  | a :: s' => run_action a ;; run_script s'
  end.

(** A hook is a plain method, or a coroutine: the part that runs when it is
    called and the part that runs once [execute] yields its future. *)
Inductive Callback : Type :=
  | Plain (body : list Action)
  | Coroutine (before after : list Action).

(** [result = self.hook(); if concurrent.is_future(result): yield result].
    An exception in a coroutine is kept in its future and raised by the
    [yield]. *)
Definition call_and_wait (cb : Callback) : M unit :=
  match cb with
  | Plain body => run_script body
  | Coroutine before after =>
      fun c =>
        match run_script before c with
        | (Ok _, c1) => (emit EvSuspend ;; run_script after) c1
        | (Raise e, c1) => (emit EvSuspend ;; raise e) c1
        end
  end.

(** ** [Consumer.execute] *)

(** The start of [execute]: the per-message state is reset, the message
    and its measurement are installed, the age of the message is recorded
    and the correlation id is chosen and handed to the connection. *)
Definition execute_begin (message_in : Message) (measurement : Measurement)
    : M unit :=
  _clear ;;
  modify (set_message (Some message_in)) ;;
  modify (set_measurement (Some measurement)) ;;
  (match prop_timestamp (msg_properties message_in) with
   | Some ts =>
       if negb (ts =? 0) then
         let message_age := Z.max ts (time_time lib) - ts in
         if 0 <? message_age
         then measurement_add_duration MESSAGE_AGE_KEY message_age
         else ret tt
       else ret tt
   | None => ret tt
   end) ;;
  let cid :=
    or_str (or_str (prop_correlation_id (msg_properties message_in))
                   (prop_message_id (msg_properties message_in)))
           (Some (uuid4 lib)) in
  modify (set_correlation_id cid) ;;
  let* conns := gets _connections in
  match conns !! msg_connection message_in with
  | None => raise KeyError
  | Some k =>
      modify (set_connections
                (<[msg_connection message_in := with_correlation_id cid k]> conns))
  end.

(** [if self._message_type:]. *)
Definition message_type_configured (mt : MessageType) : bool :=
  match mt with
  | MTNone => false
  | MTOne t => negb (String.eqb t "")
  | MTMany ts => match ts with [] => false | _ => true end
  end.

Definition message_supported (mt : MessageType) (t : option string) : bool :=
  match mt with
  | MTMany ts =>
      match t with
      | Some s => bool_decide (s ∈ ts)
      | None => false
      end
  | MTOne s => bool_decide (t = Some s)
  | MTNone => false
  end.

(** The message-type check of [execute]: [Some o] when [execute] returns
    [o] here. *)
Definition type_filter : M (option Outcome) :=
  let* mt := gets _message_type in
  if message_type_configured mt then
    let* t := gets message_type in
    if message_supported mt t then ret None
    else
      let* drop_invalid := gets _drop_invalid in
      if (drop_invalid : bool) then
        let* drop_exchange := gets _drop_exchange in
        (if truthy_str drop_exchange
         then _republish_dropped_message "invalid type" else ret tt) ;;
        ret (Some MESSAGE_DROP)
      else ret (Some MESSAGE_EXCEPTION)
  else ret None.

(** The check of the number of processing errors: [Some MESSAGE_DROP] when
    [execute] returns here. *)
Definition poison_filter : M (option Outcome) :=
  let* max_retry := gets _error_max_retry in
  match max_retry with
  | None => ret None
  | Some n =>
      if n =? 0 then ret None
      else
        let* h := gets headers in
        match h with
        | None => raise TypeError
        | Some h =>
            match h !! _PROCESSING_EXCEPTIONS with
            | None => ret None
            | Some v =>
                let* reached := lift (py_ge_int v n) in
                if (reached : bool) then
                  let* drop_exchange := gets _drop_exchange in
                  (if truthy_str drop_exchange
                   then _republish_dropped_message
                          ("max retries (" ++ format_value lib v ++ ")")
                   else ret tt) ;;
                  ret (Some MESSAGE_DROP)
                else ret None
            end
        end
  end.

(** The body of the [try]. *)
Definition prepare_and_process (prepare process : Callback) : M unit :=
  emit EvPrepare ;;
  call_and_wait prepare ;;
  let* finished := gets _finished in
  if (finished : bool) then ret tt
  else emit EvProcess ;; call_and_wait process.

(** [if error.metric: self._measurement.set_tag('error', error.metric)]. *)
Definition tag_metric (metric : option string) : M unit :=
  if truthy_str metric
  then measurement_set_tag "error" (default "" metric)
  else ret tt.

(** The [except] clauses, in the order of the source. *)
Definition on_exception (e : Exn) : M Outcome :=
  match e with
  | RabbitMQException cls =>
      measurement_set_tag "exception" cls ;;
      ret RABBITMQ_EXCEPTION
  | ConfigurationException cls metric =>
      measurement_set_tag "exception" cls ;;
      tag_metric metric ;;
      ret CONFIGURATION_EXCEPTION
  | ConsumerException cls metric =>
      measurement_set_tag "exception" cls ;;
      tag_metric metric ;;
      ret CONSUMER_EXCEPTION
  | MessageException cls metric =>
      measurement_set_tag "exception" cls ;;
      tag_metric metric ;;
      ret MESSAGE_EXCEPTION
  | ProcessingException cls metric =>
      measurement_set_tag "exception" cls ;;
      tag_metric metric ;;
      _republish_processing_error
        (default "" (or_str metric (Some cls))) ;;
      ret PROCESSING_EXCEPTION
  | NotImplementedError =>
      measurement_set_tag "exception" "NotImplementedError" ;;
      ret UNHANDLED_EXCEPTION
  | _ =>
      measurement_set_tag "exception" "UnhandledException" ;;
      ret UNHANDLED_EXCEPTION
  end.

(** The [finally] clause. *)
Definition finish_if_needed : M unit :=
  let* finished := gets _finished in
  if (finished : bool) then ret tt else finish.

(** [for name in self._connections.keys():
       self._connections[name].clear_confirmation_futures()]. *)
Definition clear_pending_futures : M unit :=
  modify (fun c =>
    set_connections (clear_confirmation_futures <$> _connections c) c).

Definition execute (message_in : Message) (measurement : Measurement)
    (prepare process : Callback) : M Outcome :=
  execute_begin message_in measurement ;;
  let* rejected := type_filter in
  match rejected with
  | Some o => ret o
  | None =>
      let* poisoned := poison_filter in
      match poisoned with
      | Some o => ret o
      | None =>
          try_except_finally
            (prepare_and_process prepare process)
            on_exception
            finish_if_needed
            (fun _ => clear_pending_futures ;; ret MESSAGE_ACK)
      end
  end.

End Methods.

(** ** Connections and construction *)

(** [set_connection]: [self._connections[connection.name] = connection]. *)
Definition set_connection (nm : string) (k : Connection) : M unit :=
  modify (fun c => set_connections (<[nm := k]> (_connections c)) c).

(** [remove_connection]: [del self._connections[name]], a [KeyError] when
    the name is not there. *)
Definition remove_connection (nm : string) : M unit :=
  let* conns := gets _connections in
  match conns !! nm with
  | None => raise KeyError
  | Some _ => modify (set_connections (delete nm conns))
  end.

(** The class attributes a consumer class may set, with the defaults of
    [Consumer]. *)
Record ClassAttributes : Type := {
  MESSAGE_TYPE : MessageType;
  DROP_INVALID_MESSAGES : bool;
  DROP_EXCHANGE : option string;
  ERROR_MAX_RETRIES : option Z;
  ERROR_MAX_RETRY : option Z;
  ERROR_EXCHANGE : string
}.

Definition Consumer_attributes : ClassAttributes :=
  {| MESSAGE_TYPE := MTNone; DROP_INVALID_MESSAGES := false;
     DROP_EXCHANGE := None; ERROR_MAX_RETRIES := None;
     ERROR_MAX_RETRY := None; ERROR_EXCHANGE := "errors" |}.

(** The keyword arguments [__init__] reads with [kwargs.get]. *)
Record Kwargs : Type := {
  kw_drop_exchange : option string;
  kw_drop_invalid_messages : option bool;
  kw_error_exchange : option string;
  kw_error_max_retry : option Z;
  kw_message_type : MessageType
}.

(** [a or b] on optional integers: [None] and [0] are false. *)
Definition truthy_int (o : option Z) : bool :=
  match o with
  | Some z => negb (z =? 0)
  | None => false
  end.

Definition or_int (a b : option Z) : option Z :=
  if truthy_int a then a else b.

Definition or_message_type (a b : MessageType) : MessageType :=
  if message_type_configured a then a else b.

(** [Consumer.__init__] (with [SmartConsumer.__init__] when [is_smart]):
    the configuration is chosen between keyword arguments and class
    attributes, and the per-message state starts empty. *)
Definition Consumer_init (lib : Library) (cls : string) (is_smart : bool)
    (attrs : ClassAttributes) (kwargs : Kwargs) : Consumer :=
  {| name := cls;
     smart := is_smart;
     _drop_exchange := or_str (kw_drop_exchange kwargs) (DROP_EXCHANGE attrs);
     _drop_invalid :=
       default false (kw_drop_invalid_messages kwargs)
       || DROP_INVALID_MESSAGES attrs;
     _error_exchange :=
       default "" (or_str (kw_error_exchange kwargs)
                          (Some (ERROR_EXCHANGE attrs)));
     _error_max_retry :=
       or_int (or_int (kw_error_max_retry kwargs) (ERROR_MAX_RETRIES attrs))
              (ERROR_MAX_RETRY attrs);
     _message_type := or_message_type (kw_message_type kwargs) (MESSAGE_TYPE attrs);
     _finished := false;
     _message := None;
     _measurement := None;
     _message_body := VNone;
     _correlation_id := None;
     _connections := ∅;
     registry :=
       if is_smart then SmartConsumer_init_registry lib else _SERIALIZATION_MAP;
     heap := ∅;
     trace := [] |}.

(** ** [rejected.common.State] *)

Module State.

Definition STATE_INITIALIZING : Z := 1.
Definition STATE_CONNECTING : Z := 2.
Definition STATE_IDLE : Z := 3.
Definition STATE_ACTIVE : Z := 4.
Definition STATE_SLEEPING : Z := 5.
Definition STATE_STOP_REQUESTED : Z := 6.
Definition STATE_SHUTTING_DOWN : Z := 7.
Definition STATE_STOPPED : Z := 8.

Definition _STATES : gmap Z string :=
  list_to_map
    [(1, "Initializing"); (2, "Connecting"); (3, "Idle"); (4, "Active");
     (5, "Sleeping"); (6, "Stop Requested"); (7, "Shutting down");
     (8, "Stopped")].

(** The object: the state and the time it was entered. *)
Record t : Type := {
  _state : Z;
  _state_start : Z
}.

(** [__init__], at time [now]. *)
Definition init (now : Z) : t :=
  {| _state := STATE_INITIALIZING; _state_start := now |}.

(** [set_state], at time [now]: the result and the object after the call.
    The message of the error ends with [%r] of the value, its decimal
    writing. *)
Definition set_state (new_state now : Z) (s : t) : Result unit * t :=
  match _STATES !! new_state with
  | None => (Raise (ValueError ("Invalid state value: " ++ pretty new_state)), s)
  | Some _ => (Ok tt, {| _state := new_state; _state_start := now |})
  end.

Definition is_connecting (s : t) : bool := _state s =? STATE_CONNECTING.
Definition is_idle (s : t) : bool := _state s =? STATE_IDLE.
Definition is_running (s : t) : bool :=
  bool_decide (_state s ∈ [STATE_IDLE; STATE_ACTIVE; STATE_SLEEPING]).
Definition is_shutting_down (s : t) : bool := _state s =? STATE_SHUTTING_DOWN.
Definition is_sleeping (s : t) : bool := _state s =? STATE_SLEEPING.
Definition is_stopped (s : t) : bool := _state s =? STATE_STOPPED.
Definition is_waiting_to_shutdown (s : t) : bool :=
  _state s =? STATE_STOP_REQUESTED.

(** [state_description]: [self._STATES[self._state]]. *)
Definition state_description (s : t) : Result string :=
  match _STATES !! _state s with
  | Some d => Ok d
  | None => Raise KeyError
  end.

(** A series of [set_state] calls, each at its time; a call that raises
    leaves the object as it was and the series goes on. *)
Fixpoint set_states (calls : list (Z * Z)) (s : t) : t :=
  match calls with
  | [] => s
  | (new_state, now) :: rest => set_states rest (set_state new_state now s).2
  end.

End State.

(** ** Observing a run *)

(** [respects R m]: whatever [m] returns or raises, the state it leaves is
    related by [R] to the state it started from. *)
Definition respects {A} (R : relation Consumer) (m : M A) : Prop :=
  forall c, R c (m c).2.

Definition is_on_finish (ev : Event) : bool :=
  match ev with EvOnFinish => true | _ => false end.

Definition is_prepare (ev : Event) : bool :=
  match ev with EvPrepare => true | _ => false end.

Definition is_process (ev : Event) : bool :=
  match ev with EvProcess => true | _ => false end.

Definition is_load (ev : Event) : bool :=
  match ev with EvLoad _ => true | _ => false end.

Definition is_publish (ev : Event) : bool :=
  match ev with
  | EvPublish _ _ _ _ _ _ | EvRepublish _ _ _ _ => true
  | _ => false
  end.

Fixpoint count (p : Event -> bool) (t : list Event) : nat :=
  match t with
  | [] => 0
  | ev :: t' => (if p ev then 1 else 0) + count p t'
  end.

(** [d] with [k] set to [v] unless [d] has a true value for [k] and
    unless [extra] is false. *)
Definition defaulted (k : string) (extra : bool) (v : Value)
    (d : gmap string Value) : gmap string Value :=
  if negb (truthy (dict_get d k)) && extra then <[k := v]> d else d.

(** The dictionary [rpc_reply] publishes with, from the one it starts
    from. *)
Definition reply_properties (lib : Library) (c : Consumer)
    (d : gmap string Value) : gmap string Value :=
  defaulted "timestamp" true (VInt (time_time lib))
    (defaulted "message_id" true (VStr (uuid4 lib))
       (defaulted "correlation_id" (truthy_str (message_id c))
          (VStr (default "" (message_id c)))
          (defaulted "app_id" true (VStr (name c)) d))).

(** The table of section 4.1 of the specification, in its words: a
    configuration error gives [CONFIGURATION_EXCEPTION], a consumer-level
    error [CONSUMER_EXCEPTION], a message-level error [MESSAGE_EXCEPTION],
    a processing error [PROCESSING_EXCEPTION], a broker error
    (the source's [RABBITMQ_EXCEPTION]), user code that is not implemented
    and any other error [UNHANDLED_EXCEPTION]. *)
Definition taxonomy (e : Exn) : Outcome :=
  match e with
  | ConfigurationException _ _ => CONFIGURATION_EXCEPTION
  | ConsumerException _ _ => CONSUMER_EXCEPTION
  | MessageException _ _ => MESSAGE_EXCEPTION
  | ProcessingException _ _ => PROCESSING_EXCEPTION
  | RabbitMQException _ => RABBITMQ_EXCEPTION
  | NotImplementedError => UNHANDLED_EXCEPTION
  | ValueError _ | TypeError | KeyError | AttributeError
  | OtherException _ => UNHANDLED_EXCEPTION
  end.

(** [execute] up to the [try]: [Some o] when it returns [o] at the
    message-type check or at the retry check, [None] when it goes on to
    [prepare]. *)
Definition execute_filters (lib : Library) (message_in : Message)
    (measurement : Measurement) : M (option Outcome) :=
  execute_begin lib message_in measurement ;;
  let* rejected := type_filter lib in
  match rejected with
  | Some o => ret (Some o)
  | None => poison_filter lib
  end.

(** The [try] statement of [execute] and what follows it. *)
Definition execute_guarded (lib : Library) (prepare process : Callback)
    : M Outcome :=
  try_except_finally
    (prepare_and_process lib prepare process)
    on_exception
    finish_if_needed
    (fun _ => clear_pending_futures ;; ret MESSAGE_ACK).

Definition on_finish_calls (c : Consumer) : nat := count is_on_finish (trace c).
Definition prepare_calls (c : Consumer) : nat := count is_prepare (trace c).
Definition process_calls (c : Consumer) : nat := count is_process (trace c).

(** What every step of an execution keeps: the message being processed, the
    presence of its measurement, and the agreement between the [_finished]
    flag and the calls of [on_finish] (the flag goes up exactly when
    [on_finish] is called). *)
Record engine_step (c c' : Consumer) : Prop := {
  es_message : _message c' = _message c;
  es_measurement : is_Some (_measurement c) -> is_Some (_measurement c');
  es_finish :
    (on_finish_calls c' + Nat.b2n (_finished c) =
     on_finish_calls c + Nat.b2n (_finished c'))%nat;
  es_trace : trace c `prefix_of` trace c'
}.

(** What a call from user code keeps in addition: the hooks are not
    called. *)
Record user_step (c c' : Consumer) : Prop := {
  us_engine : engine_step c c';
  us_prepare : prepare_calls c' = prepare_calls c;
  us_process : process_calls c' = process_calls c
}.

(** What the engine keeps outside the [try]: no user code runs. *)
Record quiet_step (c c' : Consumer) : Prop := {
  qs_on_finish : on_finish_calls c' = on_finish_calls c;
  qs_prepare : prepare_calls c' = prepare_calls c;
  qs_process : process_calls c' = process_calls c
}.

(** The dictionaries user code holds are left as they are. *)
Definition same_heap : relation Consumer := fun c c' => heap c' = heap c.

(** The properties of the last message published through
    [publish_message]. *)
Definition last_published (t : list Event) : option (gmap string Value) :=
  match last t with
  | Some (EvPublish _ _ _ p _ _) => Some p
  | _ => None
  end.

(** The dictionary [properties or {}] denotes. *)
Definition given_properties (properties : option positive) (c : Consumer)
    : gmap string Value :=
  match properties with
  | Some l => deref l c
  | None => ∅
  end.

(** The headers of a copy of [m] that a consumer named [nm] drops for
    [reason]. *)
Definition dropped_headers (lib : Library) (nm : string) (m : Message)
    (reason : string) : gmap string Value :=
  <["X-Original-Exchange" := VStr (msg_exchange m)]>
    (<["X-Dropped-Timestamp" := VStr (utcnow_isoformat lib)]>
       (<["X-Dropped-Reason" := VStr reason]>
          (<["X-Dropped-By" := VStr nm]> (republish_headers m)))).

(** The consumer once a republish of [m] has written the headers [h]: the
    message holds them when the dictionary written was its own. *)
Definition after_write (h : gmap string Value) (m : Message) (c : Consumer)
    : Consumer :=
  if headers_are_shared m
  then set_message (Some (with_message_headers h m)) c
  else c.

(** Whether [e] is handled by the clause that republishes the message. *)
Definition is_processing_exception (e : Exn) : bool :=
  match e with ProcessingException _ _ => true | _ => false end.

(** What the [except] clauses answer to [e] while [m] is processed: the
    outcome of the table; or, for a processing error whose republish
    raises, what the publish raised. *)
Definition handled (m : Message) (e : Exn) : Result Outcome :=
  if is_processing_exception e then
    match msg_basic_publish m with
    | Ok _ => Ok (taxonomy e)
    | Raise e' => Raise e'
    end
  else Ok (taxonomy e).

(** What a check answers when it drops the message [m]: the copy for the
    drop exchange is sent first when there is a drop exchange, and what
    that publish raises, if it raises, is raised in place of the
    outcome. *)
Definition drop_answer (c : Consumer) (m : Message) : Result Outcome :=
  if truthy_str (_drop_exchange c) then
    match msg_basic_publish m with
    | Ok _ => Ok MESSAGE_DROP
    | Raise e => Raise e
    end
  else Ok MESSAGE_DROP.

(** The headers of the last message republished to an exchange. *)
Definition last_republished (t : list Event) : option (gmap string Value) :=
  match last t with
  | Some (EvRepublish _ _ _ p) => prop_headers p
  | _ => None
  end.

(** ** A concrete environment and concrete objects *)

Module Sample.

(** The part of a content type before and after the first slash. *)
Fixpoint split_slash (s : string) : option (string * string) :=
  match s with
  | EmptyString => None
  | String a s' =>
      if Ascii.eqb a "/"%char then Some (EmptyString, s')
      else
        match split_slash s' with
        | Some (x, y) => Some (String a x, y)
        | None => None
        end
  end.

(** A stand-in for the [json] module that knows three documents. *)
Definition json_loads (v : Value) : Result Value :=
  match v with
  | VStr "[]" => Ok (VList [])
  | VStr "[1]" => Ok (VList [VInt 1])
  | VStr "0" => Ok (VInt 0)
  | _ => Raise (ValueError "json")
  end.

Definition json_dumps (v : Value) : Result Value :=
  match v with
  | VList [] => Ok (VStr "[]")
  | VList [VInt 1] => Ok (VStr "[1]")
  | VInt 0 => Ok (VStr "0")
  | _ => Raise TypeError
  end.

(** An environment: a fixed clock and identifier, no optional package
    installed, a content-type parser without parameters, compression left
    symbolic (a prefix is added and removed). *)
Definition lib : Library :=
  {| uuid4 := "6f1a2c3e-0000-4000-8000-000000000001";
     time_time := 1700000000;
     utcnow_isoformat := "2023-11-14T22:13:20";
     publish_elapsed := 0;
     format_value := fun v =>
       match v with
       | VInt z => pretty z
       | VStr s => s
       | _ => "?"
       end;
     installed := fun _ => false;
     parse_content_type := fun s =>
       match split_slash s with
       | Some (t, st) => Ok (t, st, ∅)
       | None => Raise (ValueError "content type")
       end;
     decompress := fun m b =>
       match b with
       | String "z" b' => Ok b'
       | _ => Raise (OtherException "error")
       end;
     compress := fun m b => Ok (String "z" b);
     decode := fun _ b => Ok b;
     encode_utf8 := fun s => s;
     load := fun key v =>
       if String.eqb key "application/json" then json_loads v
       else Raise (OtherException "Unsupported");
     dump := fun key v =>
       if String.eqb key "application/json" then json_dumps v
       else Raise (OtherException "Unsupported");
     positional_metric := Some |}.

Definition no_properties : Properties :=
  {| prop_app_id := None; prop_content_encoding := None;
     prop_content_type := None; prop_correlation_id := None;
     prop_expiration := None; prop_headers := None;
     prop_message_id := None; prop_priority := None;
     prop_reply_to := None; prop_timestamp := None;
     prop_type := None; prop_user_id := None |}.

Definition properties_of (ctype ptype reply mid : option string)
    (h : option (gmap string Value)) : Properties :=
  {| prop_app_id := None; prop_content_encoding := None;
     prop_content_type := ctype; prop_correlation_id := None;
     prop_expiration := None; prop_headers := h;
     prop_message_id := mid; prop_priority := None;
     prop_reply_to := reply; prop_timestamp := None;
     prop_type := ptype; prop_user_id := None |}.

Definition message_of (body : string) (p : Properties) : Message :=
  {| msg_connection := "conn1"; msg_delivery_tag := 1;
     msg_exchange := "orders"; msg_routing_key := "order.created";
     msg_redelivered := false; msg_body := body; msg_properties := p;
     msg_basic_publish := Ok tt |}.

Definition open_connection : Connection :=
  {| conn_is_connected := true; conn_channel_is_closed := false;
     conn_publisher_confirmations := false;
     conn_correlation_id := None; conn_pending := [] |}.

Definition no_measurement : Measurement := {| tags := ∅; durations := [] |}.

(** A consumer between two messages. *)
Definition consumer_of (is_smart : bool) (mt : MessageType)
    (drop_invalid : bool) (drop_exchange : option string)
    (max_retry : option Z) : Consumer :=
  {| name := "OrderConsumer"; smart := is_smart;
     _drop_exchange := drop_exchange; _drop_invalid := drop_invalid;
     _error_exchange := "errors"; _error_max_retry := max_retry;
     _message_type := mt; _finished := false; _message := None;
     _measurement := None; _message_body := VNone;
     _correlation_id := None;
     _connections := {["conn1" := open_connection]};
     registry := SmartConsumer_init_registry lib;
     heap := ∅; trace := [] |}.

(** A consumer in the middle of processing [m]. *)
Definition consumer_on (is_smart : bool) (m : Message) : Consumer :=
  set_measurement (Some no_measurement)
    (set_message (Some m) (consumer_of is_smart MTNone false None None)).

(** A message without headers, and messages whose retry counter holds a
    given value. *)
Definition plain_message : Message := message_of "payload" no_properties.

Definition counted_message (v : Value) : Message :=
  message_of "payload"
    (properties_of None None None None
       (Some {[ _PROCESSING_EXCEPTIONS := v ]})).

(** The same delivery on a channel that is closed: a publish on it
    raises. *)
Definition on_closed_channel (m : Message) : Message :=
  {| msg_connection := msg_connection m;
     msg_delivery_tag := msg_delivery_tag m;
     msg_exchange := msg_exchange m;
     msg_routing_key := msg_routing_key m;
     msg_redelivered := msg_redelivered m;
     msg_body := msg_body m;
     msg_properties := msg_properties m;
     msg_basic_publish := Raise (OtherException "ChannelClosed") |}.

(** A consumer with a drop exchange, processing [plain_message]. *)
Definition dropping_consumer : Consumer :=
  set_measurement (Some no_measurement)
    (set_message (Some plain_message)
       (consumer_of false MTNone true (Some "dropped") None)).

(** A message that asks for a reply, and a consumer processing it that
    holds the dictionary [d] at reference 1. *)
Definition request_message : Message :=
  message_of "payload"
    (properties_of None None (Some "reply-queue") (Some "msg-1") None).

Definition replying_consumer (is_smart : bool) (d : gmap string Value)
    : Consumer :=
  set_heap {[ 1%positive := d ]} (consumer_on is_smart request_message).

(** A consumer that accepts messages of type [order] only, messages of a
    given type, and a consumer with a retry threshold. *)
Definition typed_consumer (drop_invalid : bool) : Consumer :=
  consumer_of false (MTOne "order") drop_invalid None None.

Definition typed_message (t : string) : Message :=
  message_of "payload" (properties_of None (Some t) None None None).

Definition retry_consumer (n : Z) : Consumer :=
  consumer_of false MTNone false None (Some n).

(** A JSON message whose document is the empty list, and one whose
    document is a list with an element. *)
Definition json_message (body : string) : Message :=
  message_of body
    (properties_of (Some "application/json") None None None None).

(** Properties that declare JSON and an encoding. *)
Definition json_properties (encoding : string) : gmap string Value :=
  {[ "content_type" := VStr "application/json";
     "content_encoding" := VStr encoding ]}.

End Sample.

(** ** More observations *)

(** The copy of [m] a consumer named [nm] sends to the exchange [dx] when
    it drops [m] for [reason]. *)
Definition dropped_copy (lib : Library) (nm : string) (dx : option string)
    (m : Message) (reason : string) : Event :=
  EvRepublish dx (msg_routing_key m) (msg_body m)
    (with_headers (dropped_headers lib nm m reason) (msg_properties m)).

(** The copies a check publishes when it drops [m] for [reason]: one when
    there is a drop exchange and the publish returns, none otherwise. *)
Definition drop_copies (lib : Library) (c : Consumer) (m : Message)
    (reason : string) : list Event :=
  if truthy_str (_drop_exchange c) && is_ok (msg_basic_publish m)
  then [dropped_copy lib (name c) (_drop_exchange c) m reason]
  else [].

(** The decoded-body cache is left as it is. *)
Definition same_body : relation Consumer :=
  fun c c' => _message_body c' = _message_body c.

(** Nothing is published. *)
Definition no_publish : relation Consumer :=
  fun c c' => count is_publish (trace c') = count is_publish (trace c).

(** The connection a publish goes to: the one named, or the one the
    message came from. *)
Definition target_connection (nm : option string) (c : Consumer)
    : option string :=
  if truthy_str nm then nm else msg_connection <$> _message c.

(** A message compressed with an encoding spelled in capitals. *)
Definition message_of_encoding : Message :=
  {| msg_connection := "conn1"; msg_delivery_tag := 1;
     msg_exchange := "orders"; msg_routing_key := "order.created";
     msg_redelivered := false; msg_body := "zpayload";
     msg_properties :=
       {| prop_app_id := None; prop_content_encoding := Some "GZIP";
          prop_content_type := None; prop_correlation_id := None;
          prop_expiration := None; prop_headers := None;
          prop_message_id := None; prop_priority := None;
          prop_reply_to := None; prop_timestamp := None;
          prop_type := None; prop_user_id := None |};
     msg_basic_publish := Ok tt |}.

(** * Properties *)

(** ** Methods that keep a relation between the state before and after *)

Section Respects.

Context (R : relation Consumer) `{!PreOrder R}.

Lemma respects_ret {A} (a : A) : respects R (ret a).
Proof. intros c. simpl. reflexivity. Qed.

Lemma respects_raise {A} (e : Exn) : respects R (raise (A := A) e).
Proof. intros c. simpl. reflexivity. Qed.

Lemma respects_gets {A} (f : Consumer -> A) : respects R (gets f).
Proof. intros c. simpl. reflexivity. Qed.

Lemma respects_lift {A} (r : Result A) : respects R (lift r).
Proof. intros c. simpl. reflexivity. Qed.

Lemma respects_attr {A} (o : option A) : respects R (attr o).
Proof. destruct o; [apply respects_ret | apply respects_raise]. Qed.

Lemma respects_modify (f : Consumer -> Consumer) :
  (forall c, R c (f c)) -> respects R (modify f).
Proof. intros H c. apply H. Qed.

Lemma respects_bind {A B} (m : M A) (k : A -> M B) :
  respects R m -> (forall a, respects R (k a)) -> respects R (bind m k).
Proof.
  intros Hm Hk c. unfold bind. specialize (Hm c).
  destruct (m c) as [[a|e] c1]; simpl in *.
  - etransitivity; [exact Hm | apply Hk].
  - exact Hm.
Qed.

End Respects.

(** Breaks a method into its primitive steps; [tac] is left with the state
    updates. *)
Ltac respects_steps tac :=
  repeat
    match goal with
    | |- PreOrder _ => exact _
    | |- forall _, respects _ _ => intros ?
    | |- respects _ (match ?x with _ => _ end) => destruct x
    | |- respects _ (ret _) => apply respects_ret
    | |- respects _ (raise _) => apply respects_raise
    | |- respects _ (gets _) => apply respects_gets
    | |- respects _ (lift _) => apply respects_lift
    | |- respects _ (attr _) => apply respects_attr
    | |- respects _ (bind _ _) => apply respects_bind
    | |- respects _ (modify _) => apply respects_modify; [ .. | intros ?; tac ]
    end.

(** ** Events are counted *)

Lemma count_app p t1 t2 : count p (t1 ++ t2) = (count p t1 + count p t2)%nat.
Proof. induction t1 as [|ev t1 IH]; simpl; [done | rewrite IH; lia]. Qed.

(** ** Republishing: header names and the retry counter *)

Lemma last_republished_snoc t x k b p :
  last_republished (t ++ [EvRepublish x k b p]) = prop_headers p.
Proof. unfold last_republished. by rewrite last_snoc. Qed.

(** A republish, written out: the headers are written first, into the
    message when the dictionary is its own; then the copy is published,
    unless the publish raises. *)
Lemma republish_dropped_message_eq lib reason c m :
  _message c = Some m ->
  let h := dropped_headers lib (name c) m reason in
  _republish_dropped_message lib reason c =
    match msg_basic_publish m with
    | Ok _ =>
        (Ok tt,
         set_trace
           (trace c ++
            [EvRepublish (_drop_exchange c) (msg_routing_key m) (msg_body m)
               (with_headers h (msg_properties m))]) (after_write h m c))
    | Raise e => (Raise e, after_write h m c)
    end.
Proof.
  intros Hm. cbv zeta.
  unfold _republish_dropped_message, write_headers, channel_basic_publish,
    after_write, dropped_headers, bind, gets, attr, emit, modify, ret, raise.
  rewrite Hm. simpl.
  by destruct (headers_are_shared m), (msg_basic_publish m).
Qed.

Lemma py_add_one_not_number v :
  is_number v = false -> py_add_one v = Raise TypeError.
Proof. destruct v; simpl; congruence. Qed.

Lemma py_add_one_raises v e : py_add_one v = Raise e -> e = TypeError.
Proof. destruct v; simpl; congruence. Qed.

(** The counter after a republish, by what it held before. *)
Lemma bump_processing_exceptions_spec h :
  exists h',
    bump_processing_exceptions h = Ok h' /\
    (forall k, k <> _PROCESSING_EXCEPTIONS -> h' !! k = h !! k) /\
    (h !! _PROCESSING_EXCEPTIONS = None ->
     h' !! _PROCESSING_EXCEPTIONS = Some (VInt 1)) /\
    (forall v v', h !! _PROCESSING_EXCEPTIONS = Some v ->
       py_add_one v = Ok v' -> h' !! _PROCESSING_EXCEPTIONS = Some v') /\
    (forall v, h !! _PROCESSING_EXCEPTIONS = Some v ->
       is_number v = false -> h' !! _PROCESSING_EXCEPTIONS = Some (VInt 1)).
Proof.
  unfold bump_processing_exceptions.
  destruct (h !! _PROCESSING_EXCEPTIONS) as [v|] eqn:Hv.
  - destruct (py_add_one v) as [v'|e] eqn:Hadd.
    + eexists; split; [reflexivity|].
      repeat split; intros.
      * by rewrite lookup_insert_ne.
      * congruence.
      * rewrite lookup_insert_eq. congruence.
      * rewrite py_add_one_not_number in Hadd by congruence. congruence.
    + rewrite (py_add_one_raises _ _ Hadd).
      eexists; split; [reflexivity|].
      repeat split; intros.
      * by rewrite lookup_insert_ne.
      * congruence.
      * congruence.
      * by rewrite lookup_insert_eq.
  - eexists; split; [reflexivity|].
    repeat split; intros; try congruence.
    + by rewrite lookup_insert_ne.
    + by rewrite lookup_insert_eq.
Qed.

(** The headers the processing-error republish starts the count from, and
    the republish written out. *)
Lemma republish_processing_error_eq error c m :
  _message c = Some m ->
  exists h1 h2,
    h1 = (if negb (String.eqb error "")
          then <["X-Processing-Exception" := VStr error]> (republish_headers m)
          else republish_headers m) /\
    bump_processing_exceptions h1 = Ok h2 /\
    h1 !! _PROCESSING_EXCEPTIONS = republish_headers m !! _PROCESSING_EXCEPTIONS /\
    _republish_processing_error error c =
      match msg_basic_publish m with
      | Ok _ =>
          (Ok tt,
           set_trace
             (trace c ++
              [EvRepublish (Some (_error_exchange c)) (msg_routing_key m)
                 (msg_body m) (with_headers h2 (msg_properties m))])
             (after_write h2 m c))
      | Raise e => (Raise e, after_write h2 m c)
      end.
Proof.
  intros Hm.
  set (h1 := if negb (String.eqb error "")
             then <["X-Processing-Exception" := VStr error]> (republish_headers m)
             else republish_headers m).
  destruct (bump_processing_exceptions_spec h1) as (h2 & Hb & _).
  exists h1, h2. split; [done|]. split; [exact Hb|]. split.
  - subst h1. destruct (negb _); [|done].
    by rewrite lookup_insert_ne.
  - unfold _republish_processing_error, write_headers, channel_basic_publish,
      after_write, bind, gets, attr, emit, modify, lift, ret, raise.
    rewrite Hm. simpl. fold h1. rewrite Hb.
    by destruct (headers_are_shared m), (msg_basic_publish m).
Qed.

Lemma message_after_write h m c :
  _message c = Some m ->
  _message (after_write h m c) =
    Some (if headers_are_shared m then with_message_headers h m else m).
Proof. intros Hm. unfold after_write. by destruct (headers_are_shared m). Qed.

Lemma trace_after_write h m c : trace (after_write h m c) = trace c.
Proof. unfold after_write. by destruct (headers_are_shared m). Qed.

(** C2, as the specification words it, fails: a drop republish on a
    message without headers leaves [Dropped-By], [Dropped-Reason],
    [Dropped-Timestamp] and [Original-Exchange] unset, and a processing-error
    republish leaves [Processing-Exceptions] unset; the values are under the
    names that start with [X-]. *)
Lemma republish_header_names_have_prefix :
  let dropped :=
    last_republished
      (trace (_republish_dropped_message Sample.lib "invalid type"
                Sample.dropping_consumer).2) in
  let failed :=
    last_republished
      (trace (_republish_processing_error "ProcessingException"
                Sample.dropping_consumer).2) in
  (dropped ≫= (.!! "Dropped-By") = None /\
   dropped ≫= (.!! "Dropped-Reason") = None /\
   dropped ≫= (.!! "Dropped-Timestamp") = None /\
   dropped ≫= (.!! "Original-Exchange") = None /\
   failed ≫= (.!! "Processing-Exceptions") = None) /\
  (dropped ≫= (.!! "X-Dropped-By") = Some (VStr "OrderConsumer") /\
   failed ≫= (.!! "X-Processing-Exceptions") = Some (VInt 1)).
Proof. vm_compute. repeat split. Qed.

(** C2 (as amended): a republish computes its headers from the message's
    own: a drop republish adds [X-Dropped-By] (the consumer name),
    [X-Dropped-Reason], [X-Dropped-Timestamp] (the UTC ISO-8601 time) and
    [X-Original-Exchange] (the source exchange), a processing-error
    republish stores the retry counter under [X-Processing-Exceptions].
    The headers are written into the message's own dictionary when it has
    one that is not empty.  When the publish on the message's channel
    returns, one copy has been published: the original body, the original
    routing key, the original properties with these headers, to the drop
    exchange and to the error exchange respectively; when the publish
    raises, the republish raises the same exception and nothing is
    published. *)
Theorem republish_writes_prefixed_headers lib reason error c m :
  _message c = Some m ->
  let published exchange h :=
    match msg_basic_publish m with
    | Ok _ =>
        (Ok tt,
         [EvRepublish exchange (msg_routing_key m) (msg_body m)
            (with_headers h (msg_properties m))])
    | Raise e => (Raise e, [])
    end in
  let written h :=
    Some (if headers_are_shared m then with_message_headers h m else m) in
  (exists h c',
     _republish_dropped_message lib reason c =
       ((published (_drop_exchange c) h).1, c') /\
     trace c' = (trace c ++ (published (_drop_exchange c) h).2)%list /\
     _message c' = written h /\
     h !! "X-Dropped-By" = Some (VStr (name c)) /\
     h !! "X-Dropped-Reason" = Some (VStr reason) /\
     h !! "X-Dropped-Timestamp" = Some (VStr (utcnow_isoformat lib)) /\
     h !! "X-Original-Exchange" = Some (VStr (msg_exchange m)) /\
     (forall k, k ∉ ["X-Dropped-By"; "X-Dropped-Reason";
                      "X-Dropped-Timestamp"; "X-Original-Exchange"] ->
        h !! k = republish_headers m !! k)) /\
  (exists h c',
     _republish_processing_error error c =
       ((published (Some (_error_exchange c)) h).1, c') /\
     trace c' = (trace c ++ (published (Some (_error_exchange c)) h).2)%list /\
     _message c' = written h /\
     is_Some (h !! "X-Processing-Exceptions") /\
     (forall k, k ∉ ["X-Processing-Exceptions"; "X-Processing-Exception"] ->
        h !! k = republish_headers m !! k)).
Proof.
  intros Hm published written. split.
  - exists (dropped_headers lib (name c) m reason),
      (_republish_dropped_message lib reason c).2.
    rewrite (republish_dropped_message_eq lib reason c m Hm). cbv zeta.
    subst published written. simpl.
    split; [|split; [|split]].
    + by destruct (msg_basic_publish m).
    + destruct (msg_basic_publish m); simpl;
        by rewrite ?trace_after_write, ?app_nil_r.
    + destruct (msg_basic_publish m); simpl;
        by rewrite (message_after_write _ _ _ Hm).
    + unfold dropped_headers. repeat split.
      * by simplify_map_eq.
      * by simplify_map_eq.
      * by simplify_map_eq.
      * by simplify_map_eq.
      * intros k Hk. rewrite !not_elem_of_cons in Hk.
        destruct Hk as (? & ? & ? & ? & _).
        by rewrite !lookup_insert_ne.
  - destruct (republish_processing_error_eq error c m Hm)
      as (h1 & h2 & Hh1 & Hb & _ & Heq).
    exists h2, (_republish_processing_error error c).2.
    rewrite Heq. subst published written. simpl.
    split; [|split; [|split; [|split]]].
    + by destruct (msg_basic_publish m).
    + destruct (msg_basic_publish m); simpl;
        by rewrite ?trace_after_write, ?app_nil_r.
    + destruct (msg_basic_publish m); simpl;
        by rewrite (message_after_write _ _ _ Hm).
    + change "X-Processing-Exceptions" with _PROCESSING_EXCEPTIONS.
      destruct (bump_processing_exceptions_spec h1)
        as (h2' & Hb' & _ & Hnone & Hok & Hbad).
      assert (h2' = h2) as -> by congruence.
      destruct (h1 !! _PROCESSING_EXCEPTIONS) as [v|] eqn:Hv.
      * destruct (is_number v) eqn:Hnum.
        -- destruct (py_add_one v) as [v'|e] eqn:Hadd.
           ++ rewrite (Hok v v' eq_refl Hadd). eauto.
           ++ destruct v; simpl in *; congruence.
        -- rewrite (Hbad v eq_refl Hnum). eauto.
      * rewrite (Hnone eq_refl). eauto.
    + intros k Hk. rewrite !not_elem_of_cons in Hk.
      destruct Hk as (Hk1 & Hk2 & _).
      destruct (bump_processing_exceptions_spec h1)
        as (h2' & Hb' & Hother & _).
      assert (h2' = h2) as -> by congruence.
      rewrite Hother by done. rewrite Hh1.
      destruct (negb _); [|done]. by rewrite lookup_insert_ne.
Qed.

Lemma republish_writes_prefixed_headers_witness :
  exists h,
    (_republish_dropped_message Sample.lib "invalid type"
       Sample.dropping_consumer).1 = Ok tt /\
    last_republished
      (trace (_republish_dropped_message Sample.lib "invalid type"
                Sample.dropping_consumer).2) = Some h /\
    h !! "X-Original-Exchange" = Some (VStr "orders").
Proof.
  destruct (republish_writes_prefixed_headers Sample.lib "invalid type"
              "ProcessingException" Sample.dropping_consumer
              Sample.plain_message eq_refl)
    as [(h & c' & Heq & Ht & _ & _ & _ & _ & Hx & _) _].
  exists h. rewrite Heq. split; [reflexivity|].
  split; [|exact Hx].
  simpl. rewrite Ht. apply last_republished_snoc.
Defined.

(** C6, as the specification words it, fails: a counter that holds the
    float 2.5 is not a valid integer, yet the republish carries 3.5, not
    1.  (Nor is a float always incremented: the float sum of 1e16 and 1 is
    1e16.) *)
Lemma republish_float_counter_is_incremented :
  let c := Sample.consumer_on false (Sample.counted_message (VFloat 2.5)) in
  let h := last_republished (trace (_republish_processing_error "E" c).2) in
  is_int (VFloat 2.5) = false /\
  h ≫= (.!! _PROCESSING_EXCEPTIONS) = Some (VFloat 3.5) /\
  h ≫= (.!! _PROCESSING_EXCEPTIONS) <> Some (VInt 1) /\
  py_add_one (VFloat 1e16) = Ok (VFloat 1e16).
Proof. vm_compute. repeat split. discriminate. Qed.

(** C6 (as amended): on a processing-error republish whose publish
    returns, the retry counter of the copy is the old one incremented by
    one when it holds an integer (3 becomes 4; a boolean counts as the
    integer it is), 1 when it is absent, and 1 when the existing value is
    not a number (None, a string, bytes, a list or a mapping); a float is
    not reset: the copy carries the float sum of the value and 1. *)
Theorem republish_processing_error_counter error c m :
  _message c = Some m ->
  msg_basic_publish m = Ok tt ->
  exists c' h,
    _republish_processing_error error c = (Ok tt, c') /\
    last_republished (trace c') = Some h /\
    let old := republish_headers m !! _PROCESSING_EXCEPTIONS in
    (old = None -> h !! _PROCESSING_EXCEPTIONS = Some (VInt 1)) /\
    (forall z, old = Some (VInt z) ->
       h !! _PROCESSING_EXCEPTIONS = Some (VInt (z + 1))) /\
    (forall b, old = Some (VBool b) ->
       h !! _PROCESSING_EXCEPTIONS = Some (VInt (Z.b2z b + 1))) /\
    (forall f, old = Some (VFloat f) ->
       h !! _PROCESSING_EXCEPTIONS = Some (VFloat (PrimFloat.add f 1))) /\
    (forall v, old = Some v -> is_number v = false ->
       h !! _PROCESSING_EXCEPTIONS = Some (VInt 1)).
Proof.
  intros Hm Hpub.
  destruct (republish_processing_error_eq error c m Hm)
    as (h1 & h2 & _ & Hb & Hold & Heq).
  rewrite Hpub in Heq.
  destruct (bump_processing_exceptions_spec h1)
    as (h2' & Hb' & _ & Hnone & Hok & Hbad).
  assert (h2' = h2) as -> by congruence.
  eexists _, h2. split; [exact Heq|]. split.
  - apply last_republished_snoc.
  - simpl. rewrite <- Hold. repeat split.
    + exact Hnone.
    + intros z Hz. by apply (Hok _ _ Hz).
    + intros b Hz. by apply (Hok _ _ Hz).
    + intros f Hz. by apply (Hok _ _ Hz).
    + exact Hbad.
Qed.

Lemma republish_processing_error_counter_witness :
  exists c' h,
    _republish_processing_error "ProcessingException"
      (Sample.consumer_on false (Sample.counted_message (VInt 3))) = (Ok tt, c') /\
    last_republished (trace c') = Some h /\
    h !! _PROCESSING_EXCEPTIONS = Some (VInt 4).
Proof.
  destruct (republish_processing_error_counter "ProcessingException"
              (Sample.consumer_on false (Sample.counted_message (VInt 3)))
              (Sample.counted_message (VInt 3)) eq_refl eq_refl)
    as (c' & h & Heq & Hlast & _ & Hint & _).
  exists c', h. split; [exact Heq|]. split; [exact Hlast|].
  apply (Hint 3). reflexivity.
Defined.

(** ** Replies *)

Lemma set_heap_same c : set_heap (heap c) c = c.
Proof. by destruct c. Qed.

Lemma lookup_defaulted_ne k k' extra v d :
  k <> k' -> defaulted k' extra v d !! k = d !! k.
Proof.
  intros Hne. unfold defaulted.
  destruct (negb _ && extra); [|done]. by rewrite lookup_insert_ne.
Qed.

Lemma dict_get_defaulted_ne k k' extra v d :
  k <> k' -> dict_get (defaulted k' extra v d) k = dict_get d k.
Proof. intros Hne. unfold dict_get. by rewrite lookup_defaulted_ne. Qed.

Lemma lookup_defaulted_unset k v d :
  truthy (dict_get d k) = false -> defaulted k true v d !! k = Some v.
Proof. intros H. unfold defaulted. rewrite H. simpl. apply lookup_insert_eq. Qed.

Lemma lookup_defaulted_set k extra v d :
  truthy (dict_get d k) = true -> defaulted k extra v d = d.
Proof. intros H. unfold defaulted. by rewrite H. Qed.

Lemma lookup_defaulted_other k k0 extra v d :
  truthy (dict_get d k) = true -> defaulted k0 extra v d !! k = d !! k.
Proof.
  intros H. destruct (decide (k = k0)) as [->|Hne].
  - by rewrite lookup_defaulted_set.
  - by apply lookup_defaulted_ne.
Qed.

(** What [reply_properties] holds, key by key. *)
Lemma reply_properties_spec lib c d :
  let d' := reply_properties lib c d in
  (truthy (dict_get d "app_id") = false ->
   d' !! "app_id" = Some (VStr (name c))) /\
  (forall mid, truthy (dict_get d "correlation_id") = false ->
     message_id c = Some mid -> mid <> "" ->
     d' !! "correlation_id" = Some (VStr mid)) /\
  (truthy (dict_get d "message_id") = false ->
   d' !! "message_id" = Some (VStr (uuid4 lib))) /\
  (truthy (dict_get d "timestamp") = false ->
   d' !! "timestamp" = Some (VInt (time_time lib))) /\
  (forall k, truthy (dict_get d k) = true -> d' !! k = d !! k) /\
  (forall k, k ∉ ["app_id"; "correlation_id"; "message_id"; "timestamp"] ->
     d' !! k = d !! k).
Proof.
  unfold reply_properties. repeat split.
  - intros H. rewrite !lookup_defaulted_ne by done.
    by apply lookup_defaulted_unset.
  - intros mid H Hmid Hne. rewrite !lookup_defaulted_ne by done.
    rewrite Hmid. simpl.
    assert (negb (String.eqb mid "") = true) as ->.
    { apply negb_true_iff. by apply String.eqb_neq. }
    apply lookup_defaulted_unset. by rewrite dict_get_defaulted_ne.
  - intros H. rewrite lookup_defaulted_ne by done.
    apply lookup_defaulted_unset. by rewrite !dict_get_defaulted_ne.
  - intros H. apply lookup_defaulted_unset.
    by rewrite !dict_get_defaulted_ne.
  - intros k H.
    assert (forall k0 extra v d0, d0 !! k = d !! k ->
              defaulted k0 extra v d0 !! k = d !! k) as Hstep.
    { intros k0 extra v d0 Hd0. rewrite <- Hd0.
      apply lookup_defaulted_other. unfold dict_get. by rewrite Hd0. }
    by do 4 apply Hstep.
  - intros k Hk. rewrite !not_elem_of_cons in Hk.
    destruct Hk as (? & ? & ? & ? & _).
    by rewrite !lookup_defaulted_ne.
Qed.

Lemma set_if_unset_eq l k extra v c d :
  heap c !! l = Some d ->
  set_if_unset l k extra v c =
    (Ok tt, set_heap (<[l := defaulted k extra v d]> (heap c)) c).
Proof.
  intros H.
  unfold set_if_unset, dict_unset, dict_setitem, bind, gets, ret, modify,
    defaulted, deref.
  rewrite H. simpl. destruct (negb _ && extra); simpl; rewrite ?H; [done|].
  rewrite insert_id by done. by rewrite set_heap_same.
Qed.

Lemma reply_defaults_eq lib p c d :
  heap c !! p = Some d ->
  reply_defaults lib p c =
    (Ok tt, set_heap (<[p := reply_properties lib c d]> (heap c)) c).
Proof.
  intros H. unfold reply_defaults, reply_properties.
  unfold bind at 1. unfold gets at 1.
  unfold bind at 1. rewrite (set_if_unset_eq _ _ _ _ _ _ H).
  unfold bind at 1. unfold gets at 1.
  unfold bind at 1.
  erewrite set_if_unset_eq by (simpl; apply lookup_insert_eq).
  unfold bind at 1.
  erewrite set_if_unset_eq by (simpl; apply lookup_insert_eq).
  erewrite set_if_unset_eq by (simpl; apply lookup_insert_eq).
  simpl. by rewrite !insert_insert_eq.
Qed.

(** [properties or {}] yields a reference to a dictionary that holds what
    the caller gave; it is the caller's own reference when that dictionary
    is not empty. *)
Lemma properties_or_new_spec properties c :
  exists p c0,
    properties_or_new properties c = (Ok p, c0) /\
    c0 = set_heap (heap c0) c /\
    heap c0 !! p = Some (given_properties properties c) /\
    (forall l d, properties = Some l -> heap c !! l = Some d -> d <> ∅ ->
       p = l /\ c0 = c).
Proof.
  unfold properties_or_new, bind, gets, modify, ret.
  destruct properties as [l|]; simpl.
  - destruct (decide (default ∅ (heap c !! l) = ∅)) as [He|Hne].
    + eexists _, _. split; [reflexivity|]. simpl. split; [done|]. split.
      * rewrite lookup_insert_eq. unfold deref. by rewrite He.
      * intros l' d [= <-] Hd Hd'. rewrite Hd in He. done.
    + eexists _, _. split; [reflexivity|]. split; [by rewrite set_heap_same|].
      split.
      * unfold deref. destruct (heap c !! l) eqn:Hl; [done|]. done.
      * intros l' d [= <-] _ _. done.
  - eexists _, _. split; [reflexivity|]. simpl. split; [done|]. split.
    + by rewrite lookup_insert_eq.
    + intros l d [=].
Qed.

Local Instance same_heap_preorder : PreOrder same_heap.
Proof.
  split.
  - intros c. reflexivity.
  - intros c1 c2 c3 H12 H23. unfold same_heap in *. congruence.
Qed.

Lemma publish_message_keeps_heap lib exch rk d body fifth :
  respects same_heap (publish_message_positional lib exch rk d body fifth).
Proof.
  unfold publish_message_positional, SmartConsumer_publish_message,
    Consumer_publish_message, _serialize, _compress, _maybe_decode,
    _maybe_invoke_serialization_dump, _publish_connection,
    _publisher_confirmation_future, measurement_add_duration, emit.
  respects_steps ltac:(unfold same_heap; reflexivity).
Qed.

(** With a routing key at hand, [rpc_reply] is [publish_message] called on
    the filled dictionary. *)
Lemma rpc_reply_with_key lib body properties exch rt conn c :
  rt <> None \/ reply_to c <> None ->
  exists p c0,
    properties_or_new properties c = (Ok p, c0) /\
    c0 = set_heap (heap c0) c /\
    let d' := reply_properties lib c (given_properties properties c) in
    rpc_reply lib body properties exch rt conn c =
      publish_message_positional lib (or_str exch (exchange c))
        (or_str rt (reply_to c)) d' body conn
        (set_heap (<[p := d']> (heap c0)) c0).
Proof.
  intros Hkey.
  destruct (properties_or_new_spec properties c)
    as (p & c0 & Hnew & Hc0 & Hp & _).
  exists p, c0. split; [done|]. split; [done|]. cbv zeta.
  unfold rpc_reply.
  unfold bind at 1. unfold gets at 1.
  assert (bool_decide (rt = None) && bool_decide (reply_to c = None) = false)
    as ->.
  { apply andb_false_iff.
    destruct Hkey as [H|H]; [left|right]; by apply bool_decide_eq_false. }
  unfold bind at 1. rewrite Hnew.
  unfold bind at 1. rewrite (reply_defaults_eq lib p c0 _ Hp).
  assert (reply_properties lib c0 (given_properties properties c)
          = reply_properties lib c (given_properties properties c)) as ->.
  { by rewrite Hc0. }
  unfold bind, gets, deref. simpl. rewrite lookup_insert_eq. simpl.
  by rewrite Hc0.
Qed.

(** C8: a call of [rpc_reply] with no [reply_to] argument while the message
    being processed has no [reply_to] property raises a [ValueError] and
    leaves the consumer as it was (nothing is published, no dictionary is
    touched); when a routing key is available, [publish_message] is called
    once the properties hold the defaults, nothing having been published
    before: an unset [app_id] is the consumer name, an unset
    [correlation_id] the [message_id] of the inbound message when it has
    one, an unset [message_id] a new identifier, an unset [timestamp] the
    current time, and what the caller had set is kept. *)
Theorem rpc_reply_checks_then_defaults lib body properties exch rt conn c :
  (rt = None -> reply_to c = None ->
   rpc_reply lib body properties exch rt conn c =
     (Raise (ValueError "Missing reply_to routing key"), c)) /\
  (rt <> None \/ reply_to c <> None ->
   exists c1,
     let d := given_properties properties c in
     let d' := reply_properties lib c d in
     rpc_reply lib body properties exch rt conn c =
       publish_message_positional lib (or_str exch (exchange c))
         (or_str rt (reply_to c)) d' body conn c1 /\
     trace c1 = trace c /\
     (truthy (dict_get d "app_id") = false ->
      d' !! "app_id" = Some (VStr (name c))) /\
     (forall mid, truthy (dict_get d "correlation_id") = false ->
        message_id c = Some mid -> mid <> "" ->
        d' !! "correlation_id" = Some (VStr mid)) /\
     (truthy (dict_get d "message_id") = false ->
      d' !! "message_id" = Some (VStr (uuid4 lib))) /\
     (truthy (dict_get d "timestamp") = false ->
      d' !! "timestamp" = Some (VInt (time_time lib))) /\
     (forall k, truthy (dict_get d k) = true -> d' !! k = d !! k)).
Proof.
  split.
  - intros -> Hr. unfold rpc_reply, bind, gets. rewrite Hr. reflexivity.
  - intros Hkey.
    destruct (rpc_reply_with_key lib body properties exch rt conn c Hkey)
      as (p & c0 & _ & Hc0 & Heq).
    eexists. cbv zeta. split; [exact Heq|].
    destruct (reply_properties_spec lib c (given_properties properties c))
      as (Ha & Hc & Hm & Ht & Hset & _).
    split; [by rewrite Hc0|by repeat split].
Qed.

Lemma rpc_reply_checks_then_defaults_witness :
  let quiet := Sample.consumer_on false Sample.plain_message in
  let asked := Sample.consumer_on false Sample.request_message in
  rpc_reply Sample.lib (VBytes "ok") None None None None quiet =
    (Raise (ValueError "Missing reply_to routing key"), quiet) /\
  exists c1,
    rpc_reply Sample.lib (VBytes "ok") None None None None asked =
      publish_message_positional Sample.lib (or_str None (exchange asked))
        (or_str None (reply_to asked))
        (reply_properties Sample.lib asked (given_properties None asked))
        (VBytes "ok") None c1 /\
    trace c1 = trace asked /\
    reply_properties Sample.lib asked (given_properties None asked)
      !! "app_id" = Some (VStr (name asked)).
Proof.
  intros quiet asked. split.
  - apply (rpc_reply_checks_then_defaults Sample.lib (VBytes "ok") None None
             None None quiet); reflexivity.
  - destruct (rpc_reply_checks_then_defaults Sample.lib (VBytes "ok") None
                None None None asked) as [_ H].
    destruct H as (c1 & Heq & Ht & Ha & _); [right; discriminate|].
    exists c1. split; [exact Heq|]. split; [exact Ht|].
    apply Ha. reflexivity.
Defined.

(** C10, as stated, fails: a caller that passes an empty dictionary gets
    nothing written into it; the entries go into a new dictionary. *)
Lemma rpc_reply_leaves_empty_dictionary_empty :
  let c := Sample.replying_consumer false ∅ in
  let r := rpc_reply Sample.lib (VBytes "ok") (Some 1%positive)
             None None None c in
  heap c !! 1%positive = Some ∅ /\
  r.1 = Ok None /\
  heap r.2 !! 1%positive = Some ∅ /\
  last_published (trace r.2) ≫= (.!! "app_id") = Some (VStr "OrderConsumer").
Proof. vm_compute. repeat split. Qed.

(** C10 (as amended): for every call of [rpc_reply] that passes a
    dictionary that is not empty, and for which a routing key is available,
    the defaulted entries are written into that same dictionary in place:
    when the call is over, whether it returned or the publish raised, the
    caller's dictionary holds them. *)
Theorem rpc_reply_fills_callers_dictionary lib body l d exch rt conn c :
  heap c !! l = Some d ->
  d <> ∅ ->
  rt <> None \/ reply_to c <> None ->
  let c' := (rpc_reply lib body (Some l) exch rt conn c).2 in
  exists d',
    heap c' !! l = Some d' /\
    d' = reply_properties lib c d /\
    (truthy (dict_get d "app_id") = false ->
     d' !! "app_id" = Some (VStr (name c))) /\
    (forall mid, truthy (dict_get d "correlation_id") = false ->
       message_id c = Some mid -> mid <> "" ->
       d' !! "correlation_id" = Some (VStr mid)) /\
    (truthy (dict_get d "message_id") = false ->
     d' !! "message_id" = Some (VStr (uuid4 lib))) /\
    (truthy (dict_get d "timestamp") = false ->
     d' !! "timestamp" = Some (VInt (time_time lib))) /\
    (forall k, truthy (dict_get d k) = true -> d' !! k = d !! k).
Proof.
  intros Hl Hd Hkey c'.
  destruct (rpc_reply_with_key lib body (Some l) exch rt conn c Hkey)
    as (p & c0 & Hnew & _ & Heq).
  destruct (properties_or_new_spec (Some l) c)
    as (p' & c0' & Hnew' & _ & _ & Hsame).
  assert (p' = p /\ c0' = c0) as [-> ->] by (split; congruence).
  destruct (Hsame l d eq_refl Hl Hd) as [-> ->].
  assert (given_properties (Some l) c = d) as Hgiven.
  { unfold given_properties, deref. by rewrite Hl. }
  cbv zeta in Heq. rewrite Hgiven in Heq.
  destruct (reply_properties_spec lib c d) as (Ha & Hc & Hm & Ht & Hset & _).
  exists (reply_properties lib c d).
  split; [|by repeat split].
  subst c'. rewrite Heq.
  rewrite (publish_message_keeps_heap lib _ _ _ _ _ _).
  simpl. apply lookup_insert_eq.
Qed.

Lemma rpc_reply_fills_callers_dictionary_witness :
  exists d',
    heap (rpc_reply Sample.lib (VBytes "ok") (Some 1%positive) None None None
            (Sample.replying_consumer false {[ "priority" := VInt 5 ]})).2
      !! 1%positive = Some d' /\
    d' !! "app_id" = Some (VStr "OrderConsumer") /\
    d' !! "priority" = Some (VInt 5).
Proof.
  destruct (rpc_reply_fills_callers_dictionary Sample.lib (VBytes "ok")
              1%positive {[ "priority" := VInt 5 ]} None None None
              (Sample.replying_consumer false {[ "priority" := VInt 5 ]}))
    as (d' & Hd' & _ & Happ & _ & _ & _ & Hkept).
  - reflexivity.
  - intros H. apply (f_equal (fun m => m !! "priority")) in H. discriminate H.
  - right. discriminate.
  - exists d'. split; [exact Hd'|]. split.
    + apply Happ. reflexivity.
    + rewrite Hkept; reflexivity.
Defined.

(** ** The decoded body *)

(** What [body] returns is what it leaves in [_message_body]. *)
Lemma SmartConsumer_body_cached lib c v c1 :
  SmartConsumer_body lib c = (Ok v, c1) -> _message_body c1 = v.
Proof.
  unfold SmartConsumer_body. unfold bind at 1. unfold gets at 1.
  destruct (truthy (_message_body c)) eqn:Hc.
  - intros [= <- <-]. reflexivity.
  - unfold bind at 1.
    destruct (_maybe_decompress_body lib c) as [[v1|e1] c2]; [|discriminate].
    unfold bind at 1. unfold modify at 1.
    unfold bind at 1.
    destruct (_maybe_deserialize_body lib (set_message_body v1 c2))
      as [[v2|e2] c3]; [|discriminate].
    unfold bind, modify, gets. intros [= <- <-]. reflexivity.
Qed.

(** A decoded body that is true is kept: the next read returns it and
    changes nothing, so no codec runs again. *)
Lemma SmartConsumer_body_memoized lib c v c1 :
  SmartConsumer_body lib c = (Ok v, c1) ->
  truthy v = true ->
  SmartConsumer_body lib c1 = (Ok v, c1).
Proof.
  intros Hread Hv. apply SmartConsumer_body_cached in Hread.
  unfold SmartConsumer_body, bind, gets. rewrite Hread, Hv. reflexivity.
Qed.

(** A decoded body that is false is not: the next read goes through
    decompression and deserialization again. *)
Lemma SmartConsumer_body_not_memoized lib c v c1 :
  SmartConsumer_body lib c = (Ok v, c1) ->
  truthy v = false ->
  SmartConsumer_body lib c1 =
    (let* v1 := _maybe_decompress_body lib in
     modify (set_message_body v1) ;;
     let* v2 := _maybe_deserialize_body lib in
     modify (set_message_body v2) ;;
     gets _message_body) c1.
Proof.
  intros Hread Hv. apply SmartConsumer_body_cached in Hread.
  unfold SmartConsumer_body. unfold bind at 1. unfold gets at 1.
  by rewrite Hread, Hv.
Qed.

(** C4 does not hold of the code: [body] tests the cache with [if
    self._message_body:], so a decoded body that is false (here the JSON
    document [[]]) is never taken from the cache; two reads of the body of
    one message invoke the JSON loader twice. *)
Theorem falsy_body_is_decoded_at_each_read :
  let c := Sample.consumer_on true (Sample.json_message "[]") in
  let first := SmartConsumer_body Sample.lib c in
  let second := SmartConsumer_body Sample.lib first.2 in
  first.1 = Ok (VList []) /\
  second.1 = Ok (VList []) /\
  count is_load (trace first.2) = 1%nat /\
  count is_load (trace second.2) = 2%nat.
Proof. vm_compute. repeat split. Qed.

(** For comparison, a body that decodes to a true value is decoded once. *)
Lemma truthy_body_is_decoded_once :
  let c := Sample.consumer_on true (Sample.json_message "[1]") in
  let first := SmartConsumer_body Sample.lib c in
  let second := SmartConsumer_body Sample.lib first.2 in
  second.1 = Ok (VList [VInt 1]) /\
  count is_load (trace second.2) = 1%nat.
Proof. vm_compute. repeat split. Qed.

(** ** Publishing with a content type and an encoding *)

(** A content type the registry does not have, or has disabled, stops the
    publish with a [ValueError] before anything happens. *)
Lemma publish_unknown_content_type lib exch rk properties body t ct
    no_encoding channel connection c :
  is_string body = false ->
  dict_get properties "content_type" = VStr t ->
  t <> "" ->
  parse_content_type lib t = Ok ct ->
  (registry c !! content_key ct = None \/
   exists d, registry c !! content_key ct = Some d /\ d_enabled d = false) ->
  exists msg,
    SmartConsumer_publish_message lib exch rk properties body false
      no_encoding channel connection c = (Raise (ValueError msg), c).
Proof.
  intros Hbody Ht Hne Hparse Hreg.
  unfold SmartConsumer_publish_message. unfold bind at 1.
  rewrite Hbody, Ht. simpl.
  assert (negb (String.eqb t "") = true) as ->.
  { apply negb_true_iff. by apply String.eqb_neq. }
  unfold bind at 1. unfold lift at 1. rewrite Hparse.
  unfold _serialize. unfold bind at 1. unfold gets at 1.
  destruct Hreg as [Hnone|(d & Hd & Hoff)].
  - rewrite Hnone. eexists. reflexivity.
  - rewrite Hd, Hoff. eexists. reflexivity.
Qed.

(** An encoding that is not a key of [_CODEC_MAP] is skipped: the body is
    handed to [Consumer.publish_message] as it is. *)
Lemma publish_unknown_encoding lib exch rk properties body e
    channel connection c :
  is_string body = true ->
  dict_get properties "content_encoding" = VStr e ->
  _CODEC_MAP !! e = None ->
  SmartConsumer_publish_message lib exch rk properties body false false
    channel connection c =
  Consumer_publish_message lib exch rk properties body
    (or_str channel connection) None c.
Proof.
  intros Hbody He Hmap.
  unfold SmartConsumer_publish_message. unfold bind at 1.
  rewrite Hbody. simpl. unfold ret at 1.
  unfold bind at 1. unfold bind at 1. unfold lift at 1.
  rewrite He. simpl. rewrite Hmap. reflexivity.
Qed.

(** C7 does not hold of the code: with auto-serialization and
    auto-encoding on, a list published as JSON with the unknown content
    encoding [deflate] raises nothing; it is serialized, never compressed,
    and published. *)
Theorem unknown_encoding_is_published_unencoded :
  let c := Sample.consumer_on true Sample.plain_message in
  let r := SmartConsumer_publish_message Sample.lib (Some "events")
             (Some "order.done") (Sample.json_properties "deflate")
             (VList [VInt 1]) false false None None c in
  _CODEC_MAP !! "deflate" = None /\
  r.1 = Ok None /\
  trace r.2 =
    [EvDump "application/json";
     EvPublish "conn1" (Some "events") (Some "order.done")
       (Sample.json_properties "deflate") (VStr "[1]") false].
Proof. vm_compute. repeat split. Qed.

(** For comparison, a known encoding is applied, and an unknown content
    type raises. *)
Lemma known_encoding_is_applied :
  let c := Sample.consumer_on true Sample.plain_message in
  let r := SmartConsumer_publish_message Sample.lib (Some "events")
             (Some "order.done") (Sample.json_properties "gzip")
             (VList [VInt 1]) false false None None c in
  r.1 = Ok None /\ count is_publish (trace r.2) = 1%nat /\
  trace r.2 !! 1%nat = Some (EvCompress "zlib").
Proof. vm_compute. repeat split. Qed.

(** ** What the steps of an execution keep *)

Local Instance engine_step_preorder : PreOrder engine_step.
Proof.
  split.
  - intros c. split; auto.
  - intros c1 c2 c3 [Hm1 Hs1 Hf1 Ht1] [Hm2 Hs2 Hf2 Ht2]. split.
    + congruence.
    + auto.
    + lia.
    + by transitivity (trace c2).
Qed.

Local Instance user_step_preorder : PreOrder user_step.
Proof.
  split.
  - intros c. split; [reflexivity | done | done].
  - intros c1 c2 c3 [He1 Hp1 Hq1] [He2 Hp2 Hq2]. split.
    + by transitivity c2.
    + congruence.
    + congruence.
Qed.

Local Instance quiet_step_preorder : PreOrder quiet_step.
Proof.
  split.
  - intros c. by split.
  - intros c1 c2 c3 [] []. split; congruence.
Qed.

(** Closes the goals about one update of the object. *)
Ltac step_solver :=
  repeat split;
  unfold on_finish_calls, prepare_calls, process_calls;
  simpl; rewrite ?count_app; simpl; eauto;
  try (by apply prefix_app_r); try lia.

Lemma finish_user_step : respects user_step finish.
Proof.
  intros c. unfold finish, bind, gets, modify, on_finish, emit, modify, ret.
  destruct (_finished c) eqn:Hf; simpl.
  - reflexivity.
  - step_solver. rewrite Hf. simpl. lia.
Qed.

Lemma SmartConsumer_body_user_step lib : respects user_step (SmartConsumer_body lib).
Proof.
  unfold SmartConsumer_body, _maybe_decompress_body, _maybe_deserialize_body,
    _maybe_decode, _maybe_invoke_serialization_load, emit.
  respects_steps step_solver.
Qed.

Lemma Consumer_publish_message_user_step lib exch rk d body channel connection :
  respects user_step
    (Consumer_publish_message lib exch rk d body channel connection).
Proof.
  unfold Consumer_publish_message, _publish_connection,
    _publisher_confirmation_future, measurement_add_duration, emit.
  respects_steps step_solver.
Qed.

Lemma SmartConsumer_publish_message_user_step lib exch rk d body ns ne
    channel connection :
  respects user_step
    (SmartConsumer_publish_message lib exch rk d body ns ne channel connection).
Proof.
  unfold SmartConsumer_publish_message.
  apply respects_bind; [exact _ | | intros body1].
  - unfold _serialize, _maybe_decode, _maybe_invoke_serialization_dump, emit.
    respects_steps step_solver.
  - apply respects_bind; [exact _ | | intros body2].
    + unfold _compress, emit. respects_steps step_solver.
    + apply Consumer_publish_message_user_step.
Qed.

Lemma rpc_reply_user_step lib body properties exch rt connection :
  respects user_step (rpc_reply lib body properties exch rt connection).
Proof.
  unfold rpc_reply.
  apply respects_bind; [exact _ | apply respects_gets; exact _ | intros r].
  destruct (_ && _); [apply respects_raise; exact _|].
  apply respects_bind; [exact _ | | intros p].
  { unfold properties_or_new. cbv zeta. respects_steps step_solver. }
  apply respects_bind; [exact _ | | intros _].
  { unfold reply_defaults, set_if_unset, dict_unset, dict_setitem.
    respects_steps step_solver. }
  apply respects_bind; [exact _ | apply respects_gets; exact _ | intros d].
  apply respects_bind; [exact _ | apply respects_gets; exact _ | intros x].
  unfold publish_message_positional.
  apply respects_bind; [exact _ | apply respects_gets; exact _ | intros [|]].
  - apply SmartConsumer_publish_message_user_step.
  - apply Consumer_publish_message_user_step.
Qed.

Lemma run_action_user_step lib a : respects user_step (run_action lib a).
Proof.
  destruct a; simpl.
  - apply finish_user_step.
  - apply respects_bind; [exact _ | apply respects_gets; exact _ | intros [|]].
    + apply respects_bind; [exact _ | | intros ?; apply respects_ret; exact _].
      apply SmartConsumer_body_user_step.
    + apply respects_ret; exact _.
  - respects_steps step_solver.
  - apply respects_bind; [exact _ | apply respects_gets; exact _ | intros d0].
    apply respects_bind; [exact _ | apply respects_gets; exact _ | intros b].
    apply respects_bind; [exact _ | | intros ?; apply respects_ret; exact _].
    destruct b.
    + apply SmartConsumer_publish_message_user_step.
    + apply Consumer_publish_message_user_step.
  - apply respects_bind; [exact _ | | intros ?; apply respects_ret; exact _].
    apply rpc_reply_user_step.
  - apply respects_raise; exact _.
Qed.

Lemma run_script_user_step lib s : respects user_step (run_script lib s).
Proof.
  induction s as [|a s IH]; simpl.
  - apply respects_ret; exact _.
  - apply respects_bind; [exact _ | apply run_action_user_step | intros _; exact IH].
Qed.

Lemma call_and_wait_user_step lib cb : respects user_step (call_and_wait lib cb).
Proof.
  destruct cb as [body|before after]; simpl.
  - apply run_script_user_step.
  - intros c. pose proof (run_script_user_step lib before c) as Hb.
    destruct (run_script lib before c) as [[[]|e] c1]; simpl in *.
    + etransitivity; [exact Hb|].
      pose proof (run_script_user_step lib after
                    (set_trace (trace c1 ++ [EvSuspend]) c1)) as Ha.
      unfold bind, emit, modify. simpl.
      etransitivity; [|exact Ha]. step_solver.
    + etransitivity; [exact Hb|]. step_solver.
Qed.

(** The body of the [try], step by step: [process] starts from the state
    [prepare] has left once it is over, and only when [prepare] neither
    raised nor finished the message. *)
Lemma prepare_and_process_eq lib prepare process c :
  prepare_and_process lib prepare process c =
    match call_and_wait lib prepare (set_trace (trace c ++ [EvPrepare]) c) with
    | (Raise e, c2) => (Raise e, c2)
    | (Ok _, c2) =>
        if _finished c2 then (Ok tt, c2)
        else call_and_wait lib process (set_trace (trace c2 ++ [EvProcess]) c2)
    end.
Proof.
  unfold prepare_and_process, bind, emit, modify, gets. simpl.
  destruct (call_and_wait lib prepare _) as [[[]|e] c2]; [|done].
  by destruct (_finished c2).
Qed.

Lemma prepare_and_process_engine_step lib prepare process c :
  let r := prepare_and_process lib prepare process c in
  engine_step c r.2 /\ prepare_calls r.2 = S (prepare_calls c).
Proof.
  cbv zeta. rewrite prepare_and_process_eq.
  set (cp := set_trace (trace c ++ [EvPrepare]) c).
  assert (engine_step c cp /\ prepare_calls cp = S (prepare_calls c)
          /\ process_calls cp = process_calls c) as (Hcp & Hpp & Hqp).
  { subst cp. step_solver. }
  pose proof (call_and_wait_user_step lib prepare cp) as [Hp Hp1 Hp2].
  destruct (call_and_wait lib prepare cp) as [[[]|e] c2]; simpl in *.
  - destruct (_finished c2) eqn:Hf; simpl.
    + split; [by transitivity cp | congruence].
    + set (cq := set_trace (trace c2 ++ [EvProcess]) c2).
      assert (engine_step c2 cq /\ prepare_calls cq = prepare_calls c2)
        as (Hcq & Hpq).
      { subst cq. step_solver. }
      pose proof (call_and_wait_user_step lib process cq) as [Hq Hq1 Hq2].
      split.
      * transitivity cp; [done|]. transitivity c2; [done|].
        by transitivity cq.
      * congruence.
  - split; [by transitivity cp | congruence].
Qed.

Lemma finished_after_write h m c :
  _finished (after_write h m c) = _finished c.
Proof. unfold after_write. by destruct (headers_are_shared m). Qed.

(** Every exception finds its clause.  The clause returns the outcome of
    the table, unless it is the clause of a processing error and the
    republish raises: the clause then raises what the publish raised. *)
Lemma on_exception_spec e c m :
  _message c = Some m ->
  is_Some (_measurement c) ->
  exists c',
    on_exception e c = (handled m e, c') /\
    quiet_step c c' /\ _finished c' = _finished c /\
    trace c `prefix_of` trace c'.
Proof.
  intros Hm [ms Hms].
  assert (forall k v, measurement_set_tag k v c =
            (Ok tt, set_measurement (Some (set_tag k v ms)) c)) as Htag.
  { intros k v. unfold measurement_set_tag, bind, gets, attr, modify.
    rewrite Hms. reflexivity. }
  assert (forall metric ms', exists ms'',
            tag_metric metric (set_measurement (Some ms') c) =
            (Ok tt, set_measurement (Some ms'') c)) as Hmetric.
  { intros metric ms'. unfold tag_metric.
    destruct (truthy_str metric); eexists; reflexivity. }
  destruct e as [cls|cls metric|cls metric|cls metric|cls metric| | | | | |cls];
    unfold handled; simpl; unfold bind; rewrite Htag;
    try (destruct (Hmetric metric (set_tag "exception" cls ms)) as [ms'' ->]);
    try (eexists; split; [reflexivity|]; step_solver; fail).
  destruct (republish_processing_error_eq
              (default "" (or_str metric (Some cls)))
              (set_measurement (Some ms'') c) m Hm)
    as (h1 & h2 & _ & _ & _ & ->).
  unfold after_write.
  destruct (msg_basic_publish m), (headers_are_shared m);
    (eexists; split; [reflexivity|]; step_solver).
Qed.

Lemma finish_if_needed_spec c :
  exists c',
    finish_if_needed c = (Ok tt, c') /\
    _finished c' = true /\ engine_step c c' /\
    prepare_calls c' = prepare_calls c /\
    process_calls c' = process_calls c.
Proof.
  unfold finish_if_needed, finish, bind, gets, on_finish, emit, modify, ret.
  destruct (_finished c) eqn:Hf; simpl; rewrite ?Hf; simpl.
  - exists c. repeat split; auto.
  - eexists. split; [reflexivity|]. step_solver. rewrite Hf. simpl. lia.
Qed.

(** The [try] statement: what [prepare] and [process] raise is answered
    by the [except] clauses, and [on_finish] is called exactly once between
    its start and its end, also when a clause raises. *)
Lemma execute_guarded_spec lib prepare process c m :
  _message c = Some m ->
  is_Some (_measurement c) ->
  _finished c = false ->
  exists c',
    execute_guarded lib prepare process c =
      (match (prepare_and_process lib prepare process c).1 with
       | Ok _ => Ok MESSAGE_ACK
       | Raise e => handled m e
       end, c') /\
    _finished c' = true /\
    on_finish_calls c' = S (on_finish_calls c) /\
    prepare_calls c' = S (prepare_calls c) /\
    process_calls c' =
      process_calls (prepare_and_process lib prepare process c).2 /\
    trace (prepare_and_process lib prepare process c).2 `prefix_of` trace c'.
Proof.
  intros Hm Hms Hf.
  destruct (prepare_and_process_engine_step lib prepare process c)
    as [[Hm1 Hms1 Hf1 Ht1] Hp1].
  unfold execute_guarded, try_except_finally.
  destruct (prepare_and_process lib prepare process c) as [[[]|e] c1];
    simpl in *.
  - destruct (finish_if_needed_spec c1)
      as (c2 & Hfin & Hf2 & [_ _ Hb2 Ht2] & Hp2 & Hq2).
    unfold bind at 1. rewrite Hfin.
    eexists. split; [reflexivity|]. simpl.
    rewrite Hf, Hf2 in *. simpl in *.
    unfold on_finish_calls, prepare_calls, process_calls in *. simpl.
    repeat split; auto; lia.
  - destruct (on_exception_spec e c1 m)
      as (c2 & -> & [Ho2 Hq2 Hr2] & Hf2 & Ht2).
    { congruence. }
    { auto. }
    destruct (finish_if_needed_spec c2)
      as (c3 & -> & Hf3 & [_ _ Hb3 Ht3] & Hp3 & Hq3).
    exists c3. split; [by destruct (handled m e)|].
    rewrite Hf, Hf2, Hf3 in *. simpl in *.
    unfold on_finish_calls, prepare_calls, process_calls in *.
    repeat split; auto; try lia. by transitivity (trace c2).
Qed.

(** ** [execute] as a whole *)

Lemma execute_eq lib message_in measurement prepare process c :
  execute lib message_in measurement prepare process c =
    match execute_filters lib message_in measurement c with
    | (Ok (Some o), c1) => (Ok o, c1)
    | (Ok None, c1) => execute_guarded lib prepare process c1
    | (Raise e, c1) => (Raise e, c1)
    end.
Proof.
  unfold execute, execute_filters, execute_guarded, bind.
  destruct (execute_begin lib message_in measurement c) as [[[]|e] c0]; [|done].
  destruct (type_filter lib c0) as [[[o|]|e] c1]; try done.
  by destruct (poison_filter lib c1) as [[[o|]|e] c2].
Qed.

(** A check that lets the message through changes nothing. *)
Lemma type_filter_none lib c c' :
  type_filter lib c = (Ok None, c') -> c' = c.
Proof.
  unfold type_filter, bind, gets, ret.
  repeat case_match; intros; simplify_eq; auto.
Qed.

Lemma poison_filter_none lib c c' :
  poison_filter lib c = (Ok None, c') -> c' = c.
Proof.
  unfold poison_filter, bind, gets, ret, raise, lift.
  repeat case_match; intros; simplify_eq; auto.
Qed.

Lemma execute_filters_quiet lib message_in measurement :
  respects quiet_step (execute_filters lib message_in measurement).
Proof.
  unfold execute_filters, execute_begin, _clear, measurement_add_duration,
    type_filter, poison_filter, _republish_dropped_message, write_headers,
    channel_basic_publish, emit.
  respects_steps step_solver.
Qed.

(** [execute_begin] returns exactly when the connection of the message is
    one the consumer knows; the message and its measurement are then
    installed, the message is not finished, and the configuration and the
    trace are as before. *)
Lemma execute_begin_spec lib message_in measurement c :
  match _connections c !! msg_connection message_in with
  | Some _ =>
      exists c0,
        execute_begin lib message_in measurement c = (Ok tt, c0) /\
        _message c0 = Some message_in /\
        is_Some (_measurement c0) /\
        _finished c0 = false /\
        trace c0 = trace c /\
        _message_type c0 = _message_type c /\
        _drop_invalid c0 = _drop_invalid c /\
        _drop_exchange c0 = _drop_exchange c /\
        _error_max_retry c0 = _error_max_retry c
  | None =>
      (execute_begin lib message_in measurement c).1 = Raise KeyError
  end.
Proof.
  unfold execute_begin, _clear, measurement_add_duration, bind, modify, gets,
    attr, ret, raise.
  simpl.
  destruct (prop_timestamp (msg_properties message_in)) as [ts|]; simpl;
    [destruct (negb (ts =? 0)); simpl;
       [destruct (0 <? Z.max ts (time_time lib) - ts); simpl|]|];
    destruct (_connections c !! msg_connection message_in); simpl;
    try reflexivity;
    (eexists; split; [reflexivity|]; simpl; eauto 10).
Qed.

Lemma execute_filters_ready lib message_in measurement c c1 :
  execute_filters lib message_in measurement c = (Ok None, c1) ->
  _message c1 = Some message_in /\
  is_Some (_measurement c1) /\
  _finished c1 = false.
Proof.
  unfold execute_filters. unfold bind at 1.
  pose proof (execute_begin_spec lib message_in measurement c) as Hb.
  destruct (_connections c !! msg_connection message_in) as [k|].
  - destruct Hb as (c0 & -> & Hm & Hms & Hf & _).
    unfold bind.
    destruct (type_filter lib c0) as [[[o|]|e] c2] eqn:Ht; try discriminate.
    apply type_filter_none in Ht as ->.
    intros Hp. apply poison_filter_none in Hp as ->. done.
  - destruct (execute_begin lib message_in measurement c) as [[[]|e] c0];
      simpl in Hb; discriminate.
Qed.

Lemma taxonomy_not_drop e : taxonomy e <> MESSAGE_DROP.
Proof. by destruct e. Qed.

(** The message-type check lets a message through when no type is
    configured or when the type of the message is a supported one. *)
Lemma type_filter_pass lib c :
  (message_type_configured (_message_type c) = true ->
   message_supported (_message_type c) (message_type c) = true) ->
  type_filter lib c = (Ok None, c).
Proof.
  intros H. unfold type_filter, bind, gets.
  destruct (message_type_configured (_message_type c)); [|done].
  by rewrite H.
Qed.

(** The retry check on an integer counter: the message is dropped when the
    counter has reached the threshold, a copy being sent first when there
    is a drop exchange, and passes when it has not. *)
Lemma poison_filter_drop lib c m n z :
  _message c = Some m ->
  _error_max_retry c = Some n ->
  n <> 0 ->
  republish_headers m !! _PROCESSING_EXCEPTIONS = Some (VInt z) ->
  n <= z ->
  let reason := "max retries (" ++ format_value lib (VInt z) ++ ")" in
  let written := after_write (dropped_headers lib (name c) m reason) m c in
  poison_filter lib c =
    if truthy_str (_drop_exchange c) then
      match msg_basic_publish m with
      | Ok _ =>
          (Ok (Some MESSAGE_DROP),
           set_trace
             (trace c ++ [dropped_copy lib (name c) (_drop_exchange c) m reason])
             written)
      | Raise e => (Raise e, written)
      end
    else (Ok (Some MESSAGE_DROP), c).
Proof.
  intros Hm Hn Hn0 Hz Hle. cbv zeta.
  assert ((n =? 0) = false) as Hz0 by (apply Z.eqb_neq; exact Hn0).
  assert ((n <=? z) = true) as Hb by (apply Z.leb_le; exact Hle).
  unfold republish_headers in Hz.
  unfold poison_filter, bind, gets, lift, headers, message_property.
  rewrite Hn, Hz0, Hm, Hz. simpl. rewrite Hb.
  destruct (truthy_str (_drop_exchange c)); [|done].
  rewrite (republish_dropped_message_eq lib _ c m Hm). cbv zeta.
  by destruct (msg_basic_publish m).
Qed.

Lemma poison_filter_below lib c m n z :
  _message c = Some m ->
  _error_max_retry c = Some n ->
  n <> 0 ->
  republish_headers m !! _PROCESSING_EXCEPTIONS = Some (VInt z) ->
  z < n ->
  poison_filter lib c = (Ok None, c).
Proof.
  intros Hm Hn Hn0 Hz Hlt.
  assert ((n =? 0) = false) as Hz0 by (apply Z.eqb_neq; exact Hn0).
  assert ((n <=? z) = false) as Hb by (apply Z.leb_gt; exact Hlt).
  unfold republish_headers in Hz.
  unfold poison_filter, bind, gets, lift, headers, message_property.
  rewrite Hn, Hz0, Hm, Hz. simpl. by rewrite Hb.
Qed.

Lemma handled_not_drop m e : handled m e <> Ok MESSAGE_DROP.
Proof.
  unfold handled.
  destruct (is_processing_exception e), (msg_basic_publish m);
    try discriminate; intros [= H]; by apply taxonomy_not_drop in H.
Qed.

(** C1, as stated, fails on the two paths that return before the [try]: a
    message of an unsupported type (rejected, or dropped when invalid
    messages are dropped) and a message that has reached the retry
    threshold get their outcome without [finish] being called. *)
Lemma early_returns_skip_finish :
  let rejected :=
    execute Sample.lib (Sample.typed_message "invoice") Sample.no_measurement
      (Plain []) (Plain []) (Sample.typed_consumer false) in
  let dropped :=
    execute Sample.lib (Sample.typed_message "invoice") Sample.no_measurement
      (Plain []) (Plain []) (Sample.typed_consumer true) in
  let poisoned :=
    execute Sample.lib (Sample.counted_message (VInt 3)) Sample.no_measurement
      (Plain []) (Plain []) (Sample.retry_consumer 3) in
  (rejected.1 = Ok MESSAGE_EXCEPTION /\ on_finish_calls rejected.2 = 0%nat) /\
  (dropped.1 = Ok MESSAGE_DROP /\ on_finish_calls dropped.2 = 0%nat) /\
  (poisoned.1 = Ok MESSAGE_DROP /\ on_finish_calls poisoned.2 = 0%nat).
Proof. vm_compute. repeat split. Qed.

(** C1 (as amended): an execution that goes on to [prepare] calls the
    finish hook exactly once and returns exactly one outcome, whether it
    completes normally or through a caught exception; the one exception is
    a processing error whose republish raises: the finish hook is still
    called once, but what the publish raised leaves [execute] and no
    outcome is returned.  An execution that stops at the message-type check
    or at the retry check returns exactly one outcome and does not call the
    finish hook; one that raises there (an unknown connection, a counter
    that cannot be compared, a drop republish that raises) returns no
    outcome and does not call the finish hook either. *)
Theorem execute_outcome_and_finish lib message_in measurement prepare process c :
  match execute_filters lib message_in measurement c with
  | (Ok None, c1) =>
      exists c',
        execute lib message_in measurement prepare process c =
          (match (prepare_and_process lib prepare process c1).1 with
           | Ok _ => Ok MESSAGE_ACK
           | Raise e => handled message_in e
           end, c') /\
        on_finish_calls c' = S (on_finish_calls c)
  | (Ok (Some o), c1) =>
      execute lib message_in measurement prepare process c = (Ok o, c1) /\
      on_finish_calls c1 = on_finish_calls c
  | (Raise e, c1) =>
      execute lib message_in measurement prepare process c = (Raise e, c1) /\
      on_finish_calls c1 = on_finish_calls c
  end.
Proof.
  rewrite execute_eq.
  pose proof (execute_filters_quiet lib message_in measurement c) as [Hq _ _].
  destruct (execute_filters lib message_in measurement c)
    as [[[o|]|e] c1] eqn:Hf; simpl in *; [done | | done].
  destruct (execute_filters_ready _ _ _ _ _ Hf) as (Hm & Hms & Hfin).
  destruct (execute_guarded_spec lib prepare process c1 message_in Hm Hms Hfin)
    as (c' & -> & _ & Hn & _).
  exists c'. split; [reflexivity|]. congruence.
Qed.




(** What the checks before the [try] answer for a message that passes the
    message-type check and carries an integer retry counter. *)
Lemma execute_filters_int lib message_in measurement c n z :
  is_Some (_connections c !! msg_connection message_in) ->
  (message_type_configured (_message_type c) = true ->
   message_supported (_message_type c)
     (prop_type (msg_properties message_in)) = true) ->
  _error_max_retry c = Some n ->
  n <> 0 ->
  republish_headers message_in !! _PROCESSING_EXCEPTIONS = Some (VInt z) ->
  exists c1,
    execute_filters lib message_in measurement c =
      (if n <=? z
       then match drop_answer c message_in with
            | Ok o => Ok (Some o)
            | Raise e => Raise e
            end
       else Ok None, c1).
Proof.
  intros [k Hk] Htype Hn Hn0 Hz.
  pose proof (execute_begin_spec lib message_in measurement c) as Hb.
  rewrite Hk in Hb.
  destruct Hb as (c0 & Hbegin & Hm & _ & _ & _ & Hmt & _ & Hdx & Hmax).
  unfold execute_filters. unfold bind at 1. rewrite Hbegin.
  unfold bind at 1. rewrite type_filter_pass.
  - rewrite <- Hmax in Hn. unfold drop_answer. rewrite <- Hdx.
    destruct (n <=? z) eqn:Hle.
    + apply Z.leb_le in Hle.
      rewrite (poison_filter_drop lib c0 message_in n z Hm Hn Hn0 Hz Hle).
      cbv zeta.
      destruct (truthy_str (_drop_exchange c0)); [|by eexists].
      destruct (msg_basic_publish message_in); by eexists.
    + apply Z.leb_gt in Hle.
      rewrite (poison_filter_below lib c0 message_in n z Hm Hn Hn0 Hz Hle).
      by eexists.
  - rewrite Hmt. unfold message_type, message_property. rewrite Hm.
    exact Htype.
Qed.

(** C5, as the specification words it, fails: a message whose counter
    has reached the threshold is not given the outcome [MESSAGE_DROP] when
    a drop exchange is configured and the publish of the copy raises (the
    channel of the message is closed): the republish comes before the
    [return] and outside the [try], so [execute] raises. *)
Lemma poison_drop_republish_can_raise :
  let r :=
    execute Sample.lib
      (Sample.on_closed_channel (Sample.counted_message (VInt 3)))
      Sample.no_measurement (Plain []) (Plain [])
      (Sample.consumer_of false MTNone false (Some "dropped") (Some 3)) in
  r.1 = Raise (OtherException "ChannelClosed") /\
  process_calls r.2 = 0%nat.
Proof. vm_compute. repeat split. Qed.

(** C5 (as amended): with a retry threshold configured (an integer that
    is not zero), a message that passes the message-type check and whose
    retry counter has reached the threshold never reaches [prepare] or
    [process]; it gets [MESSAGE_DROP], unless a drop exchange is configured
    and the publish of the copy raises, in which case [execute] raises what
    the publish raised.  A message whose counter is below the threshold,
    one less for instance, is not dropped by this check: the execution goes
    on to [prepare] and its result is not [MESSAGE_DROP]. *)
Theorem poison_message_boundary lib message_in measurement prepare process
    c n z :
  is_Some (_connections c !! msg_connection message_in) ->
  (message_type_configured (_message_type c) = true ->
   message_supported (_message_type c)
     (prop_type (msg_properties message_in)) = true) ->
  _error_max_retry c = Some n ->
  n <> 0 ->
  republish_headers message_in !! _PROCESSING_EXCEPTIONS = Some (VInt z) ->
  (n <= z ->
   exists c',
     execute lib message_in measurement prepare process c =
       (drop_answer c message_in, c') /\
     prepare_calls c' = prepare_calls c /\
     process_calls c' = process_calls c) /\
  (z < n ->
   exists c1 r c',
     execute_filters lib message_in measurement c = (Ok None, c1) /\
     execute lib message_in measurement prepare process c = (r, c') /\
     r <> Ok MESSAGE_DROP /\
     prepare_calls c' = S (prepare_calls c)).
Proof.
  intros Hk Htype Hn Hn0 Hz.
  destruct (execute_filters_int lib message_in measurement c n z
              Hk Htype Hn Hn0 Hz) as (c1 & Hf).
  pose proof (execute_filters_quiet lib message_in measurement c) as [_ Hp Hq].
  rewrite Hf in Hp, Hq. simpl in Hp, Hq.
  split; intros Hle.
  - assert ((n <=? z) = true) as Hb by by apply Z.leb_le.
    rewrite Hb in Hf. exists c1. rewrite execute_eq, Hf.
    split; [by destruct (drop_answer c message_in) | done].
  - assert ((n <=? z) = false) as Hb by (apply Z.leb_gt; lia).
    rewrite Hb in Hf.
    destruct (execute_filters_ready _ _ _ _ _ Hf) as (Hm & Hms & Hfin).
    destruct (execute_guarded_spec lib prepare process c1 message_in
                Hm Hms Hfin) as (c' & Hg & _ & _ & Hp' & _).
    exists c1. eexists _, c'. rewrite execute_eq, Hf.
    split; [done|]. split; [exact Hg|]. split.
    + destruct (prepare_and_process lib prepare process c1).1;
        [discriminate | apply handled_not_drop].
    + congruence.
Qed.

Lemma poison_message_boundary_witness :
  (exists c',
     execute Sample.lib (Sample.counted_message (VInt 3))
       Sample.no_measurement (Plain []) (Plain []) (Sample.retry_consumer 3) =
       (Ok MESSAGE_DROP, c') /\
     process_calls c' = process_calls (Sample.retry_consumer 3)) /\
  (exists r c',
     execute Sample.lib (Sample.counted_message (VInt 2))
       Sample.no_measurement (Plain []) (Plain []) (Sample.retry_consumer 3) =
       (r, c') /\
     r <> Ok MESSAGE_DROP).
Proof.
  split.
  - destruct (poison_message_boundary Sample.lib
                (Sample.counted_message (VInt 3)) Sample.no_measurement
                (Plain []) (Plain []) (Sample.retry_consumer 3) 3 3)
      as [H _].
    + vm_compute. eauto.
    + intros H. vm_compute in H. discriminate H.
    + reflexivity.
    + lia.
    + reflexivity.
    + destruct H as (c' & Heq & _ & Hq); [lia|]. exists c'. by split.
  - destruct (poison_message_boundary Sample.lib
                (Sample.counted_message (VInt 2)) Sample.no_measurement
                (Plain []) (Plain []) (Sample.retry_consumer 3) 3 2)
      as [_ H].
    + vm_compute. eauto.
    + intros H. vm_compute in H. discriminate H.
    + reflexivity.
    + lia.
    + reflexivity.
    + destruct H as (c1 & r & c' & _ & Heq & Ho & _); [lia|].
      exists r, c'. by split.
Defined.



(** * More of the code *)

(** ** [rejected.common.State] *)

Lemma State_known_states n : is_Some (State._STATES !! n) <-> 1 <= n <= 8.
Proof.
  split.
  - intros [d Hd]. unfold State._STATES in Hd.
    apply elem_of_list_to_map_2 in Hd.
    repeat (apply elem_of_cons in Hd as [[= -> _]|Hd]; [lia|]).
    by apply elem_of_nil in Hd.
  - intros H.
    assert (n = 1 \/ n = 2 \/ n = 3 \/ n = 4 \/ n = 5 \/ n = 6 \/ n = 7 \/ n = 8)
      as Hn by lia.
    repeat (destruct Hn as [->|Hn]; [by eexists|]). subst. by eexists.
Qed.

(** [set_state] takes the eight states and nothing else: a value from 1 to
    8 becomes the state, and the time of the change is recorded; any other
    value raises a [ValueError] whose message ends with the value, and
    leaves state and time as they were. *)
Theorem set_state_accepts_the_eight_states new_state now s :
  (1 <= new_state <= 8 ->
   State.set_state new_state now s =
     (Ok tt, {| State._state := new_state; State._state_start := now |})) /\
  (~ (1 <= new_state <= 8) ->
   State.set_state new_state now s =
     (Raise (ValueError ("Invalid state value: " ++ pretty new_state)), s)).
Proof.
  unfold State.set_state. split; intros H.
  - apply State_known_states in H as [d ->]. reflexivity.
  - destruct (State._STATES !! new_state) eqn:Hd; [|done].
    exfalso. apply H, State_known_states. eauto.
Qed.

Lemma set_state_accepts_the_eight_states_witness :
  State.set_state State.STATE_ACTIVE 20 (State.init 10) =
    (Ok tt, {| State._state := 4; State._state_start := 20 |}) /\
  State.set_state 9 20 (State.init 10) =
    (Raise (ValueError "Invalid state value: 9"), State.init 10).
Proof.
  split.
  - apply (set_state_accepts_the_eight_states State.STATE_ACTIVE 20
             (State.init 10)). unfold State.STATE_ACTIVE. lia.
  - apply (set_state_accepts_the_eight_states 9 20 (State.init 10)). lia.
Defined.

(** Whatever [set_state] is asked, accepted or refused, the object stays
    in one of the eight states: [state_description] never fails on an
    object that was created by [__init__]. *)
Theorem state_description_is_always_defined calls now :
  exists d,
    State.state_description (State.set_states calls (State.init now)) = Ok d.
Proof.
  assert (forall s, is_Some (State._STATES !! State._state s) ->
            is_Some (State._STATES !! State._state (State.set_states calls s)))
    as Hinv.
  { induction calls as [|[n t] calls IH]; intros s Hs; simpl; [done|].
    apply IH. unfold State.set_state.
    destruct (State._STATES !! n) eqn:Hn; simpl; [eauto | done]. }
  destruct (Hinv (State.init now)) as [d Hd].
  - by eexists.
  - exists d. unfold State.state_description. by rewrite Hd.
Qed.

(** The object is running exactly in the idle, active and sleeping states;
    a running object is neither connecting, nor asked to stop, nor shutting
    down, nor stopped, and an idle or a sleeping object is running. *)
Theorem running_states s :
  (State.is_running s = true <->
   State._state s = State.STATE_IDLE \/ State._state s = State.STATE_ACTIVE
   \/ State._state s = State.STATE_SLEEPING) /\
  (State.is_running s = true ->
   State.is_connecting s = false /\ State.is_waiting_to_shutdown s = false /\
   State.is_shutting_down s = false /\ State.is_stopped s = false) /\
  (State.is_idle s = true \/ State.is_sleeping s = true ->
   State.is_running s = true).
Proof.
  assert (State.is_running s = true <->
          State._state s = State.STATE_IDLE \/
          State._state s = State.STATE_ACTIVE \/
          State._state s = State.STATE_SLEEPING) as Hrun.
  { unfold State.is_running. rewrite bool_decide_eq_true.
    rewrite !elem_of_cons, elem_of_nil. tauto. }
  split; [exact Hrun|]. split.
  - intros H. apply Hrun in H.
    unfold State.is_connecting, State.is_waiting_to_shutdown,
      State.is_shutting_down, State.is_stopped,
      State.STATE_IDLE, State.STATE_ACTIVE, State.STATE_SLEEPING,
      State.STATE_CONNECTING, State.STATE_STOP_REQUESTED,
      State.STATE_SHUTTING_DOWN, State.STATE_STOPPED in *.
    repeat split; apply Z.eqb_neq; lia.
  - intros H. apply Hrun.
    unfold State.is_idle, State.is_sleeping in H.
    destruct H as [H|H]; apply Z.eqb_eq in H; auto.
Qed.

Lemma running_states_witness :
  State.is_stopped (State.set_state State.STATE_SLEEPING 5 (State.init 0)).2
    = false.
Proof.
  apply (running_states
           (State.set_state State.STATE_SLEEPING 5 (State.init 0)).2).
  reflexivity.
Defined.

(** ** Small methods of [Consumer] *)

(** [finish] is idempotent: the second of two calls in a row changes
    nothing, so [on_finish] runs once; and after [finish] the message is
    finished. *)
Theorem finish_twice_is_finish_once c :
  (finish ;; finish) c = finish c /\
  _finished (finish c).2 = true /\
  on_finish_calls (finish c).2 =
    (on_finish_calls c + if _finished c then 0 else 1)%nat.
Proof.
  unfold finish, bind, gets, modify, on_finish, emit, modify, ret,
    on_finish_calls.
  destruct (_finished c) eqn:Hf; simpl; rewrite ?Hf; simpl.
  - repeat split; try done; lia.
  - repeat split; try done. rewrite count_app. simpl. lia.
Qed.

(** [_get_pika_properties] keeps exactly the entries whose value is not
    [None], with their values: a key whose value is [None] is not set on
    the result, and no other key is lost or changed. *)
Theorem get_pika_properties_drops_none d :
  (forall k,
     _get_pika_properties d !! k =
       match d !! k with
       | Some VNone => None
       | o => o
       end) /\
  (forall k v, _get_pika_properties d !! k = Some v -> v <> VNone) /\
  _get_pika_properties d ⊆ d.
Proof.
  assert (forall k,
            _get_pika_properties d !! k =
              match d !! k with Some VNone => None | o => o end) as Hl.
  { intros k. unfold _get_pika_properties. rewrite map_lookup_filter.
    destruct (d !! k) as [v|]; simpl; [|done].
    by destruct v. }
  split; [exact Hl|]. split.
  - intros k v. rewrite Hl.
    destruct (d !! k) as [w|]; [|done].
    destruct w; intros; simplify_eq; done.
  - unfold _get_pika_properties. apply map_filter_subseteq.
Qed.

(** [remove_connection] undoes [set_connection] of a name that was not
    known, and raises a [KeyError], changing nothing, when the name is not
    known. *)
Theorem remove_connection_undoes_set_connection nm k c :
  _connections c !! nm = None ->
  (set_connection nm k ;; remove_connection nm) c = (Ok tt, c) /\
  remove_connection nm c = (Raise KeyError, c).
Proof.
  intros Hnm.
  unfold set_connection, remove_connection, bind, gets, modify, raise.
  simpl. rewrite lookup_insert_eq, Hnm. simpl. split; [|done].
  rewrite delete_insert_eq, delete_id by done.
  by destruct c.
Qed.

Lemma remove_connection_undoes_set_connection_witness :
  let c := Sample.consumer_of false MTNone false None None in
  (set_connection "conn2" Sample.open_connection ;; remove_connection "conn2") c
    = (Ok tt, c).
Proof.
  intros c.
  apply (remove_connection_undoes_set_connection "conn2"
           Sample.open_connection c).
  reflexivity.
Defined.

(** ** Construction *)



(** A retry threshold that is [None] or [0] switches the retry check off:
    no message is dropped by it, whatever its counter holds. *)
Theorem zero_threshold_disables_the_retry_check lib c :
  truthy_int (_error_max_retry c) = false ->
  poison_filter lib c = (Ok None, c).
Proof.
  intros H. unfold poison_filter, bind, gets.
  destruct (_error_max_retry c) as [n|]; [|done].
  simpl in H. apply negb_false_iff in H. by rewrite H.
Qed.

Lemma zero_threshold_disables_the_retry_check_witness :
  let c := set_message (Some (Sample.counted_message (VInt 99)))
             (Sample.retry_consumer 0) in
  poison_filter Sample.lib c = (Ok None, c).
Proof.
  intros c. apply (zero_threshold_disables_the_retry_check Sample.lib c).
  reflexivity.
Defined.

(** ** The start of [execute] and its two checks *)

(** [execute_begin], written out, for a message whose connection is
    known. *)
Lemma execute_begin_eq lib message_in measurement c k :
  _connections c !! msg_connection message_in = Some k ->
  let p := msg_properties message_in in
  let aged :=
    match prop_timestamp p with
    | Some ts =>
        if negb (ts =? 0) && (0 <? Z.max ts (time_time lib) - ts)
        then add_duration MESSAGE_AGE_KEY (Z.max ts (time_time lib) - ts)
               measurement
        else measurement
    | None => measurement
    end in
  let cid :=
    or_str (or_str (prop_correlation_id p) (prop_message_id p))
           (Some (uuid4 lib)) in
  execute_begin lib message_in measurement c =
    (Ok tt,
     set_connections
       (<[msg_connection message_in := with_correlation_id cid k]>
          (_connections c))
       (set_correlation_id cid
          (set_measurement (Some aged)
             (set_message (Some message_in)
                (set_message_body VNone
                   (set_message None (set_finished false c))))))).
Proof.
  intros Hk. cbv zeta.
  unfold execute_begin, _clear, measurement_add_duration, bind, modify, gets,
    attr, ret, raise.
  simpl.
  destruct (prop_timestamp (msg_properties message_in)) as [ts|]; simpl;
    [destruct (negb (ts =? 0)); simpl;
       [destruct (0 <? Z.max ts (time_time lib) - ts); simpl|]|];
    by rewrite Hk.
Qed.

(** The correlation id of an execution is the [correlation_id] of the
    message when it has one, else its [message_id] when it has one, else a
    new identifier; it is stored on the consumer and on the connection the
    message came from. *)
Theorem correlation_id_is_resolved lib message_in measurement c k :
  _connections c !! msg_connection message_in = Some k ->
  let p := msg_properties message_in in
  let c0 := (execute_begin lib message_in measurement c).2 in
  (truthy_str (prop_correlation_id p) = true ->
   _correlation_id c0 = prop_correlation_id p) /\
  (truthy_str (prop_correlation_id p) = false ->
   truthy_str (prop_message_id p) = true ->
   _correlation_id c0 = prop_message_id p) /\
  (truthy_str (prop_correlation_id p) = false ->
   truthy_str (prop_message_id p) = false ->
   _correlation_id c0 = Some (uuid4 lib)) /\
  (conn_correlation_id <$> _connections c0 !! msg_connection message_in)
    = Some (_correlation_id c0).
Proof.
  intros Hk p c0. subst c0.
  rewrite (execute_begin_eq lib message_in measurement c k Hk). simpl.
  rewrite lookup_insert_eq. simpl. fold p. unfold or_str.
  repeat split.
  - intros H. rewrite H. simpl. by rewrite H.
  - intros H1 H2. rewrite H1. simpl. by rewrite H2.
  - intros H1 H2. rewrite H1. simpl. by rewrite H2.
Qed.

Lemma correlation_id_is_resolved_witness :
  _correlation_id
    (execute_begin Sample.lib Sample.request_message Sample.no_measurement
       (Sample.consumer_of false MTNone false None None)).2 = Some "msg-1".
Proof.
  apply (correlation_id_is_resolved Sample.lib Sample.request_message
           Sample.no_measurement
           (Sample.consumer_of false MTNone false None None)
           Sample.open_connection); reflexivity.
Defined.



(** A message that arrives on a connection the consumer does not know
    makes [execute] raise a [KeyError]: no outcome is returned, no user
    code runs and nothing is published. *)
Theorem unknown_connection_raises lib message_in measurement prepare process c :
  _connections c !! msg_connection message_in = None ->
  exists c',
    execute lib message_in measurement prepare process c =
      (Raise KeyError, c') /\
    trace c' = trace c.
Proof.
  intros Hk. rewrite execute_eq. unfold execute_filters. unfold bind at 1.
  pose proof (execute_begin_spec lib message_in measurement c) as Hb.
  rewrite Hk in Hb.
  assert (trace (execute_begin lib message_in measurement c).2 = trace c)
    as Ht.
  { unfold execute_begin, _clear, measurement_add_duration, bind, modify,
      gets, attr, ret, raise. simpl.
    destruct (prop_timestamp (msg_properties message_in)) as [ts|]; simpl;
      [destruct (negb (ts =? 0)); simpl;
         [destruct (0 <? Z.max ts (time_time lib) - ts); simpl|]|];
      by rewrite Hk. }
  destruct (execute_begin lib message_in measurement c) as [[[]|e] c0];
    simpl in *; [done|].
  injection Hb as ->. by exists c0.
Qed.

Lemma unknown_connection_raises_witness :
  exists c',
    execute Sample.lib Sample.plain_message Sample.no_measurement
      (Plain []) (Plain [])
      (Consumer_init Sample.lib "OrderConsumer" false Consumer_attributes
         {| kw_drop_exchange := None; kw_drop_invalid_messages := None;
            kw_error_exchange := None; kw_error_max_retry := None;
            kw_message_type := MTNone |}) = (Raise KeyError, c').
Proof.
  destruct (unknown_connection_raises Sample.lib Sample.plain_message
              Sample.no_measurement (Plain []) (Plain [])
              (Consumer_init Sample.lib "OrderConsumer" false
                 Consumer_attributes
                 {| kw_drop_exchange := None; kw_drop_invalid_messages := None;
                    kw_error_exchange := None; kw_error_max_retry := None;
                    kw_message_type := MTNone |}) eq_refl) as (c' & H & _).
  by exists c'.
Defined.

Lemma type_filter_reject lib c m :
  _message c = Some m ->
  message_type_configured (_message_type c) = true ->
  message_supported (_message_type c) (prop_type (msg_properties m)) = false ->
  let written :=
    after_write (dropped_headers lib (name c) m "invalid type") m c in
  type_filter lib c =
    if _drop_invalid c then
      if truthy_str (_drop_exchange c) then
        match msg_basic_publish m with
        | Ok _ =>
            (Ok (Some MESSAGE_DROP),
             set_trace
               (trace c ++
                [dropped_copy lib (name c) (_drop_exchange c) m "invalid type"])
               written)
        | Raise e => (Raise e, written)
        end
      else (Ok (Some MESSAGE_DROP), c)
    else (Ok (Some MESSAGE_EXCEPTION), c).
Proof.
  intros Hm Hconf Hunsup. cbv zeta.
  unfold type_filter, bind, gets, message_type, message_property.
  rewrite Hconf, Hm, Hunsup.
  destruct (_drop_invalid c); simpl; [|done].
  destruct (truthy_str (_drop_exchange c)); [|done].
  rewrite (republish_dropped_message_eq lib _ c m Hm). cbv zeta.
  by destruct (msg_basic_publish m).
Qed.

(** A message whose type the consumer does not support never reaches user
    code.  It is rejected with [MESSAGE_EXCEPTION] when invalid messages
    are not dropped, and dropped with [MESSAGE_DROP] when they are; when it
    is dropped and a drop exchange is configured, one copy is published
    first, with the reason [invalid type], and if that publish raises,
    [execute] raises what it raised and nothing is published.  Nothing is
    published in the other cases. *)
Theorem unsupported_type_is_dropped_or_rejected lib message_in measurement
    prepare process c :
  is_Some (_connections c !! msg_connection message_in) ->
  message_type_configured (_message_type c) = true ->
  message_supported (_message_type c)
    (prop_type (msg_properties message_in)) = false ->
  exists c',
    execute lib message_in measurement prepare process c =
      (if _drop_invalid c then drop_answer c message_in
       else Ok MESSAGE_EXCEPTION, c') /\
    prepare_calls c' = prepare_calls c /\
    process_calls c' = process_calls c /\
    on_finish_calls c' = on_finish_calls c /\
    trace c' =
      (trace c ++
       if _drop_invalid c
       then drop_copies lib c message_in "invalid type"
       else [])%list.
Proof.
  intros [k Hk] Hconf Hunsup.
  rewrite execute_eq.
  unfold execute_filters. unfold bind at 1.
  rewrite (execute_begin_eq lib message_in measurement c k Hk). cbv zeta.
  unfold bind at 1.
  match goal with
  | |- context [type_filter lib ?c0] =>
      rewrite (type_filter_reject lib c0 message_in eq_refl Hconf Hunsup)
  end.
  cbv zeta. unfold drop_answer, drop_copies, after_write. simpl.
  unfold prepare_calls, process_calls, on_finish_calls.
  destruct (_drop_invalid c); simpl.
  - destruct (truthy_str (_drop_exchange c)); simpl.
    + destruct (msg_basic_publish message_in), (headers_are_shared message_in);
        simpl; (eexists; split; [reflexivity|]); simpl;
        rewrite ?count_app, ?app_nil_r; simpl; repeat split; lia.
    + eexists; split; [reflexivity|]. simpl.
      rewrite app_nil_r. by repeat split.
  - eexists; split; [reflexivity|]. simpl.
    rewrite app_nil_r. by repeat split.
Qed.

Lemma unsupported_type_is_dropped_or_rejected_witness :
  exists c',
    execute Sample.lib (Sample.typed_message "invoice") Sample.no_measurement
      (Plain []) (Plain []) (Sample.typed_consumer true) =
      (Ok MESSAGE_DROP, c') /\
    trace c' = [].
Proof.
  destruct (unsupported_type_is_dropped_or_rejected Sample.lib
              (Sample.typed_message "invoice") Sample.no_measurement
              (Plain []) (Plain []) (Sample.typed_consumer true))
    as (c' & Heq & _ & _ & _ & Ht).
  - vm_compute. eauto.
  - reflexivity.
  - reflexivity.
  - exists c'. split; [exact Heq | exact Ht].
Defined.

(** A message dropped for having reached the retry threshold is copied to
    the drop exchange exactly once when a drop exchange is configured and
    the publish returns, with the reason [max retries (n)] where [n] is its
    counter, its own headers (the counter among them), body and routing
    key; when the publish raises, [execute] raises what it raised and
    nothing is published; without a drop exchange the message is dropped
    and nothing is published. *)
Theorem poisoned_message_is_copied_once lib message_in measurement
    prepare process c n z :
  is_Some (_connections c !! msg_connection message_in) ->
  (message_type_configured (_message_type c) = true ->
   message_supported (_message_type c)
     (prop_type (msg_properties message_in)) = true) ->
  _error_max_retry c = Some n ->
  n <> 0 ->
  republish_headers message_in !! _PROCESSING_EXCEPTIONS = Some (VInt z) ->
  n <= z ->
  let reason := "max retries (" ++ format_value lib (VInt z) ++ ")" in
  exists c',
    execute lib message_in measurement prepare process c =
      (drop_answer c message_in, c') /\
    trace c' = (trace c ++ drop_copies lib c message_in reason)%list /\
    (drop_copies lib c message_in reason <> [] ->
     last_republished (trace c') ≫= (.!! _PROCESSING_EXCEPTIONS)
       = Some (VInt z) /\
     last_republished (trace c') ≫= (.!! "X-Dropped-Reason")
       = Some (VStr reason)).
Proof.
  intros [k Hk] Htype Hn Hn0 Hz Hle reason.
  rewrite execute_eq.
  unfold execute_filters. unfold bind at 1.
  rewrite (execute_begin_eq lib message_in measurement c k Hk). cbv zeta.
  unfold bind at 1.
  match goal with
  | |- context [type_filter lib ?c0] =>
      rewrite (type_filter_pass lib c0) by exact Htype;
      rewrite (poison_filter_drop lib c0 message_in n z eq_refl Hn Hn0 Hz Hle)
  end.
  cbv zeta. unfold drop_answer, drop_copies, after_write. simpl. fold reason.
  destruct (truthy_str (_drop_exchange c)); simpl.
  - destruct (msg_basic_publish message_in), (headers_are_shared message_in);
      simpl; (eexists; split; [reflexivity|]); simpl;
      rewrite ?app_nil_r; (split; [done|]); try (intros []; done);
      intros _; unfold dropped_copy, dropped_headers;
      rewrite last_republished_snoc; simpl;
      change "X-Processing-Exceptions" with _PROCESSING_EXCEPTIONS in *;
      (split; [rewrite !lookup_insert_ne by done; exact Hz
              | by simplify_map_eq]).
  - eexists; split; [reflexivity|]. simpl. rewrite app_nil_r.
    split; [done|]. intros []; done.
Qed.

Lemma poisoned_message_is_copied_once_witness :
  exists c',
    execute Sample.lib (Sample.counted_message (VInt 3))
      Sample.no_measurement (Plain []) (Plain [])
      (Sample.consumer_of false MTNone false (Some "dropped") (Some 3)) =
      (Ok MESSAGE_DROP, c') /\
    count is_publish (trace c') = 1%nat.
Proof.
  destruct (poisoned_message_is_copied_once Sample.lib
              (Sample.counted_message (VInt 3)) Sample.no_measurement
              (Plain []) (Plain [])
              (Sample.consumer_of false MTNone false (Some "dropped") (Some 3))
              3 3) as (c' & Heq & Ht & _).
  - vm_compute. eauto.
  - intros H. vm_compute in H. discriminate H.
  - reflexivity.
  - lia.
  - reflexivity.
  - lia.
  - exists c'. split; [exact Heq|]. rewrite Ht. reflexivity.
Defined.

Local Instance same_body_preorder : PreOrder same_body.
Proof.
  split.
  - intros c. reflexivity.
  - intros c1 c2 c3 H12 H23. unfold same_body in *. congruence.
Qed.

(** The decoded body of one message never serves for the next: whatever
    the consumer held when [execute] was called, the cache is empty when
    [prepare] starts, so the first read of [body] decodes the message being
    processed. *)
Theorem body_cache_is_reset lib message_in measurement c c1 :
  execute_filters lib message_in measurement c = (Ok None, c1) ->
  _message_body c1 = VNone /\
  SmartConsumer_body lib c1 =
    (let* v1 := _maybe_decompress_body lib in
     modify (set_message_body v1) ;;
     let* v2 := _maybe_deserialize_body lib in
     modify (set_message_body v2) ;;
     gets _message_body) c1.
Proof.
  intros Hf.
  assert (_message_body c1 = VNone) as Hbody.
  { revert Hf. unfold execute_filters. unfold bind at 1.
    pose proof (execute_begin_spec lib message_in measurement c) as Hb.
    destruct (_connections c !! msg_connection message_in) as [k|] eqn:Hk.
    - rewrite (execute_begin_eq lib message_in measurement c k Hk).
      cbv zeta.
      match goal with
      | |- context [bind (type_filter lib) _ ?c0] => set (c0' := c0)
      end.
      assert (_message_body c0' = VNone) as H0 by reflexivity.
      assert (respects same_body (type_filter lib)) as Ht.
      { unfold type_filter, _republish_dropped_message, write_headers,
          channel_basic_publish, emit.
        respects_steps ltac:(unfold same_body; reflexivity). }
      assert (respects same_body (poison_filter lib)) as Hp.
      { unfold poison_filter, _republish_dropped_message, write_headers,
          channel_basic_publish, emit.
        respects_steps ltac:(unfold same_body; reflexivity). }
      unfold bind. specialize (Ht c0').
      destruct (type_filter lib c0') as [[[o|]|e] c2]; try discriminate.
      specialize (Hp c2). intros Heq. rewrite Heq in Hp.
      unfold same_body in *. simpl in *. congruence.
    - destruct (execute_begin lib message_in measurement c) as [[[]|e] c0];
        simpl in Hb; discriminate. }
  split; [exact Hbody|].
  unfold SmartConsumer_body. unfold bind at 1. unfold gets at 1.
  by rewrite Hbody.
Qed.

Lemma body_cache_is_reset_witness :
  let stale :=
    set_message_body (VStr "left over")
      (Sample.consumer_of true MTNone false None None) in
  _message_body
    (execute_filters Sample.lib (Sample.json_message "[1]")
       Sample.no_measurement stale).2 = VNone.
Proof.
  intros stale.
  pose (c1 := (execute_filters Sample.lib (Sample.json_message "[1]")
                 Sample.no_measurement stale).2).
  assert (execute_filters Sample.lib (Sample.json_message "[1]")
            Sample.no_measurement stale = (Ok None, c1)) as Hf.
  { vm_compute. reflexivity. }
  apply (body_cache_is_reset Sample.lib (Sample.json_message "[1]")
           Sample.no_measurement stale c1 Hf).
Defined.

(** ** The end of an execution *)

Lemma type_filter_outcome lib c o c' :
  type_filter lib c = (Ok (Some o), c') ->
  o = MESSAGE_DROP \/ o = MESSAGE_EXCEPTION.
Proof.
  unfold type_filter, bind, gets, ret.
  repeat case_match; intros; simplify_eq; auto.
Qed.

Lemma poison_filter_outcome lib c o c' :
  poison_filter lib c = (Ok (Some o), c') -> o = MESSAGE_DROP.
Proof.
  unfold poison_filter, bind, gets, ret, raise, lift.
  repeat case_match; intros; simplify_eq; auto.
Qed.

Lemma execute_filters_outcome lib message_in measurement c o c1 :
  execute_filters lib message_in measurement c = (Ok (Some o), c1) ->
  o = MESSAGE_DROP \/ o = MESSAGE_EXCEPTION.
Proof.
  unfold execute_filters, bind.
  destruct (execute_begin lib message_in measurement c) as [[[]|e] c0];
    [|discriminate].
  destruct (type_filter lib c0) as [[[o'|]|e] c2] eqn:Ht; try discriminate.
  - intros [= <- <-]. by apply type_filter_outcome in Ht.
  - destruct (poison_filter lib c2) as [[[o'|]|e] c3] eqn:Hp;
      try discriminate.
    intros [= <- <-]. left. by apply poison_filter_outcome in Hp.
Qed.

Lemma taxonomy_not_ack e : taxonomy e <> MESSAGE_ACK.
Proof. by destruct e. Qed.

(** An execution that is acknowledged leaves no publish waiting for its
    confirmation, on any connection of the consumer: [MESSAGE_ACK] is
    returned only after every connection was cleared, [prepare] and
    [process] having raised nothing. *)
Theorem ack_leaves_no_pending_confirmation lib message_in measurement
    prepare process c c' :
  execute lib message_in measurement prepare process c = (Ok MESSAGE_ACK, c') ->
  (forall nm k, _connections c' !! nm = Some k -> conn_pending k = []) /\
  exists c1,
    execute_filters lib message_in measurement c = (Ok None, c1) /\
    (prepare_and_process lib prepare process c1).1 = Ok tt.
Proof.
  rewrite execute_eq.
  destruct (execute_filters lib message_in measurement c)
    as [[[o|]|e] c1] eqn:Hf; [| |discriminate].
  - intros [= -> <-]. apply execute_filters_outcome in Hf as [?|?]; done.
  - destruct (execute_filters_ready _ _ _ _ _ Hf) as (Hm & Hms & Hfin).
    pose proof (prepare_and_process_engine_step lib prepare process c1)
      as [[Hm1 Hms1 _ _] _].
    unfold execute_guarded, try_except_finally.
    destruct (prepare_and_process lib prepare process c1) as [[[]|e] c2]
      eqn:Hpap; simpl in *.
    + destruct (finish_if_needed_spec c2) as (c3 & Hfin3 & _).
      unfold bind at 1. rewrite Hfin3.
      unfold bind, clear_pending_futures, modify, ret. intros [= <-].
      split; [|exists c1; split; [done | by rewrite Hpap]].
      simpl. intros nm k Hk.
      rewrite lookup_fmap in Hk.
      destruct (_connections c3 !! nm); simplify_eq/=. reflexivity.
    + destruct (on_exception_spec e c2 message_in) as (c3 & -> & _).
      { congruence. }
      { auto. }
      destruct (finish_if_needed_spec c3) as (c4 & -> & _).
      unfold handled.
      destruct (is_processing_exception e), (msg_basic_publish message_in);
        intros [= H _]; by apply taxonomy_not_ack in H.
Qed.

Lemma ack_leaves_no_pending_confirmation_witness :
  let c := Sample.consumer_of false MTNone false None None in
  let r := execute Sample.lib Sample.plain_message Sample.no_measurement
             (Plain []) (Plain [CallFinish]) c in
  exists k, _connections r.2 !! "conn1" = Some k /\ conn_pending k = [].
Proof.
  intros c r.
  assert (r = (Ok MESSAGE_ACK, r.2)) as Hr by (vm_compute; reflexivity).
  pose proof (ack_leaves_no_pending_confirmation Sample.lib
                Sample.plain_message Sample.no_measurement (Plain [])
                (Plain [CallFinish]) c r.2 Hr) as [Hpending _].
  assert (is_Some (_connections r.2 !! "conn1")) as [k Hk]
    by (vm_compute; eauto).
  exists k. split; [exact Hk | exact (Hpending "conn1" k Hk)].
Defined.

(** When a processing error is handled, the measurement is tagged with
    the class of the exception under [exception] and, when there is a
    metric, with the metric under [error]; then the message is republished
    to the error exchange with the header [X-Processing-Exception] holding
    the exception's metric when it has one and the name of its class
    otherwise.  When the publish returns, one copy has been published and
    the clause answers [PROCESSING_EXCEPTION]; when it raises, nothing has
    been published and the clause raises what the publish raised, the
    measurement being tagged all the same. *)
Theorem processing_error_is_tagged_and_republished cls metric c m ms :
  _message c = Some m ->
  _measurement c = Some ms ->
  cls <> "" ->
  exists c' h ms',
    on_exception (ProcessingException cls metric) c =
      (match msg_basic_publish m with
       | Ok _ => Ok PROCESSING_EXCEPTION
       | Raise e => Raise e
       end, c') /\
    trace c' =
      (trace c ++
       match msg_basic_publish m with
       | Ok _ =>
           [EvRepublish (Some (_error_exchange c)) (msg_routing_key m)
              (msg_body m) (with_headers h (msg_properties m))]
       | Raise _ => []
       end)%list /\
    h !! "X-Processing-Exception" =
      Some (VStr (if truthy_str metric then default "" metric else cls)) /\
    _measurement c' = Some ms' /\
    tags ms' !! "exception" = Some cls /\
    (truthy_str metric = true -> tags ms' !! "error" = metric) /\
    (truthy_str metric = false -> tags ms' !! "error" = tags ms !! "error").
Proof.
  intros Hm Hms Hcls.
  assert (exists ms',
            (measurement_set_tag "exception" cls ;; tag_metric metric) c =
              (Ok tt, set_measurement (Some ms') c) /\
            tags ms' !! "exception" = Some cls /\
            (truthy_str metric = true -> tags ms' !! "error" = metric) /\
            (truthy_str metric = false ->
             tags ms' !! "error" = tags ms !! "error"))
    as (ms' & Htags & He & Hyes & Hno).
  { unfold measurement_set_tag, tag_metric, bind, gets, attr, modify, ret.
    rewrite Hms. simpl.
    destruct (truthy_str metric) eqn:Ht; simpl.
    - eexists. split; [reflexivity|]. simpl. repeat split.
      + by simplify_map_eq.
      + intros _. rewrite lookup_insert_eq.
        destruct metric; [done | discriminate].
      + intros [=].
    - eexists. split; [reflexivity|]. simpl. repeat split.
      + by simplify_map_eq.
      + intros [=].
      + intros _. by simplify_map_eq. }
  set (error := default "" (or_str metric (Some cls))).
  assert (error = if truthy_str metric then default "" metric else cls)
    as Herror.
  { subst error. unfold or_str. by destruct (truthy_str metric). }
  assert (negb (String.eqb error "") = true) as Hne.
  { apply negb_true_iff, String.eqb_neq. rewrite Herror.
    destruct metric as [s|]; simpl; [|done].
    destruct (String.eqb s "") eqn:Hs; simpl; [done|].
    by apply String.eqb_neq. }
  set (h1 := <["X-Processing-Exception" := VStr error]> (republish_headers m)).
  destruct (bump_processing_exceptions_spec h1) as (h2 & Hb & Hother & _).
  exists (match msg_basic_publish m with
          | Ok _ =>
              set_trace
                (trace c ++
                 [EvRepublish (Some (_error_exchange c)) (msg_routing_key m)
                    (msg_body m) (with_headers h2 (msg_properties m))])
                (after_write h2 m (set_measurement (Some ms') c))
          | Raise _ => after_write h2 m (set_measurement (Some ms') c)
          end), h2, ms'.
  split; [|split].
  - simpl. fold error.
    change (measurement_set_tag "exception" cls ;;
            tag_metric metric ;;
            _republish_processing_error error ;; ret PROCESSING_EXCEPTION)
      with (bind (measurement_set_tag "exception" cls)
              (fun _ => bind (tag_metric metric)
                 (fun _ => bind (_republish_processing_error error)
                    (fun _ => ret PROCESSING_EXCEPTION)))).
    unfold bind at 1 2.
    unfold bind at 1 in Htags.
    destruct (measurement_set_tag "exception" cls c) as [[[]|e] c1];
      [|discriminate].
    rewrite Htags.
    unfold _republish_processing_error, write_headers, channel_basic_publish,
      after_write.
    unfold bind, gets, attr, lift, emit, modify, ret, raise.
    simpl. rewrite Hm. simpl. rewrite Hne. fold h1. rewrite Hb.
    by destruct (headers_are_shared m), (msg_basic_publish m).
  - destruct (msg_basic_publish m); simpl;
      by rewrite ?trace_after_write, ?app_nil_r.
  - split.
    + rewrite Hother by done. subst h1. rewrite lookup_insert_eq.
      by rewrite Herror.
    + assert (forall c0, _measurement (after_write h2 m c0) = _measurement c0)
        as Hkeep.
      { intros c0. unfold after_write. by destruct (headers_are_shared m). }
      split; [|by repeat split].
      destruct (msg_basic_publish m); simpl; by rewrite Hkeep.
Qed.

Lemma processing_error_is_tagged_and_republished_witness :
  exists c' h,
    on_exception (ProcessingException "ProcessingException" (Some "db-timeout"))
      (Sample.consumer_on false Sample.plain_message) =
      (Ok PROCESSING_EXCEPTION, c') /\
    last_republished (trace c') = Some h /\
    h !! "X-Processing-Exception" = Some (VStr "db-timeout").
Proof.
  destruct (processing_error_is_tagged_and_republished "ProcessingException"
              (Some "db-timeout")
              (Sample.consumer_on false Sample.plain_message)
              Sample.plain_message Sample.no_measurement
              eq_refl eq_refl) as (c' & h & ms' & Heq & Hl & Hh & _).
  - discriminate.
  - exists c', h. split; [exact Heq|]. split; [|exact Hh].
    simpl in Hl. rewrite Hl. reflexivity.
Defined.

(** ** Publishing *)

Lemma publish_connection_eq nm target c :
  target_connection target c = Some nm ->
  _publish_connection target c =
    match _connections c !! nm with
    | None => (Raise (ValueError ("Channel " ++ format_opt target ++ " not found")), c)
    | Some k =>
        if negb (conn_is_connected k) || conn_channel_is_closed k
        then (Raise (RabbitMQException "RabbitMQException"), c)
        else (Ok (nm, k), c)
    end.
Proof.
  unfold target_connection, _publish_connection.
  destruct (truthy_str target) eqn:Ht.
  - intros ->. unfold bind, ret, gets, raise. simpl.
    destruct (_connections c !! nm) as [k|]; [|done].
    by destruct (negb (conn_is_connected k) || conn_channel_is_closed k).
  - destruct (_message c) as [m|] eqn:Hm; [|discriminate].
    intros [= <-]. unfold bind, ret, gets, raise, attr. rewrite Hm. simpl.
    destruct (_connections c !! msg_connection m) as [k|]; [|done].
    by destruct (negb (conn_is_connected k) || conn_channel_is_closed k).
Qed.

(** On a usable connection [publish_message] publishes the body once, with
    the properties that are not [None], and returns a future exactly when
    the connection has publisher confirmations: the publish is then
    registered as waiting on that connection, after those already waiting;
    the other connections are left alone. *)
Theorem publish_returns_future_with_confirmations lib exch rk properties body
    channel connection c nm k ms :
  target_connection (or_str channel connection) c = Some nm ->
  _connections c !! nm = Some k ->
  conn_is_connected k = true ->
  conn_channel_is_closed k = false ->
  _measurement c = Some ms ->
  exists c',
    Consumer_publish_message lib exch rk properties body channel connection c =
      (Ok (if conn_publisher_confirmations k
           then Some (length (conn_pending k)) else None), c') /\
    trace c' =
      (trace c ++
       [EvPublish nm exch rk (_get_pika_properties properties) body
          (conn_publisher_confirmations k)])%list /\
    _connections c' !! nm =
      Some (if conn_publisher_confirmations k
            then with_pending
                   (conn_pending k ++
                    [{| pc_exchange := exch; pc_routing_key := rk;
                        pc_properties := _get_pika_properties properties |}])
                   k
            else k) /\
    (forall nm', nm' <> nm -> _connections c' !! nm' = _connections c !! nm').
Proof.
  intros Ht Hk Hc Hcl Hms.
  unfold Consumer_publish_message. unfold bind at 1.
  rewrite (publish_connection_eq nm _ c Ht), Hk, Hc, Hcl. simpl.
  unfold _publisher_confirmation_future, measurement_add_duration, emit,
    add_confirmation_future.
  unfold bind, gets, attr, modify, ret. rewrite Hms. simpl. rewrite Hk.
  destruct (conn_publisher_confirmations k); simpl; rewrite ?Hms; simpl.
  - eexists. split; [reflexivity|]. simpl. repeat split.
    + by rewrite lookup_insert_eq.
    + intros nm' Hne. by rewrite lookup_insert_ne.
  - eexists. split; [reflexivity|]. simpl. by repeat split.
Qed.

Lemma publish_returns_future_with_confirmations_witness :
  exists c',
    Consumer_publish_message Sample.lib (Some "events") (Some "order.done")
      ∅ (VBytes "ok") None None
      (Sample.consumer_on false Sample.plain_message) = (Ok None, c').
Proof.
  destruct (publish_returns_future_with_confirmations Sample.lib
              (Some "events") (Some "order.done") ∅ (VBytes "ok") None None
              (Sample.consumer_on false Sample.plain_message)
              "conn1" Sample.open_connection Sample.no_measurement)
    as (c' & Heq & _); try reflexivity.
  exists c'. exact Heq.
Defined.

Lemma Consumer_publish_message_down lib exch rk properties body channel
    connection c nm k :
  target_connection (or_str channel connection) c = Some nm ->
  _connections c !! nm = Some k ->
  conn_is_connected k = false \/ conn_channel_is_closed k = true ->
  Consumer_publish_message lib exch rk properties body channel connection c =
    (Raise (RabbitMQException "RabbitMQException"), c).
Proof.
  intros Ht Hk Hbad. unfold Consumer_publish_message. unfold bind at 1.
  rewrite (publish_connection_eq nm _ c Ht), Hk.
  assert (negb (conn_is_connected k) || conn_channel_is_closed k = true)
    as ->; [|done].
  destruct Hbad as [-> | ->]; [done | apply orb_true_r].
Qed.

(** [publish_message] on a connection the consumer does not know raises a
    [ValueError], and on a connection that is down or whose channel is
    closed a [RabbitMQException]; in both cases the consumer is left as it
    was: nothing is published, nothing is registered. *)
Theorem publish_needs_a_usable_connection lib exch rk properties body
    channel connection c nm :
  target_connection (or_str channel connection) c = Some nm ->
  (_connections c !! nm = None ->
   Consumer_publish_message lib exch rk properties body channel connection c =
     (Raise (ValueError ("Channel " ++
                         format_opt (or_str channel connection) ++
                         " not found")), c)) /\
  (forall k, _connections c !! nm = Some k ->
     conn_is_connected k = false \/ conn_channel_is_closed k = true ->
     Consumer_publish_message lib exch rk properties body channel connection c =
       (Raise (RabbitMQException "RabbitMQException"), c)).
Proof.
  intros Ht. split.
  - intros Hk. unfold Consumer_publish_message. unfold bind at 1.
    by rewrite (publish_connection_eq nm _ c Ht), Hk.
  - intros k Hk Hbad.
    by apply (Consumer_publish_message_down _ _ _ _ _ _ _ _ nm k).
Qed.

Lemma publish_needs_a_usable_connection_witness :
  Consumer_publish_message Sample.lib (Some "events") (Some "order.done")
    ∅ (VBytes "ok") None (Some "conn9")
    (Sample.consumer_on false Sample.plain_message) =
    (Raise (ValueError "Channel conn9 not found"),
     Sample.consumer_on false Sample.plain_message).
Proof.
  apply (publish_needs_a_usable_connection Sample.lib (Some "events")
           (Some "order.done") ∅ (VBytes "ok") None (Some "conn9")
           (Sample.consumer_on false Sample.plain_message) "conn9");
    reflexivity.
Defined.

(** When [process] of a plain [Consumer] starts by publishing on a
    connection that is down, the execution ends with [RABBITMQ_EXCEPTION]:
    nothing is published, the rest of [process] does not run, and
    [on_finish] is called. *)
Theorem publish_on_a_down_connection_gives_rabbitmq_exception lib message_in
    measurement exch rk properties body connection rest c c1 nm k :
  execute_filters lib message_in measurement c = (Ok None, c1) ->
  smart c1 = false ->
  target_connection connection c1 = Some nm ->
  _connections c1 !! nm = Some k ->
  conn_is_connected k = false \/ conn_channel_is_closed k = true ->
  exists c',
    execute lib message_in measurement (Plain [])
      (Plain (CallPublishMessage exch rk properties body connection :: rest)) c
      = (Ok RABBITMQ_EXCEPTION, c') /\
    trace c' = (trace c1 ++ [EvPrepare; EvProcess; EvOnFinish])%list.
Proof.
  intros Hf Hsmart Ht Hk Hbad.
  destruct (execute_filters_ready _ _ _ _ _ Hf) as (Hm & [ms Hms] & Hfin).
  rewrite execute_eq, Hf.
  unfold execute_guarded, try_except_finally.
  rewrite prepare_and_process_eq. simpl.
  unfold ret at 1. simpl. rewrite Hfin.
  unfold bind at 1. unfold bind at 1. unfold gets at 1.
  unfold bind at 1. unfold gets at 1. simpl. rewrite Hsmart.
  unfold bind at 1.
  match goal with
  | |- context [Consumer_publish_message lib exch rk _ body None connection ?s] =>
      set (cq := s)
  end.
  rewrite (Consumer_publish_message_down lib exch rk (deref properties cq)
             body None connection cq nm k Ht Hk Hbad).
  simpl.
  unfold measurement_set_tag, finish_if_needed, finish, on_finish, emit.
  unfold bind, gets, attr, modify, ret. simpl. rewrite Hms. simpl.
  rewrite Hfin. simpl. subst cq. simpl. rewrite Hfin. simpl.
  eexists. split; [reflexivity|]. simpl. by rewrite <- !app_assoc.
Qed.

Lemma publish_on_a_down_connection_gives_rabbitmq_exception_witness :
  let down :=
    {| conn_is_connected := false; conn_channel_is_closed := false;
       conn_publisher_confirmations := false;
       conn_correlation_id := None; conn_pending := [] |} in
  let c := set_connections {[ "conn1" := down ]}
             (Sample.consumer_of false MTNone false None None) in
  exists c',
    execute Sample.lib Sample.plain_message Sample.no_measurement (Plain [])
      (Plain [CallPublishMessage (Some "events") (Some "order.done")
                1%positive (VBytes "ok") None]) c
      = (Ok RABBITMQ_EXCEPTION, c').
Proof.
  intros down c.
  pose (c1 := (execute_filters Sample.lib Sample.plain_message
                 Sample.no_measurement c).2).
  assert (execute_filters Sample.lib Sample.plain_message
            Sample.no_measurement c = (Ok None, c1)) as Hf.
  { vm_compute. reflexivity. }
  destruct (publish_on_a_down_connection_gives_rabbitmq_exception Sample.lib
              Sample.plain_message Sample.no_measurement (Some "events")
              (Some "order.done") 1%positive (VBytes "ok") None [] c c1
              "conn1" (with_correlation_id (Some (uuid4 Sample.lib)) down) Hf)
    as (c' & Heq & _).
  - reflexivity.
  - reflexivity.
  - vm_compute. reflexivity.
  - by left.
  - exists c'. exact Heq.
Defined.

(** ** Content negotiation *)

(** When a [SmartConsumer] is created the registry keeps its eleven
    content types; MessagePack is enabled exactly when [u-msgpack-python]
    is installed, HTML and XML exactly when both [beautifulsoup4] and
    [lxml] are, and every other entry is as the class writes it.  There is
    no entry for [text/x-yaml]. *)
Theorem registry_follows_installed_packages lib :
  let reg := SmartConsumer_init_registry lib in
  let bs4 := installed lib "beautifulsoup4" && installed lib "lxml" in
  dom reg = dom _SERIALIZATION_MAP /\
  d_enabled <$> reg !! "application/msgpack"
    = Some (installed lib "u-msgpack-python") /\
  d_enabled <$> reg !! "text/html" = Some bs4 /\
  d_enabled <$> reg !! "text/xml" = Some bs4 /\
  (forall key,
     key ∉ ["application/msgpack"; "text/html"; "text/xml"] ->
     reg !! key = _SERIALIZATION_MAP !! key) /\
  reg !! "text/x-yaml" = None.
Proof.
  cbv zeta. unfold SmartConsumer_init_registry.
  split; [by rewrite !dom_alter_L|].
  split; [by rewrite lookup_alter_eq|].
  split; [by rewrite lookup_alter_ne, lookup_alter_eq|].
  split; [by rewrite !lookup_alter_ne, lookup_alter_eq by done|].
  split.
  - intros key Hk. rewrite !not_elem_of_cons in Hk.
    destruct Hk as (? & ? & ? & _). by rewrite !lookup_alter_ne.
  - by rewrite !lookup_alter_ne.
Qed.

(** For a message whose encoding is not declared or not known: when its
    content type is not declared, or parses to a type that is not in the
    registry or is disabled, [body] is the raw bytes of the message: no
    codec runs and the read raises nothing; when its content type does not
    parse, the read raises what the parser raised.  The raw bytes are
    cached in both cases. *)
Theorem undeclared_body_is_raw_bytes lib c m :
  _message c = Some m ->
  truthy (_message_body c) = false ->
  (content_encoding c = None \/
   exists e, content_encoding c = Some e /\ _CODEC_MAP !! e = None) ->
  let raw := VBytes (msg_body m) in
  (content_type c = None ->
   SmartConsumer_body lib c = (Ok raw, set_message_body raw c)) /\
  (forall t ct,
     content_type c = Some t ->
     parse_content_type lib t = Ok ct ->
     (registry c !! content_key ct = None \/
      exists d, registry c !! content_key ct = Some d /\ d_enabled d = false) ->
     SmartConsumer_body lib c = (Ok raw, set_message_body raw c)) /\
  (forall t e,
     content_type c = Some t ->
     parse_content_type lib t = Raise e ->
     SmartConsumer_body lib c = (Raise e, set_message_body raw c)).
Proof.
  intros Hm Hcache Henc raw.
  assert (_maybe_decompress_body lib c = (Ok raw, c)) as Hd.
  { unfold _maybe_decompress_body, bind, gets, attr, ret. rewrite Hm.
    destruct Henc as [-> | (e & -> & ->)]; reflexivity. }
  assert (SmartConsumer_body lib c =
            match _maybe_deserialize_body lib (set_message_body raw c) with
            | (Ok v, c2) => (Ok v, set_message_body v c2)
            | (Raise e, c2) => (Raise e, c2)
            end) as ->.
  { unfold SmartConsumer_body. unfold bind at 1. unfold gets at 1.
    rewrite Hcache. unfold bind at 1. rewrite Hd.
    unfold bind at 1. unfold modify at 1. unfold bind at 1.
    by destruct (_maybe_deserialize_body lib (set_message_body raw c))
      as [[v|e] c2]. }
  set (c1 := set_message_body raw c).
  unfold _maybe_deserialize_body, bind, gets, lift, ret.
  change (content_type c1) with (content_type c).
  change (registry c1) with (registry c).
  split; [|split].
  - by intros ->.
  - intros t ct Ht Hp Hreg. rewrite Ht, Hp. simpl.
    destruct Hreg as [-> | (d & -> & ->)]; reflexivity.
  - intros t e Ht Hp. by rewrite Ht, Hp.
Qed.

Lemma undeclared_body_is_raw_bytes_witness :
  (SmartConsumer_body Sample.lib
     (Sample.consumer_on true Sample.plain_message)).1
    = Ok (VBytes "payload").
Proof.
  destruct (undeclared_body_is_raw_bytes Sample.lib
              (Sample.consumer_on true Sample.plain_message)
              Sample.plain_message eq_refl eq_refl) as [H _].
  - by left.
  - rewrite H; reflexivity.
Defined.

(** A read of [body] whose deserialization fails raises a
    [MessageException] built with the text of the error and
    [serialization-load], but leaves the undecoded bytes in the cache: when
    the message is not empty, the next read does not raise and returns
    those bytes, without running the loader again. *)
Theorem failed_load_leaves_raw_bytes_cached lib c m t ct d s e :
  _message c = Some m ->
  truthy (_message_body c) = false ->
  content_encoding c = None ->
  content_type c = Some t ->
  parse_content_type lib t = Ok ct ->
  registry c !! content_key ct = Some d ->
  d_enabled d = true ->
  d_binary d = false ->
  decode lib (charset ct) (msg_body m) = Ok s ->
  load lib (content_key ct) (VStr s) = Raise e ->
  msg_body m <> "" ->
  exists c',
    SmartConsumer_body lib c =
      (Raise (MessageException "MessageException"
                (positional_metric lib "serialization-load")),
       c') /\
    trace c' = (trace c ++ [EvLoad (content_key ct)])%list /\
    SmartConsumer_body lib c' = (Ok (VBytes (msg_body m)), c').
Proof.
  intros Hm Hcache Henc Htype Hparse Hreg Hen Hbin Hdec Hload Hne.
  exists (set_trace (trace c ++ [EvLoad (content_key ct)])
            (set_message_body (VBytes (msg_body m)) c)).
  split; [|split; [reflexivity|]].
  - unfold SmartConsumer_body, _maybe_decompress_body.
    unfold bind at 1. unfold gets at 1. rewrite Hcache.
    unfold bind, gets, attr, ret, modify. rewrite Henc, Hm. simpl.
    unfold _maybe_deserialize_body, _maybe_decode,
      _maybe_invoke_serialization_load, emit.
    unfold bind, gets, lift, modify, ret, raise.
    change (content_type (set_message_body (VBytes (msg_body m)) c))
      with (content_type c).
    rewrite Htype, Hparse. simpl. rewrite Hreg, Hen, Hbin. simpl.
    by rewrite Hdec, Hload.
  - unfold SmartConsumer_body, bind, gets, ret. simpl.
    assert (negb (String.eqb (msg_body m) "") = true) as ->; [|done].
    by apply negb_true_iff, String.eqb_neq.
Qed.

Lemma failed_load_leaves_raw_bytes_cached_witness :
  exists c',
    SmartConsumer_body Sample.lib
      (Sample.consumer_on true (Sample.json_message "oops")) =
      (Raise (MessageException "MessageException" (Some "serialization-load")),
       c') /\
    SmartConsumer_body Sample.lib c' = (Ok (VBytes "oops"), c').
Proof.
  destruct (failed_load_leaves_raw_bytes_cached Sample.lib
              (Sample.consumer_on true (Sample.json_message "oops"))
              (Sample.json_message "oops") "application/json"
              ("application", "json", ∅)
              (descriptor "json" "loads" "dumps" false true true)
              "oops" (ValueError "json"))
    as (c' & H1 & _ & H2); try reflexivity; try discriminate.
  exists c'. split; [exact H1 | exact H2].
Defined.

(** Encodings are matched without regard to case on the way in and with
    regard to case on the way out: a message whose [content_encoding]
    lowercases to a known encoding is decompressed, while the same
    spelling, when it is not itself a key of the codec map, leaves an
    outbound body uncompressed. *)
Theorem encoding_case_matters_only_outbound lib c m e module_name
    exch rk properties body channel connection :
  _message c = Some m ->
  prop_content_encoding (msg_properties m) = Some e ->
  _CODEC_MAP !! lower e = Some module_name ->
  _CODEC_MAP !! e = None ->
  is_string body = true ->
  dict_get properties "content_encoding" = VStr e ->
  _maybe_decompress_body lib c =
    (match decompress lib module_name (msg_body m) with
     | Ok b => Ok (VBytes b)
     | Raise err => Raise err
     end,
     set_trace (trace c ++ [EvDecompress module_name]) c) /\
  SmartConsumer_publish_message lib exch rk properties body false false
    channel connection c =
  Consumer_publish_message lib exch rk properties body
    (or_str channel connection) None c.
Proof.
  intros Hm He Hlow Hexact Hbody Hprop. split.
  - unfold _maybe_decompress_body, bind, gets, attr, emit, modify, lift, ret.
    unfold content_encoding, message_property, lower_or_none.
    rewrite Hm, He. simpl.
    destruct (String.eqb (lower e) "") eqn:Hempty.
    + apply String.eqb_eq in Hempty. rewrite Hempty in Hlow. done.
    + rewrite Hlow. simpl.
      by destruct (decompress lib module_name (msg_body m)).
  - by apply publish_unknown_encoding with e.
Qed.

Lemma encoding_case_matters_only_outbound_witness :
  let m := message_of_encoding in
  let c := Sample.consumer_on true m in
  (_maybe_decompress_body Sample.lib c).1 = Ok (VBytes "payload").
Proof.
  intros m c.
  pose proof (encoding_case_matters_only_outbound Sample.lib c m "GZIP"
                "zlib" None None {[ "content_encoding" := VStr "GZIP" ]}
                (VBytes "x") None None eq_refl eq_refl eq_refl eq_refl
                eq_refl eq_refl) as [H _].
  rewrite H. reflexivity.
Defined.

(** A structured body published with a text content type and an encoding
    reads back as itself: when the dump method gives a text, the codec
    undoes its own compression, and the load method undoes the dump, the
    publish hands the compressed text to [Consumer.publish_message], and a
    consumer that receives these bytes with the same content type and
    encoding gets the value that was published. *)
Theorem published_body_reads_back lib exch rk properties v channel connection
    c t e ct d module_name s b :
  is_string v = false ->
  dict_get properties "content_type" = VStr t ->
  dict_get properties "content_encoding" = VStr e ->
  t <> "" -> lower t = t ->
  e <> "" -> lower e = e ->
  parse_content_type lib t = Ok ct ->
  registry c !! content_key ct = Some d ->
  d_enabled d = true ->
  d_binary d = false ->
  _CODEC_MAP !! e = Some module_name ->
  dump lib (content_key ct) v = Ok (VStr s) ->
  compress lib module_name (encode_utf8 lib s) = Ok b ->
  decompress lib module_name b = Ok (encode_utf8 lib s) ->
  decode lib (charset ct) (encode_utf8 lib s) = Ok s ->
  load lib (content_key ct) (VStr s) = Ok v ->
  SmartConsumer_publish_message lib exch rk properties v false false
    channel connection c =
    Consumer_publish_message lib exch rk properties (VBytes b)
      (or_str channel connection) None
      (set_trace
         (trace c ++ [EvDump (content_key ct); EvCompress module_name]) c) /\
  (forall c_in m,
     _message c_in = Some m ->
     msg_body m = b ->
     prop_content_type (msg_properties m) = Some t ->
     prop_content_encoding (msg_properties m) = Some e ->
     truthy (_message_body c_in) = false ->
     registry c_in = registry c ->
     (SmartConsumer_body lib c_in).1 = Ok v).
Proof.
  intros Hv Ht He Htne Htl Hene Hel Hparse Hreg Hen Hbin Hcodec Hdump Hcomp
    Hdecomp Hdec Hload.
  assert (negb (String.eqb t "") = true) as Htt
    by by apply negb_true_iff, String.eqb_neq.
  split.
  - unfold SmartConsumer_publish_message, _serialize, _maybe_decode,
      _maybe_invoke_serialization_dump, _compress, emit.
    unfold bind at 1. rewrite Hv, Ht. simpl. rewrite Htt.
    unfold bind, lift, gets, modify, ret, raise.
    rewrite Hparse. simpl. rewrite Hreg, Hen. simpl.
    destruct v; try discriminate Hv; simpl;
      rewrite Hdump; simpl; rewrite He; simpl; rewrite Hcodec; simpl;
      rewrite Hcomp; simpl; by rewrite <- app_assoc.
  - intros c_in m Hm Hb Hmt Hme Hcache Hregs.
    unfold SmartConsumer_body, _maybe_decompress_body.
    unfold bind at 1. unfold gets at 1. rewrite Hcache.
    unfold bind, gets, attr, emit, modify, lift, ret.
    unfold content_encoding, message_property, lower_or_none.
    rewrite Hm, Hme. simpl. rewrite Hel.
    assert (String.eqb e "" = false) as -> by by apply String.eqb_neq.
    rewrite Hcodec. simpl. rewrite Hb, Hdecomp. simpl.
    unfold _maybe_deserialize_body, _maybe_decode,
      _maybe_invoke_serialization_load, emit.
    unfold bind, gets, lift, modify, ret, raise.
    unfold content_type, message_property, lower_or_none. simpl.
    rewrite Hm, Hmt. simpl. rewrite Htl.
    assert (String.eqb t "" = false) as -> by by apply String.eqb_neq.
    rewrite Hparse. simpl. rewrite Hregs, Hreg, Hen, Hbin. simpl.
    by rewrite Hdec, Hload.
Qed.

Lemma published_body_reads_back_witness :
  let m :=
    Sample.message_of "z[1]"
      {| prop_app_id := None; prop_content_encoding := Some "gzip";
         prop_content_type := Some "application/json";
         prop_correlation_id := None; prop_expiration := None;
         prop_headers := None; prop_message_id := None;
         prop_priority := None; prop_reply_to := None;
         prop_timestamp := None; prop_type := None; prop_user_id := None |} in
  (SmartConsumer_body Sample.lib (Sample.consumer_on true m)).1
    = Ok (VList [VInt 1]).
Proof.
  intros m.
  assert (forall c_in m',
            _message c_in = Some m' ->
            msg_body m' = "z[1]" ->
            prop_content_type (msg_properties m') = Some "application/json" ->
            prop_content_encoding (msg_properties m') = Some "gzip" ->
            truthy (_message_body c_in) = false ->
            registry c_in = registry (Sample.consumer_on true Sample.plain_message) ->
            (SmartConsumer_body Sample.lib c_in).1 = Ok (VList [VInt 1])) as H.
  { apply (published_body_reads_back Sample.lib (Some "events")
             (Some "order.done") (Sample.json_properties "gzip")
             (VList [VInt 1]) None None
             (Sample.consumer_on true Sample.plain_message)
             "application/json" "gzip" ("application", "json", ∅)
             (descriptor "json" "loads" "dumps" false true true)
             "zlib" "[1]" "z[1]");
      try reflexivity; discriminate. }
  apply (H (Sample.consumer_on true m) m); reflexivity.
Defined.

Local Instance no_publish_preorder : PreOrder no_publish.
Proof.
  split.
  - intros c. reflexivity.
  - intros c1 c2 c3 H12 H23. unfold no_publish in *. congruence.
Qed.

Lemma compress_gives_bytes lib value module_name c :
  let r := _compress lib value module_name c in
  no_publish c r.2 /\
  ((exists e, r.1 = Raise e) \/
   (exists bytes b,
      compress lib module_name bytes = Ok b /\ r.1 = Ok (VBytes b))).
Proof.
  cbv zeta. unfold _compress, bind, emit, modify, lift, ret, raise, no_publish.
  destruct value; simpl; try (split; [done | left; by eexists]).
  - destruct (compress lib module_name (encode_utf8 lib s)) as [b|e] eqn:Hc;
      simpl; rewrite count_app; simpl.
    + split; [lia|]. right. by exists (encode_utf8 lib s), b.
    + split; [lia|]. left. by eexists.
  - destruct (compress lib module_name s) as [b|e] eqn:Hc;
      simpl; rewrite count_app; simpl.
    + split; [lia|]. right. by exists s, b.
    + split; [lia|]. left. by eexists.
Qed.

(** With a known encoding declared and auto-encoding on, what
    [SmartConsumer.publish_message] hands to [Consumer.publish_message] is
    always the compressed bytes: either serialization or compression
    raises, and nothing has been published, or the body passed on is the
    output of the compressor. *)
Theorem known_encoding_is_always_applied lib exch rk properties body
    no_serialization channel connection c module_name :
  codec_for (dict_get properties "content_encoding") = Ok (Some module_name) ->
  let r := SmartConsumer_publish_message lib exch rk properties body
             no_serialization false channel connection c in
  (exists e, r.1 = Raise e /\ no_publish c r.2) \/
  (exists bytes b c2,
     compress lib module_name bytes = Ok b /\
     no_publish c c2 /\
     r = Consumer_publish_message lib exch rk properties (VBytes b)
           (or_str channel connection) None c2).
Proof.
  intros Hcodec r. subst r.
  set (serialize :=
         if negb no_serialization && negb (is_string body)
            && truthy (dict_get properties "content_type")
         then
           match dict_get properties "content_type" with
           | VStr t =>
               let* ct := lift (parse_content_type lib t) in
               _serialize lib body ct
           | _ => raise AttributeError
           end
         else ret body).
  assert (SmartConsumer_publish_message lib exch rk properties body
            no_serialization false channel connection c =
          match serialize c with
          | (Raise e, c1) => (Raise e, c1)
          | (Ok body1, c1) =>
              match _compress lib body1 module_name c1 with
              | (Raise e, c2) => (Raise e, c2)
              | (Ok body2, c2) =>
                  Consumer_publish_message lib exch rk properties body2
                    (or_str channel connection) None c2
              end
          end) as ->.
  { unfold SmartConsumer_publish_message. fold serialize.
    unfold bind at 1. destruct (serialize c) as [[body1|e] c1]; [|done].
    unfold bind at 1. unfold bind at 1. unfold lift at 1. rewrite Hcodec.
    by destruct (_compress lib body1 module_name c1) as [[body2|e] c2]. }
  assert (respects no_publish serialize) as Hser.
  { subst serialize.
    unfold _serialize, _maybe_decode, _maybe_invoke_serialization_dump, emit.
    respects_steps ltac:(unfold no_publish; simpl;
                         rewrite ?count_app; simpl; lia). }
  specialize (Hser c).
  destruct (serialize c) as [[body1|e] c1]; simpl in Hser.
  - destruct (compress_gives_bytes lib body1 module_name c1) as [Hnp Hres].
    destruct (_compress lib body1 module_name c1) as [[body2|e] c2];
      simpl in *.
    + right. destruct Hres as [[e [=]]|(bytes & b & Hc & [= ->])].
      exists bytes, b, c2. split; [done|]. split; [|reflexivity].
      by transitivity c1.
    + left. eexists. split; [reflexivity|]. by transitivity c1.
  - left. eexists. split; [reflexivity | exact Hser].
Qed.

Lemma known_encoding_is_always_applied_witness :
  let r := SmartConsumer_publish_message Sample.lib (Some "events")
             (Some "order.done") (Sample.json_properties "gzip")
             (VDict []) false false None None
             (Sample.consumer_on true Sample.plain_message) in
  (exists e, r.1 = Raise e /\
             no_publish (Sample.consumer_on true Sample.plain_message) r.2) \/
  (exists bytes b c2,
     compress Sample.lib "zlib" bytes = Ok b /\
     no_publish (Sample.consumer_on true Sample.plain_message) c2 /\
     r = Consumer_publish_message Sample.lib (Some "events")
           (Some "order.done") (Sample.json_properties "gzip") (VBytes b)
           (or_str None None) None c2).
Proof.
  apply (known_encoding_is_always_applied Sample.lib (Some "events")
           (Some "order.done") (Sample.json_properties "gzip") (VDict [])
           false None None (Sample.consumer_on true Sample.plain_message)
           "zlib").
  reflexivity.
Defined.

(** ** Replies of a [SmartConsumer] *)

(** [rpc_reply] passes its [connection] argument to [publish_message] as
    the fifth positional argument, which is [no_serialization] in
    [SmartConsumer]: on a [SmartConsumer] the name of the connection asked
    for has no effect, the reply goes through [publish_message] with
    serialization off and no connection named (so on the connection the
    message came from). *)
Theorem smart_rpc_reply_ignores_connection lib body properties exch rt
    conn1 conn2 c :
  smart c = true ->
  conn1 <> "" ->
  conn2 <> "" ->
  rpc_reply lib body properties exch rt (Some conn1) c =
    rpc_reply lib body properties exch rt (Some conn2) c /\
  (rt <> None \/ reply_to c <> None ->
   exists c1,
     rpc_reply lib body properties exch rt (Some conn1) c =
       SmartConsumer_publish_message lib (or_str exch (exchange c))
         (or_str rt (reply_to c))
         (reply_properties lib c (given_properties properties c))
         body true false None None c1).
Proof.
  intros Hsmart Hc1 Hc2.
  assert (forall conn, conn <> "" ->
            rt <> None \/ reply_to c <> None ->
            exists c1,
              smart c1 = true /\
              (forall conn',
                 rpc_reply lib body properties exch rt conn' c =
                   publish_message_positional lib (or_str exch (exchange c))
                     (or_str rt (reply_to c))
                     (reply_properties lib c (given_properties properties c))
                     body conn' c1)) as Hkey.
  { intros conn Hconn Hk.
    destruct (rpc_reply_with_key lib body properties exch rt None c Hk)
      as (p & c0 & Hnew & Hc0 & _).
    eexists. split; [|intros conn'].
    2: { destruct (rpc_reply_with_key lib body properties exch rt conn' c Hk)
           as (p' & c0' & Hnew' & _ & Heq).
         assert (p' = p /\ c0' = c0) as [-> ->] by (split; congruence).
         exact Heq. }
    simpl. rewrite Hc0. exact Hsmart. }
  assert (forall conn c1, conn <> "" -> smart c1 = true ->
            publish_message_positional lib (or_str exch (exchange c))
              (or_str rt (reply_to c))
              (reply_properties lib c (given_properties properties c))
              body (Some conn) c1 =
            SmartConsumer_publish_message lib (or_str exch (exchange c))
              (or_str rt (reply_to c))
              (reply_properties lib c (given_properties properties c))
              body true false None None c1) as Hpos.
  { intros conn c1 Hconn Hs.
    unfold publish_message_positional, bind, gets. rewrite Hs. simpl.
    assert (negb (String.eqb conn "") = true) as ->; [|done].
    by apply negb_true_iff, String.eqb_neq. }
  split.
  - destruct (bool_decide (rt = None) && bool_decide (reply_to c = None))
      eqn:Hb.
    + unfold rpc_reply, bind, gets. by rewrite Hb.
    + assert (rt <> None \/ reply_to c <> None) as Hk.
      { apply andb_false_iff in Hb as [Hb|Hb];
          apply bool_decide_eq_false in Hb; auto. }
      destruct (Hkey conn1 Hc1 Hk) as (c1 & Hs & Heq).
      by rewrite !Heq, !Hpos.
  - intros Hk. destruct (Hkey conn1 Hc1 Hk) as (c1 & Hs & Heq).
    exists c1. by rewrite Heq, Hpos.
Qed.

Lemma smart_rpc_reply_ignores_connection_witness :
  rpc_reply Sample.lib (VBytes "ok") None None None (Some "conn7")
    (Sample.consumer_on true Sample.request_message) =
  rpc_reply Sample.lib (VBytes "ok") None None None (Some "conn1")
    (Sample.consumer_on true Sample.request_message).
Proof.
  apply (smart_rpc_reply_ignores_connection Sample.lib (VBytes "ok") None
           None None "conn7" "conn1"
           (Sample.consumer_on true Sample.request_message));
    [reflexivity | discriminate | discriminate].
Defined.

(** ** Instances of the lemmas on the decoded body and on content types *)

Lemma SmartConsumer_body_memoized_witness :
  let c := Sample.consumer_on true (Sample.json_message "[1]") in
  let c1 := (SmartConsumer_body Sample.lib c).2 in
  SmartConsumer_body Sample.lib c1 = (Ok (VList [VInt 1]), c1).
Proof.
  intros c c1.
  apply (SmartConsumer_body_memoized Sample.lib c (VList [VInt 1]) c1).
  - vm_compute. reflexivity.
  - reflexivity.
Defined.

Lemma publish_unknown_content_type_witness :
  let c := Sample.consumer_on true Sample.plain_message in
  exists msg,
    SmartConsumer_publish_message Sample.lib (Some "events")
      (Some "order.done") {[ "content_type" := VStr "application/msgpack" ]}
      (VList []) false false None None c = (Raise (ValueError msg), c).
Proof.
  intros c.
  apply (publish_unknown_content_type Sample.lib (Some "events")
           (Some "order.done") {[ "content_type" := VStr "application/msgpack" ]}
           (VList []) "application/msgpack" ("application", "msgpack", ∅)).
  - reflexivity.
  - reflexivity.
  - discriminate.
  - reflexivity.
  - right. eexists. split; [vm_compute; reflexivity | reflexivity].
Defined.
